(** * RunAnywhere Agent: access gate, credential resolver, prompt patches

    A shallow embedding of the Python package [runanywhere_agent]
    ([auth.py], [config.py], [prompts/patch.py], [prompts/runanywhere_prompts.py]
    and [__main__.py]) and the properties of it that its specification states.

    The program is sequential glue around a process environment, one cache
    file, a terminal, one HTTP request and the host tool (aider).  It is
    embedded as state-passing programs over a [state] record; what the
    program cannot decide by itself (the answer of the allow-list server,
    file-system faults, the encoding of the locale, the base64 codec of
    the standard library, the host tool's run loop) is read from a
    [platform] record, over which every theorem quantifies; the host's
    prompt classes, with the one inheritance among them, are part of the
    state. *)

From Stdlib Require Import ZArith NArith Ascii String List Lia.
From stdpp Require Import base option gmap strings list pretty.

Local Open Scope Z_scope.

(** ** Python strings

    A Python [str] is embedded as a Rocq [string] whose characters are the
    code points U+0000..U+00FF.  [isspace], [strip] and [lower] are Python's
    on that range.  (The few glyphs outside the range that occur in printed
    literals, such as the check mark, stand in the literals as their UTF-8
    bytes; no function below inspects them.) *)

Module PyStr.

(** [bool(s)]: a string is truthy when it is not empty. *)
Definition truthy (s : string) : bool := negb (String.eqb s "").

(** [bool(o)] for an [Optional[str]]. *)
Definition truthy_opt (o : option string) : bool :=
  match o with
  | Some s => truthy s
  | None => false
  end.

(** [a or b] on [Optional[str]] operands. *)
Definition or_opt (a b : option string) : option string :=
  if truthy_opt a then a else b.

Definition code (c : ascii) : N := N_of_ascii c.

Definition between (lo hi n : N) : bool := (N.leb lo n && N.leb n hi)%bool.

(** [c.isspace()]: U+0009..U+000D, U+001C..U+001F, U+0020, U+0085, U+00A0. *)
Definition isspace (c : ascii) : bool :=
  let n := code c in
  (between 9 13 n || between 28 32 n || N.eqb n 133 || N.eqb n 160)%bool.

(** [c.lower()]: A..Z and the upper-case letters U+00C0..U+00DE of Latin-1
    (U+00D7, the multiplication sign, is not a letter) move up by 32. *)
Definition lower_char (c : ascii) : ascii :=
  let n := code c in
  if (between 65 90 n || between 192 214 n || between 216 222 n)%bool
  then ascii_of_N (n + 32) else c.

Fixpoint lower (s : string) : string :=
  match s with
  | EmptyString => EmptyString
  | String c s' => String (lower_char c) (lower s')
  end.

(** [c.upper()] on ASCII; only applied to the ASCII folder names of the
    documentation tree. *)
Definition upper_char (c : ascii) : ascii :=
  let n := code c in
  if between 97 122 n then ascii_of_N (n - 32) else c.

Fixpoint upper (s : string) : string :=
  match s with
  | EmptyString => EmptyString
  | String c s' => String (upper_char c) (upper s')
  end.

Fixpoint lstrip (s : string) : string :=
  match s with
  | EmptyString => EmptyString
  | String c s' => if isspace c then lstrip s' else s
  end.

Fixpoint rstrip (s : string) : string :=
  match s with
  | EmptyString => EmptyString
  | String c s' =>
      match rstrip s' with
      | EmptyString => if isspace c then EmptyString else String c EmptyString
      | r => String c r
      end
  end.

(** [s.strip()] *)
Definition strip (s : string) : string := lstrip (rstrip s).

(** [s.startswith(p)] *)
Definition startswith (s p : string) : bool := String.prefix p s.

(** [sub in s] *)
Fixpoint contains (sub s : string) : bool :=
  (String.prefix sub s ||
   match s with
   | EmptyString => false
   | String _ s' => contains sub s'
   end)%bool.

(** [sep.join(l)] *)
Definition join (sep : string) (l : list string) : string := String.concat sep l.

(** [c * n] *)
Fixpoint repeat_char (c : ascii) (n : nat) : string :=
  match n with
  | O => EmptyString
  | S n' => String c (repeat_char c n')
  end.

(** [format(s, "<w")]: pad on the right with spaces up to width [w]. *)
Definition ljust (w : nat) (s : string) : string :=
  s +:+ repeat_char " "%char (w - String.length s).

(** [x in l] for a list of strings. *)
Definition mem (x : string) (l : list string) : bool :=
  existsb (String.eqb x) l.

(** [l.remove(x)]: drops the first occurrence (the callers test [x in l]
    before, so the [ValueError] of a missing element does not arise). *)
Fixpoint remove_first (x : string) (l : list string) : list string :=
  match l with
  | [] => []
  | y :: l' => if String.eqb x y then l' else y :: remove_first x l'
  end.

End PyStr.

Import PyStr.


(** ** Exceptions

    The classes of the Python exceptions that the program handles or lets
    through, with their direct bases: the built-in ones and those of
    [requests.exceptions] (requests 2.27 and later, where [Response.json()]
    raises [requests.exceptions.JSONDecodeError], a [RequestException]). *)

Inductive exn_class :=
| BaseException | KeyboardInterrupt | Exception
| AttributeError | EOFError | ImportError | TypeError | ValueError | OSError
| UnicodeError | UnicodeEncodeError
| RequestException | Timeout | ConnectionError | ConnectTimeout | ReadTimeout
| InvalidJSONError | JSONDecodeError.

Global Instance exn_class_eq_dec : EqDecision exn_class.
Proof. solve_decision. Defined.

Definition bases (c : exn_class) : list exn_class :=
  match c with
  | BaseException => []
  | KeyboardInterrupt | Exception => [BaseException]
  | AttributeError | EOFError | ImportError | TypeError | ValueError | OSError =>
      [Exception]
  | UnicodeError => [ValueError]
  | UnicodeEncodeError => [UnicodeError]
  | RequestException => [OSError]
  | Timeout | ConnectionError | InvalidJSONError => [RequestException]
  | ConnectTimeout => [ConnectionError; Timeout]
  | ReadTimeout => [Timeout]
  | JSONDecodeError => [InvalidJSONError; ValueError]
  end.

(** The class itself and its ancestors; the hierarchy is 7 levels deep. *)
Fixpoint ancestors (depth : nat) (c : exn_class) : list exn_class :=
  c :: match depth with
       | O => []
       | S d => flat_map (ancestors d) (bases c)
       end.

Definition issubclass (c base : exn_class) : bool :=
  bool_decide (base ∈ ancestors 7 c).

(** An exception object: its class and [str(e)]. *)
Record exn := { exn_cls : exn_class; exn_str : string }.

Definition isinstance (e : exn) (c : exn_class) : bool := issubclass (exn_cls e) c.

(** ** What a program run observes and leaves behind *)

Record http_request := {
  url : string;
  params : list (string * string);
  headers : list (string * string);
  timeout : Z
}.

(** A decoded JSON document, as [json.loads] returns it. *)
#[warnings="-register-all"]
Inductive json_value :=
| JNull
| JBool (b : bool)
| JNumber (literal : string)
| JString (s : string)
| JArray (items : list json_value)
| JObject (members : list (string * json_value)).

(** An HTTP response: its status and what [response.json()] does, the
    decoded body or the message of the [JSONDecodeError] it raises. *)
Record response := {
  status_code : Z;
  json : string + json_value
}.

Record message := { role : string; content : string }.

(** A prompt class of the host: each attribute is [None] when the class
    does not define it, itself or in a base that is not one of the five
    classes below. *)
Record prompt_class := {
  main_system : option string;
  example_messages : option (list message);
  repo_content_prefix : option string
}.

(** The host tool's prompt slots.  A module is [None] when importing it
    raises [ImportError]; inside [aider.coders.editblock_prompts] and
    [aider.coders.wholefile_prompts] the class is [None] when the module
    does not define it; [EditBlockFencedPrompts], [UnifiedDiffPrompts] and
    [HelpPrompts] are imported by name, so a missing class is a failed
    import as well.  [fenced_inherits] says that [EditBlockFencedPrompts]
    is declared a subclass of [EditBlockPrompts], as aider declares it: an
    attribute it does not define is then the one of [EditBlockPrompts],
    the same object.  The other classes stand alone. *)
Record host_state := {
  editblock_prompts : option (option prompt_class);
  wholefile_prompts : option (option prompt_class);
  base_prompts : bool;
  EditBlockFencedPrompts : option prompt_class;
  UnifiedDiffPrompts : option prompt_class;
  HelpPrompts : option prompt_class;
  prompts : option (option string);
  fenced_inherits : bool
}.

Inductive event :=
| Print (text : string)
| Prompt (text : string)
| HttpGet (req : http_request)
| Traceback (e : exn)
| HostMain (args : list string).

(** The mutable world of one process: [os.environ], the cache file
    [~/.runanywhere/auth_cache] ([None] when it does not exist), the lines
    ready on standard input, [sys.argv], the host's prompt slots and the
    trace of what the run has done so far, oldest first. *)
Record state := {
  environ : gmap string string;
  cache_file : option string;
  stdin : list string;
  argv : list string;
  host : host_state;
  trace : list event
}.

Inductive outcome (A : Type) :=
| Return (a : A)
| Raise (e : exn)
| SysExit (status : Z).
Arguments Return {A} a.
Arguments Raise {A} e.
Arguments SysExit {A} status.

(** The operations on the cache file that can raise [OSError]: reading,
    making the directory, opening for writing, writing and closing what
    was opened, and unlinking. *)
Inductive fs_op := FsRead | FsMkdir | FsWrite | FsFlush | FsUnlink.

(** A file of the documentation tree: absent, unreadable or its text. *)
Inductive doc_file := Absent | Unreadable | Text (s : string).

Record sdk_folder := { Documentation_md : doc_file; ARCHITECTURE_md : doc_file }.

(** The [resources] directory of the package. *)
Record resources := {
  docs : option (string -> option sdk_folder);
  sdk_documentation_md : doc_file
}.

(** What is fixed for a run and outside the program's control. *)
Record platform := {
  (** [runanywhere_agent.__version__] *)
  __version__ : string;
  (** [config._EMBEDDED_KEYS], which packaging replaces *)
  _EMBEDDED_KEYS : gmap string string;
  (** [base64.b64decode(s).decode("utf-8")], [None] when either step raises *)
  b64decode_utf8 : string -> option string;
  (** the constants [SDK_DOCUMENTATION] and [RUNANYWHERE_EXAMPLE_MESSAGES] of
      [runanywhere_prompts.py] *)
  SDK_DOCUMENTATION : string;
  RUNANYWHERE_EXAMPLE_MESSAGES : list message;
  (** the documentation tree next to the package *)
  resources_dir : resources;
  (** the answer to [requests.get]: an exception or a response *)
  http_get : http_request -> exn + response;
  (** [str(e)] of the [OSError] a file operation on the cache raises, if any *)
  fs_fault : fs_op -> option string;
  (** [str(e)] of the [UnicodeEncodeError] that encoding the text raises in
      the encoding of the locale, in which text files are written, if any *)
  encode_fault : string -> option string;
  (** [aider.main.main()], given [sys.argv] *)
  aider_main : list string -> outcome (option Z)
}.

(** The placeholders of [_EMBEDDED_KEYS] as the repository ships them. *)
Definition shipped_EMBEDDED_KEYS : gmap string string :=
  <["anthropic" := "REPLACE_WITH_BASE64_ENCODED_ANTHROPIC_KEY"]>
  (<["openai" := "REPLACE_WITH_BASE64_ENCODED_OPENAI_KEY"]> ∅).

(** ** Programs *)

Definition prog (A : Type) : Type := state -> outcome A * state.

Global Instance prog_ret : MRet prog := fun A a w => (Return a, w).

Global Instance prog_bind : MBind prog := fun A B f m w =>
  match m w with
  | (Return a, w') => f a w'
  | (Raise e, w') => (Raise e, w')
  | (SysExit c, w') => (SysExit c, w')
  end.

Definition raise {A} (e : exn) : prog A := fun w => (Raise e, w).

(** [sys.exit(status)] *)
Definition sys_exit {A} (status : Z) : prog A := fun w => (SysExit status, w).

(** [try: body except C1 as e: h1 e except C2 as e: h2 e ...]: the first
    clause whose class the exception is an instance of handles it. *)
Definition try_except {A} (body : prog A)
    (clauses : list (exn_class * (exn -> prog A))) : prog A := fun w =>
  match body w with
  | (Raise e, w') =>
      match List.find (fun cl => isinstance e (fst cl)) clauses with
      | Some cl => snd cl e w'
      | None => (Raise e, w')
      end
  | r => r
  end.

(** The state after it has done [evs] more. *)
Definition add_events (evs : list event) (w : state) : state :=
  {| environ := environ w; cache_file := cache_file w; stdin := stdin w;
     argv := argv w; host := host w; trace := trace w ++ evs |}.

Definition emit (ev : event) : prog unit := fun w => (Return tt, add_events [ev] w).

(** [print(text)] *)
Definition print (text : string) : prog unit := emit (Print text).

(** [sys.stdin.readline()] as [input] uses it: the next line, [EOFError] at
    the end of the input. *)
Definition read_line : prog string := fun w =>
  match stdin w with
  | [] => (Raise {| exn_cls := EOFError; exn_str := "EOF when reading a line" |}, w)
  | line :: rest =>
      (Return line,
       {| environ := environ w; cache_file := cache_file w; stdin := rest;
          argv := argv w; host := host w; trace := trace w |})
  end.

(** [input(text)]: shows the prompt and reads one line. *)
Definition input (text : string) : prog string :=
  emit (Prompt text);;
  read_line.

(** [os.environ.get(name)] *)
Definition environ_get (name : string) : prog (option string) := fun w =>
  (Return (environ w !! name), w).

(** [os.environ[name] = value] *)
Definition environ_set (name value : string) : prog unit := fun w =>
  (Return tt,
   {| environ := <[name := value]> (environ w); cache_file := cache_file w;
      stdin := stdin w; argv := argv w; host := host w; trace := trace w |}).

Definition get_argv : prog (list string) := fun w => (Return (argv w), w).

Definition set_argv (l : list string) : prog unit := fun w =>
  (Return tt,
   {| environ := environ w; cache_file := cache_file w; stdin := stdin w;
      argv := l; host := host w; trace := trace w |}).

Definition get_host : prog host_state := fun w => (Return (host w), w).

Definition set_host (h : host_state) : prog unit := fun w =>
  (Return tt,
   {| environ := environ w; cache_file := cache_file w; stdin := stdin w;
      argv := argv w; host := h; trace := trace w |}).

Definition get_cache_file : prog (option string) := fun w => (Return (cache_file w), w).

Definition set_cache_file (c : option string) : prog unit := fun w =>
  (Return tt,
   {| environ := environ w; cache_file := c; stdin := stdin w;
      argv := argv w; host := host w; trace := trace w |}).

(** A line feed, and [c * n] written as in the source. *)
Definition NL : string := String "010"%char EmptyString.
Definition rule (c : ascii) (n : nat) : string := repeat_char c n.

(** ** auth.py *)

Section Auth.

Variable P : platform.

(** *** The cache file [AUTH_CACHE_FILE]

    Each operation raises [OSError] when the platform says so; reading
    or unlinking a file that does not exist raises it as well. *)

Definition os_error (msg : string) : exn := {| exn_cls := OSError; exn_str := msg |}.

Definition fs_guard (op : fs_op) : prog unit :=
  match fs_fault P op with
  | Some msg => raise (os_error msg)
  | None => mret tt
  end.

(** [AUTH_CACHE_FILE.exists()] *)
Definition path_exists : prog bool :=
  c ← get_cache_file;
  mret (bool_decide (is_Some c)).

(** Reading in text mode translates the line ends: a carriage return,
    with the line feed that follows it if there is one, comes back as one
    line feed. *)
Fixpoint newlines (after_cr : bool) (s : string) : string :=
  match s with
  | EmptyString => EmptyString
  | String c s' =>
      if Ascii.eqb c "013" then String "010" (newlines true s')
      else if (after_cr && Ascii.eqb c "010")%bool then newlines false s'
      else String c (newlines false s')
  end.

Definition universal_newlines (s : string) : string := newlines false s.

(** [AUTH_CACHE_FILE.read_text()]; the file holds text of the locale's
    encoding. *)
Definition read_text : prog string :=
  fs_guard FsRead;;
  c ← get_cache_file;
  match c with
  | Some s => mret (universal_newlines s)
  | None => raise (os_error "[Errno 2] No such file or directory")
  end.

(** [AUTH_CACHE_FILE.parent.mkdir(parents=True, exist_ok=True)] *)
Definition mkdir_parents : prog unit := fs_guard FsMkdir.

Definition unicode_encode_error (msg : string) : exn :=
  {| exn_cls := UnicodeEncodeError; exn_str := msg |}.

(** [AUTH_CACHE_FILE.write_text(text)]: [open] with mode [w] raises
    [OSError], or creates the file or empties it; then the text is encoded,
    which raises [UnicodeEncodeError] where the locale's encoding lacks one
    of its characters; then it is written as the file is closed, which can
    raise [OSError] again.  The text is shorter than the buffer, so until
    then nothing has reached the file.  The file holds the text as on
    POSIX, where a line feed is written as it is. *)
Definition write_text (text : string) : prog unit :=
  fs_guard FsWrite;;
  set_cache_file (Some "");;
  match encode_fault P text with
  | Some msg => raise (unicode_encode_error msg)
  | None => mret tt
  end;;
  fs_guard FsFlush;;
  set_cache_file (Some text).

(** [AUTH_CACHE_FILE.unlink()] *)
Definition unlink : prog unit :=
  fs_guard FsUnlink;;
  c ← get_cache_file;
  match c with
  | Some _ => set_cache_file None
  | None => raise (os_error "[Errno 2] No such file or directory")
  end.

Definition get_cached_email : prog (option string) :=
  try_except
    (present ← path_exists;
     if present : bool then text ← read_text; mret (Some (strip text))
     else mret None)
    [(OSError, fun _ => mret None)].

Definition save_email_to_cache (email : string) : prog unit :=
  try_except
    (mkdir_parents;; write_text email)
    [(OSError, fun e => print ("Warning: Could not save auth cache: " +:+ exn_str e))].

Definition clear_auth_cache : prog unit :=
  try_except
    (present ← path_exists;
     if present : bool then unlink else mret tt)
    [(OSError, fun _ => mret tt)].

(** *** The allow-list request *)

(** [os.environ.get("RUNANYWHERE_SUPABASE_URL", ...)], read when the
    module is imported, which [__main__] does right before it calls into
    it; nothing writes these variables. *)
Definition SUPABASE_URL : prog string :=
  v ← environ_get "RUNANYWHERE_SUPABASE_URL";
  mret (default "https://your-project.supabase.co" v).

Definition SUPABASE_ANON_KEY : prog string :=
  v ← environ_get "RUNANYWHERE_SUPABASE_KEY";
  mret (default "your-anon-key-here" v).

(** The request [verify_email] sends for the normalised [email]. *)
Definition allow_list_request (base key email : string) : http_request :=
  {| url := base +:+ "/rest/v1/authorized_users";
     params := [("email", "eq." +:+ email)];
     headers := [("apikey", key);
                 ("Authorization", "Bearer " +:+ key);
                 ("Content-Type", "application/json")];
     timeout := 10 |}.

(** [requests.get(...)] *)
Definition requests_get (req : http_request) : prog response :=
  emit (HttpGet req);;
  match http_get P req with
  | inl e => raise e
  | inr r => mret r
  end.

(** [response.json()] *)
Definition response_json (r : response) : prog json_value :=
  match json r with
  | inl msg => raise {| exn_cls := JSONDecodeError; exn_str := msg |}
  | inr v => mret v
  end.

(** The number literals [json.loads] makes an [int] of: an optional sign
    and digits.  Every other literal it accepts (a fraction, an exponent,
    and [NaN], [Infinity], [-Infinity]) becomes a [float]. *)
Fixpoint int_literal (l : string) : bool :=
  match l with
  | EmptyString => true
  | String c l' =>
      ((Ascii.eqb c "-" || (N.leb 48 (code c) && N.leb (code c) 57)) && int_literal l')%bool
  end.

(** [type(v).__name__] *)
Definition type_name (v : json_value) : string :=
  match v with
  | JNull => "NoneType"
  | JBool _ => "bool"
  | JNumber l => if int_literal l then "int" else "float"
  | JString _ => "str"
  | JArray _ => "list"
  | JObject _ => "dict"
  end.

(** [len(v)]: defined on lists, dicts (the distinct keys) and strings, a
    [TypeError] on the rest. *)
Definition py_len (v : json_value) : prog nat :=
  match v with
  | JArray items => mret (length items)
  | JObject members => mret (length (remove_dups (members.*1)))
  | JString s => mret (String.length s)
  | _ => raise {| exn_cls := TypeError;
                  exn_str := "object of type '" +:+ type_name v +:+ "' has no len()" |}
  end.

Definition verify_email (email : string) : prog bool :=
  if (negb (truthy email) || negb (truthy (strip email)))%bool then mret false
  else
    let email := lower (strip email) in
    dev ← environ_get "RUNANYWHERE_DEV_MODE";
    if bool_decide (dev = Some "1") then
      print "[DEV MODE] Skipping email verification";;
      mret true
    else
      try_except
        (base ← SUPABASE_URL;
         key ← SUPABASE_ANON_KEY;
         response ← requests_get (allow_list_request base key email);
         if Z.eqb (status_code response) 200 then
           users ← response_json response;
           n ← py_len users;
           mret (Nat.ltb 0 n)
         else
           print ("Warning: Auth check failed with status "
                  +:+ pretty (status_code response));;
           mret false)
        [(Timeout, fun _ =>
            print "Warning: Authentication server timeout. Please try again.";;
            mret false);
         (ConnectionError, fun _ =>
            print "Warning: Could not connect to authentication server.";;
            print "Please check your internet connection.";;
            mret false);
         (RequestException, fun e =>
            print ("Warning: Authentication error: " +:+ exn_str e);;
            mret false)].

(** *** Asking for the email *)

(** The [while True] loop of [prompt_for_email] over the lines that are
    ready on standard input: what it returns, the lines left and what it
    shows.  It ends with the first plausible line, or with [EOFError]
    when the input runs dry. *)
Fixpoint email_loop (lines : list string)
    : outcome string * list string * list event :=
  match lines with
  | [] =>
      (Raise {| exn_cls := EOFError; exn_str := "EOF when reading a line" |},
       [], [Prompt "Email: "])
  | line :: rest =>
      let email := strip line in
      if negb (truthy email) then
        let '(r, remaining, evs) := email_loop rest in
        (r, remaining,
         Prompt "Email: " :: Print "Email cannot be empty. Please try again." :: evs)
      else if (negb (contains "@" email) || negb (contains "." email))%bool then
        let '(r, remaining, evs) := email_loop rest in
        (r, remaining,
         Prompt "Email: " :: Print "Please enter a valid email address." :: evs)
      else (Return email, rest, [Prompt "Email: "])
  end.

Definition read_email : prog string := fun w =>
  let '(r, remaining, evs) := email_loop (stdin w) in
  (r, {| environ := environ w; cache_file := cache_file w; stdin := remaining;
         argv := argv w; host := host w; trace := trace w ++ evs |}).

(** The part of [prompt_for_email] after the cached identity was not
    taken. *)
Definition prompt_without_cache : prog string :=
  env_email ← environ_get "RUNANYWHERE_EMAIL";
  if truthy_opt env_email then
    print ("Using email from environment: " +:+ default "" env_email);;
    mret (strip (default "" env_email))
  else
    print (NL +:+ rule "=" 60);;
    print "  RunAnywhere Agent - Authentication Required";;
    print (rule "=" 60);;
    print (NL +:+ "Please enter your authorized email address.");;
    print ("Contact founders@runanywhere.ai if you need access." +:+ NL);;
    read_email.

Definition prompt_for_email : prog string :=
  cached_email ← get_cached_email;
  if truthy_opt cached_email then
    print ("Using cached email: " +:+ default "" cached_email);;
    use_cached ← input "Press Enter to continue, or type 'new' for a different email: ";
    if negb (String.eqb (lower (strip use_cached)) "new")
    then mret (default "" cached_email)
    else prompt_without_cache
  else prompt_without_cache.

Definition authenticate : prog string :=
  email ← prompt_for_email;
  print (NL +:+ "Verifying email...");;
  ok ← verify_email email;
  if ok : bool then
    print ("✓ Email verified: " +:+ email);;
    save_email_to_cache email;;
    mret email
  else
    print (NL +:+ rule "=" 60);;
    print "  Access Denied";;
    print (rule "=" 60);;
    print (NL +:+ "The email '" +:+ email +:+ "' is not authorized to use RunAnywhere Agent.");;
    print (NL +:+ "To get access:");;
    print "  1. Visit https://www.runanywhere.ai";;
    print "  2. Sign up for an account";;
    print "  3. Contact founders@runanywhere.ai for agent access";;
    print "";;
    clear_auth_cache;;
    sys_exit 1.

Definition logout : prog unit :=
  clear_auth_cache;;
  print "Logged out successfully. You will need to re-authenticate next time.".

End Auth.

(** ** config.py *)

Section Config.

Variable P : platform.

Definition DEFAULT_MODEL : string := "sonnet".

(** [_EMBEDDED_KEYS.get(provider, "")] *)
Definition embedded_key (provider : string) : string :=
  default "" (_EMBEDDED_KEYS P !! provider).

(** The [try] around the decoding turns every exception of the codec
    into [None]; [b64decode_utf8] answers [None] exactly then. *)
Definition _decode_key (encoded_key : string) : option string :=
  if (negb (truthy encoded_key) || startswith encoded_key "REPLACE_WITH")%bool
  then None
  else b64decode_utf8 P encoded_key.

Definition get_anthropic_key : prog (option string) :=
  env_key ← environ_get "ANTHROPIC_API_KEY";
  if truthy_opt env_key then mret env_key
  else mret (_decode_key (embedded_key "anthropic")).

Definition get_openai_key : prog (option string) :=
  env_key ← environ_get "OPENAI_API_KEY";
  if truthy_opt env_key then mret env_key
  else mret (_decode_key (embedded_key "openai")).

Definition initial_status : gmap string bool :=
  <["anthropic_injected" := false]>
  (<["openai_injected" := false]>
  (<["anthropic_available" := false]>
  (<["openai_available" := false]> ∅))).

(** One of the two blocks of [inject_api_keys]. *)
Definition inject_key (provider variable : string) (status : gmap string bool)
    : prog (gmap string bool) :=
  current ← environ_get variable;
  if negb (truthy_opt current) then
    let key := _decode_key (embedded_key provider) in
    if truthy_opt key then
      environ_set variable (default "" key);;
      mret (<[provider +:+ "_available" := true]>
            (<[provider +:+ "_injected" := true]> status))
    else mret status
  else mret (<[provider +:+ "_available" := true]> status).

Definition inject_api_keys : prog (gmap string bool) :=
  status ← inject_key "anthropic" "ANTHROPIC_API_KEY" initial_status;
  inject_key "openai" "OPENAI_API_KEY" status.

Definition check_api_keys : prog bool :=
  anthropic_key ← get_anthropic_key;
  openai_key ← get_openai_key;
  mret (truthy_opt (or_opt anthropic_key openai_key)).

Definition get_default_model : prog string :=
  env_model ← environ_get "RUNANYWHERE_DEFAULT_MODEL";
  if truthy_opt env_model then mret (default "" env_model)
  else
    anthropic_key ← get_anthropic_key;
    if truthy_opt anthropic_key then mret DEFAULT_MODEL
    else
      openai_key ← get_openai_key;
      if truthy_opt openai_key then mret "gpt-4o"
      else mret DEFAULT_MODEL.

Definition print_key_status : prog unit :=
  anthropic_key ← get_anthropic_key;
  let anthropic_available := truthy_opt anthropic_key in
  openai_key ← get_openai_key;
  let openai_available := truthy_opt openai_key in
  print (NL +:+ "API Key Status:");;
  print ("  Anthropic (Claude): "
         +:+ (if anthropic_available then "✓ Available" else "✗ Not configured"));;
  print ("  OpenAI (GPT):       "
         +:+ (if openai_available then "✓ Available" else "✗ Not configured"));;
  print "".

End Config.

(** *** The helper [encode_key_for_config]

    [str.encode("utf-8")] on the code points below 256 (one byte below
    128, two from there on) and [base64.b64encode] (RFC 4648, with
    padding); bytes are numbers below 256. *)

Definition utf8_char (c : ascii) : list N :=
  let n := code c in
  if N.ltb n 128 then [n] else [(192 + n / 64)%N; (128 + n mod 64)%N].

Fixpoint utf8_encode (s : string) : list N :=
  match s with
  | EmptyString => []
  | String c s' => utf8_char c ++ utf8_encode s'
  end.

Definition B64_ALPHABET : string :=
  "ABCDEFGHIJKLMNOPQRSTUVWXYZabcdefghijklmnopqrstuvwxyz0123456789+/".

(** The character of a 6-bit group. *)
Definition b64_char (n : N) : ascii :=
  default "A"%char (String.get (N.to_nat n) B64_ALPHABET).

Fixpoint b64encode (bytes : list N) : string :=
  match bytes with
  | [] => EmptyString
  | [a] =>
      String (b64_char (a / 4)) (String (b64_char (a mod 4 * 16)) "==")
  | [a; b] =>
      String (b64_char (a / 4))
        (String (b64_char (a mod 4 * 16 + b / 16))
           (String (b64_char (b mod 16 * 4)) "="))
  | a :: b :: c :: rest =>
      String (b64_char (a / 4))
        (String (b64_char (a mod 4 * 16 + b / 16))
           (String (b64_char (b mod 16 * 4 + c / 64))
              (String (b64_char (c mod 64)) (b64encode rest))))
  end%N.

Definition encode_key_for_config (api_key : string) : string :=
  b64encode (utf8_encode api_key).

(** ** prompts/runanywhere_prompts.py and prompts/patch.py *)

Definition PREFIX_HEAD : string := "You are an expert mobile/cross-platform developer specializing in RunAnywhere SDKs for on-device AI.

Focus on helping users build apps with these SDKs:
- Swift SDK (iOS/macOS): runanywhere-swift
- Kotlin SDK (Android): runanywhere-kotlin
- React Native SDK: @runanywhere/core, @runanywhere/llamacpp
- Flutter SDK: runanywhere, runanywhere_llamacpp

Key patterns to follow:
1. Always initialize RunAnywhere before use
2. Register LlamaCPP backend before loading models
3. Download models before loading them
4. Use async/await patterns appropriately
5. Handle errors gracefully

".

Definition PREFIX_TAIL : string := "

---

".

Definition HELP_MAIN_SYSTEM : string := "You are an expert on building mobile apps with RunAnywhere SDKs.
Answer the user's questions about how to use RunAnywhere SDKs to build apps with on-device AI.

RunAnywhere provides SDKs for:
- Swift (iOS/macOS)
- Kotlin (Android)
- React Native
- Flutter

Use the provided RunAnywhere SDK documentation to answer questions.

Include links to relevant RunAnywhere resources:
- https://github.com/RunanywhereAI/runanywhere-sdks
- https://www.runanywhere.ai

If you don't know the answer, suggest checking the GitHub repository or contacting founders@runanywhere.ai.

Be helpful but concise.

Keep this info about the user's system in mind:
{platform}
".

Definition HELP_REPO_CONTENT_PREFIX : string := "Here are summaries of some files in the project.
These may help you understand how RunAnywhere SDKs are being used.
".

Definition COMMIT_SUFFIX : string := "

When the changes involve RunAnywhere SDK code, use appropriate prefixes:
- feat(swift): for Swift SDK changes
- feat(kotlin): for Kotlin SDK changes  
- feat(react-native): for React Native SDK changes
- feat(flutter): for Flutter SDK changes
- feat(ai): for AI/ML related changes
".

Inductive prompt_slot := EditBlockSlot | WholeFileSlot | FencedSlot | UDiffSlot | HelpSlot.

Definition class_name (s : prompt_slot) : string :=
  match s with
  | EditBlockSlot => "EditBlockPrompts"
  | WholeFileSlot => "WholeFilePrompts"
  | FencedSlot => "EditBlockFencedPrompts"
  | UDiffSlot => "UnifiedDiffPrompts"
  | HelpSlot => "HelpPrompts"
  end.

(** The class behind a slot, [None] when the host does not have it. *)
Definition class_of (s : prompt_slot) (h : host_state) : option prompt_class :=
  match s with
  | EditBlockSlot => mjoin (editblock_prompts h)
  | WholeFileSlot => mjoin (wholefile_prompts h)
  | FencedSlot => EditBlockFencedPrompts h
  | UDiffSlot => UnifiedDiffPrompts h
  | HelpSlot => HelpPrompts h
  end.

Definition set_class (s : prompt_slot) (c : prompt_class) (h : host_state) : host_state :=
  match s with
  | EditBlockSlot =>
      {| editblock_prompts := Some (Some c); wholefile_prompts := wholefile_prompts h;
         base_prompts := base_prompts h; EditBlockFencedPrompts := EditBlockFencedPrompts h;
         UnifiedDiffPrompts := UnifiedDiffPrompts h; HelpPrompts := HelpPrompts h;
         prompts := prompts h; fenced_inherits := fenced_inherits h |}
  | WholeFileSlot =>
      {| editblock_prompts := editblock_prompts h; wholefile_prompts := Some (Some c);
         base_prompts := base_prompts h; EditBlockFencedPrompts := EditBlockFencedPrompts h;
         UnifiedDiffPrompts := UnifiedDiffPrompts h; HelpPrompts := HelpPrompts h;
         prompts := prompts h; fenced_inherits := fenced_inherits h |}
  | FencedSlot =>
      {| editblock_prompts := editblock_prompts h; wholefile_prompts := wholefile_prompts h;
         base_prompts := base_prompts h; EditBlockFencedPrompts := Some c;
         UnifiedDiffPrompts := UnifiedDiffPrompts h; HelpPrompts := HelpPrompts h;
         prompts := prompts h; fenced_inherits := fenced_inherits h |}
  | UDiffSlot =>
      {| editblock_prompts := editblock_prompts h; wholefile_prompts := wholefile_prompts h;
         base_prompts := base_prompts h; EditBlockFencedPrompts := EditBlockFencedPrompts h;
         UnifiedDiffPrompts := Some c; HelpPrompts := HelpPrompts h;
         prompts := prompts h; fenced_inherits := fenced_inherits h |}
  | HelpSlot =>
      {| editblock_prompts := editblock_prompts h; wholefile_prompts := wholefile_prompts h;
         base_prompts := base_prompts h; EditBlockFencedPrompts := EditBlockFencedPrompts h;
         UnifiedDiffPrompts := UnifiedDiffPrompts h; HelpPrompts := Some c;
         prompts := prompts h; fenced_inherits := fenced_inherits h |}
  end.

Definition set_commit_system (text : string) (h : host_state) : host_state :=
  {| editblock_prompts := editblock_prompts h; wholefile_prompts := wholefile_prompts h;
     base_prompts := base_prompts h; EditBlockFencedPrompts := EditBlockFencedPrompts h;
     UnifiedDiffPrompts := UnifiedDiffPrompts h; HelpPrompts := HelpPrompts h;
     prompts := Some (Some text); fenced_inherits := fenced_inherits h |}.

(** The exceptions of a failed import and of a missing attribute; the
    texts stand for the longer ones of the interpreter. *)
Definition import_error (name : string) : exn :=
  {| exn_cls := ImportError; exn_str := "cannot import name '" +:+ name +:+ "'" |}.

Definition attribute_error (owner name : string) : exn :=
  {| exn_cls := AttributeError;
     exn_str := "'" +:+ owner +:+ "' has no attribute '" +:+ name +:+ "'" |}.

(** [from ... import name]: [ImportError] unless the host has it. *)
Definition import_name (name : string) (present : host_state -> bool) : prog unit :=
  h ← get_host;
  if present h then mret tt else raise (import_error name).

(** The class object of a slot, as the expression [module.Class] (or the
    imported name) evaluates to it. *)
Definition get_class (s : prompt_slot) : prog prompt_class :=
  h ← get_host;
  match class_of s h with
  | Some c => mret c
  | None => raise (attribute_error "module" (class_name s))
  end.

(** The slot in whose class the attribute of [Class.attr] is found: the
    slot itself, or the primary one for a fenced class that inherits it. *)
Definition attr_owner {A} (attr : prompt_class -> option A) (s : prompt_slot)
    (h : host_state) : option prompt_slot :=
  c ← class_of s h;
  match attr c, s with
  | Some _, _ => Some s
  | None, FencedSlot =>
      if fenced_inherits h then
        b ← class_of EditBlockSlot h;
        attr b ≫= fun _ => Some EditBlockSlot
      else None
  | None, _ => None
  end.

(** What [Class.attr] evaluates to, [None] for an [AttributeError]. *)
Definition class_attr {A} (attr : prompt_class -> option A) (s : prompt_slot)
    (h : host_state) : option A :=
  c ← class_of s h;
  match attr c, s with
  | Some a, _ => Some a
  | None, FencedSlot =>
      if fenced_inherits h then class_of EditBlockSlot h ≫= attr else None
  | None, _ => None
  end.

(** [Class.main_system] *)
Definition get_main_system (s : prompt_slot) : prog string :=
  get_class s;;
  h ← get_host;
  match class_attr main_system s h with
  | Some text => mret text
  | None => raise (attribute_error (class_name s) "main_system")
  end.

(** [Class.main_system = text] *)
Definition set_main_system (s : prompt_slot) (text : string) : prog unit :=
  c ← get_class s;
  h ← get_host;
  set_host (set_class s {| main_system := Some text;
                           example_messages := example_messages c;
                           repo_content_prefix := repo_content_prefix c |} h).

(** [Class.repo_content_prefix = text] *)
Definition set_repo_content_prefix (s : prompt_slot) (text : string) : prog unit :=
  c ← get_class s;
  h ← get_host;
  set_host (set_class s {| main_system := main_system c;
                           example_messages := example_messages c;
                           repo_content_prefix := Some text |} h).

(** The host after [more] is appended to the list in the class of slot
    [o]. *)
Definition extend_in (more : list message) (o : prompt_slot) (h : host_state) : host_state :=
  match class_of o h with
  | Some c =>
      match example_messages c with
      | Some l =>
          set_class o {| main_system := main_system c;
                         example_messages := Some (l ++ more);
                         repo_content_prefix := repo_content_prefix c |} h
      | None => h
      end
  | None => h
  end.

(** [if hasattr(Class, 'example_messages'): Class.example_messages.extend(more)]:
    the list is extended in place, in the class that holds it. *)
Definition extend_example_messages (s : prompt_slot) (more : list message) : prog unit :=
  get_class s;;
  h ← get_host;
  match attr_owner example_messages s h with
  | Some o => set_host (extend_in more o h)
  | None => mret tt
  end.

Section Prompts.

Variable P : platform.

Definition sdk_folders : list string := ["swift"; "kotlin"; "react-native"; "flutter"].

(** Reading one file of an SDK folder into [docs_parts]; [None] when
    [read_text] raises. *)
Definition load_part (sdk title : string) (f : doc_file) (docs_parts : list string)
    : option (list string) :=
  match f with
  | Absent => Some docs_parts
  | Unreadable => None
  | Text file_content =>
      Some (docs_parts ++
            [NL +:+ NL +:+ rule "=" 80 +:+ NL +:+ upper sdk +:+ " SDK " +:+ title
             +:+ NL +:+ rule "=" 80 +:+ NL +:+ NL +:+ file_content])
  end.

Definition load_sdk (tree : string -> option sdk_folder)
    (docs_parts : option (list string)) (sdk : string) : option (list string) :=
  parts ← docs_parts;
  match tree sdk with
  | None => Some parts
  | Some folder =>
      parts ← load_part sdk "DOCUMENTATION" (Documentation_md folder) parts;
      load_part sdk "ARCHITECTURE" (ARCHITECTURE_md folder) parts
  end.

(** The [try] block answers [None] when it raises or runs to its end
    without a [return]; both lead to the built-in text. *)
Definition get_sdk_documentation : string :=
  default (SDK_DOCUMENTATION P)
    (docs_parts ← match docs (resources_dir P) with
                  | Some tree => foldl (load_sdk tree) (Some []) sdk_folders
                  | None => Some []
                  end;
     if bool_decide (docs_parts = []) then
       match sdk_documentation_md (resources_dir P) with
       | Text s => Some s
       | Absent => None
       | Unreadable => None
       end
     else Some (join NL docs_parts)).

Definition runanywhere_prefix : string :=
  PREFIX_HEAD +:+ get_sdk_documentation +:+ PREFIX_TAIL.

(** [original = Class.main_system; Class.main_system = runanywhere_prefix + original] *)
Definition prepend_prefix (s : prompt_slot) : prog unit :=
  original ← get_main_system s;
  set_main_system s (runanywhere_prefix +:+ original).

Definition patch_aider_prompts : prog unit :=
  try_except
    (import_name "editblock_prompts" (fun h => bool_decide (is_Some (editblock_prompts h)));;
     import_name "wholefile_prompts" (fun h => bool_decide (is_Some (wholefile_prompts h)));;
     import_name "base_prompts" base_prompts;;
     import_name "EditBlockFencedPrompts"
       (fun h => bool_decide (is_Some (EditBlockFencedPrompts h)));;
     import_name "UnifiedDiffPrompts"
       (fun h => bool_decide (is_Some (UnifiedDiffPrompts h)));;
     prepend_prefix EditBlockSlot;;
     prepend_prefix WholeFileSlot;;
     try_except (prepend_prefix FencedSlot) [(Exception, fun _ => mret tt)];;
     try_except (prepend_prefix UDiffSlot) [(Exception, fun _ => mret tt)];;
     try_except
       (extend_example_messages EditBlockSlot (RUNANYWHERE_EXAMPLE_MESSAGES P))
       [(Exception, fun _ => mret tt)];;
     print "✓ RunAnywhere SDK prompts loaded")
    [(ImportError, fun e => print ("Warning: Could not patch aider prompts: " +:+ exn_str e));
     (Exception, fun e => print ("Warning: Error patching prompts: " +:+ exn_str e))].

Definition patch_help_system : prog unit :=
  try_except
    (import_name "HelpPrompts" (fun h => bool_decide (is_Some (HelpPrompts h)));;
     set_main_system HelpSlot HELP_MAIN_SYSTEM;;
     set_repo_content_prefix HelpSlot HELP_REPO_CONTENT_PREFIX;;
     print "✓ RunAnywhere help system loaded")
    [(ImportError, fun e => print ("Warning: Could not patch help system: " +:+ exn_str e));
     (Exception, fun e => print ("Warning: Error patching help system: " +:+ exn_str e))].

Definition patch_commit_prompts : prog unit :=
  try_except
    (import_name "prompts" (fun h => bool_decide (is_Some (prompts h)));;
     h ← get_host;
     match mjoin (prompts h) with
     | Some original_commit_system =>
         set_host (set_commit_system (original_commit_system +:+ COMMIT_SUFFIX) h)
     | None => raise (attribute_error "module" "commit_system")
     end)
    [(ImportError, fun _ => mret tt);
     (Exception, fun _ => mret tt)].

Definition apply_all_patches : prog unit :=
  patch_aider_prompts;;
  patch_help_system;;
  patch_commit_prompts.

End Prompts.

(** ** __main__.py *)

Definition BANNER_TOP : string := "
╔══════════════════════════════════════════════════════════════════╗
║                                                                  ║
║   🚀 RunAnywhere Agent v".

Definition BANNER_BOTTOM : string := "║
║                                                                  ║
║   AI coding assistant for on-device AI mobile development       ║
║   Powered by aider - https://aider.chat                         ║
║                                                                  ║
║   SDKs: Swift • Kotlin • React Native • Flutter                 ║
║   Docs: https://github.com/RunanywhereAI/runanywhere-sdks       ║
║                                                                  ║
╚══════════════════════════════════════════════════════════════════╝
".

Section Main.

Variable P : platform.

Definition print_banner : prog unit :=
  print (BANNER_TOP +:+ ljust 43 (__version__ P) +:+ BANNER_BOTTOM).

Definition check_help_flags : prog unit :=
  args ← get_argv;
  if (mem "--version" args || mem "-v" args && Nat.eqb (length args) 2)%bool then
    print ("runanywhere-agent " +:+ __version__ P);;
    sys_exit 0
  else if (mem "--help" args || mem "-h" args)%bool then print_banner
  else mret tt.

(** [from aider.main import main as aider_main; return aider_main()] *)
Definition run_aider_main : prog (option Z) :=
  args ← get_argv;
  emit (HostMain args);;
  match aider_main P args with
  | Return r => mret r
  | Raise e => raise e
  | SysExit status => sys_exit status
  end.

(** [main] up to the end of its step 1: help and version flags, the
    banner, [--logout], and the access gate unless it is skipped. *)
Definition main_gate : prog unit :=
  check_help_flags;;
  print_banner;;
  args ← get_argv;
  (if mem "--logout" args then logout P;; sys_exit 0 else mret tt);;
  args ← get_argv;
  skip_env ← environ_get "RUNANYWHERE_SKIP_AUTH";
  let skip_auth := (mem "--skip-auth" args || bool_decide (skip_env = Some "1"))%bool in
  (if mem "--skip-auth" args then set_argv (remove_first "--skip-auth" args)
   else mret tt);;
  (if negb skip_auth then
     email ← authenticate P;
     print (NL +:+ "Welcome, " +:+ email +:+ "!" +:+ NL)
   else print ("[DEV MODE] Skipping authentication" +:+ NL)).

(** [main] from its step 2 on: credentials, prompt patches, the default
    model and the host's run loop. *)
Definition main_session : prog (option Z) :=
  key_status ← inject_api_keys P;
  have_keys ← check_api_keys P;
  (if negb have_keys then
     print (NL +:+ rule "=" 60);;
     print "  Error: No API Keys Available";;
     print (rule "=" 60);;
     print (NL +:+ "No API keys are configured. Please set one of:");;
     print "  - ANTHROPIC_API_KEY (for Claude models)";;
     print "  - OPENAI_API_KEY (for GPT models)";;
     print (NL +:+ "Or contact founders@runanywhere.ai for embedded key access.");;
     sys_exit 1
   else mret tt);;
  args ← get_argv;
  (if (mem "--verbose" args || mem "-v" args)%bool then print_key_status P else mret tt);;
  apply_all_patches P;;
  args ← get_argv;
  (if (negb (mem "--model" args) && negb (contains "-m" (join " " args)))%bool then
     default_model ← get_default_model P;
     set_argv (args ++ ["--model"; default_model]);;
     print ("Using model: " +:+ default_model)
   else mret tt);;
  print (NL +:+ rule "-" 60);;
  print "Starting coding session... (type /help for commands)";;
  print (rule "-" 60 +:+ NL);;
  try_except run_aider_main
    [(KeyboardInterrupt, fun _ =>
        print (NL +:+ NL +:+ "Session ended. Goodbye!");;
        mret (Some 0));
     (Exception, fun e =>
        print (NL +:+ "Error: " +:+ exn_str e);;
        args ← get_argv;
        (if mem "--verbose" args then emit (Traceback e) else mret tt);;
        mret (Some 1))].

Definition main : prog (option Z) :=
  main_gate;;
  main_session.

(** [run_with_args(args)]: [None] keeps [sys.argv]. *)
Definition run_with_args (args : option (list string)) : prog (option Z) :=
  match args with
  | Some l => set_argv ("runanywhere-agent" :: l)
  | None => mret tt
  end;;
  main.

(** [sys.exit(main() or 0)] *)
Definition entry_point : prog unit :=
  r ← main;
  sys_exit (match r with
            | Some status => status
            | None => 0
            end).

End Main.

(** * Properties *)

(** ** Vocabulary of the statements *)

(** The string holds nothing but white space (or nothing at all). *)
Fixpoint whitespace_only (s : string) : bool :=
  match s with
  | EmptyString => true
  | String c s' => (isspace c && whitespace_only s')%bool
  end.

Definition with_cache_file (c : option string) (w : state) : state :=
  {| environ := environ w; cache_file := c; stdin := stdin w;
     argv := argv w; host := host w; trace := trace w |}.

Definition with_environ (env : gmap string string) (w : state) : state :=
  {| environ := env; cache_file := cache_file w; stdin := stdin w;
     argv := argv w; host := host w; trace := trace w |}.

Definition with_host (h : host_state) (w : state) : state :=
  {| environ := environ w; cache_file := cache_file w; stdin := stdin w;
     argv := argv w; host := h; trace := trace w |}.

(** The ways the allow-list request fails. *)
Inductive failure :=
| TimedOut
| ConnectionFailed
| BadStatus (status : Z)
| MalformedBody (msg : string).

(** The failure an answer to the request falls under, if any: a
    [Timeout] (a [ConnectTimeout] is one), another [ConnectionError], a
    status other than 200, or a 200 whose body is not JSON. *)
Definition failure_of (answer : exn + response) : option failure :=
  match answer with
  | inl e =>
      if isinstance e Timeout then Some TimedOut
      else if isinstance e ConnectionError then Some ConnectionFailed
      else None
  | inr r =>
      if Z.eqb (status_code r) 200 then
        match json r with
        | inl msg => Some (MalformedBody msg)
        | inr _ => None
        end
      else Some (BadStatus (status_code r))
  end.

(** The lines printed for a failure. *)
Definition diagnostic (f : failure) : list string :=
  match f with
  | TimedOut => ["Warning: Authentication server timeout. Please try again."]
  | ConnectionFailed =>
      ["Warning: Could not connect to authentication server.";
       "Please check your internet connection."]
  | BadStatus status => ["Warning: Auth check failed with status " +:+ pretty status]
  | MalformedBody msg => ["Warning: Authentication error: " +:+ msg]
  end.

(** The request [verify_email email] sends from state [w]. *)
Definition sent_request (w : state) (email : string) : http_request :=
  allow_list_request
    (default "https://your-project.supabase.co" (environ w !! "RUNANYWHERE_SUPABASE_URL"))
    (default "your-anon-key-here" (environ w !! "RUNANYWHERE_SUPABASE_KEY"))
    (lower (strip email)).

(** [text] is something the user entered, or left from an earlier run, in
    state [w]: the cached identity, the variable [RUNANYWHERE_EMAIL], or a
    line typed at the prompt. *)
Definition entered_in (w : state) (text : string) : Prop :=
  (exists file, cache_file w = Some file /\ text = universal_newlines file) \/
  environ w !! "RUNANYWHERE_EMAIL" = Some text \/
  text ∈ stdin w.

Definition not_host_main (ev : event) : Prop := forall args, ev <> HostMain args.

(** A program that only adds to the trace, and never the host's entry. *)
Definition quiet {A} (m : prog A) : Prop :=
  forall w, exists evs, trace (m w).2 = trace w ++ evs /\ Forall not_host_main evs.

(** The state after [n] calls of [logout]. *)
Fixpoint logouts (P : platform) (n : nat) (w : state) : state :=
  match n with
  | O => w
  | S n' => (logout P (logouts P n' w)).2
  end.

(** What [resolve(provider)] answers in an environment. *)
Definition resolve (P : platform) (env : gmap string string) (variable provider : string)
    : option string :=
  if truthy_opt (env !! variable) then env !! variable
  else _decode_key P (embedded_key P provider).

(** [inject_api_keys] writes the variable: it holds nothing and the
    embedded key decodes to something. *)
Definition injects (P : platform) (env : gmap string string) (variable provider : string)
    : bool :=
  (negb (truthy_opt (env !! variable))
   && truthy_opt (_decode_key P (embedded_key P provider)))%bool.

(** The lines [main] prints when no credential is available. *)
Definition no_keys_message : list string :=
  [NL +:+ rule "=" 60;
   "  Error: No API Keys Available";
   rule "=" 60;
   NL +:+ "No API keys are configured. Please set one of:";
   "  - ANTHROPIC_API_KEY (for Claude models)";
   "  - OPENAI_API_KEY (for GPT models)";
   NL +:+ "Or contact founders@runanywhere.ai for embedded key access."].

(** The template in a slot, [None] when the host lacks the class or the
    attribute. *)
Definition slot_text (s : prompt_slot) (h : host_state) : option string :=
  class_attr main_system s h.

(** The five imports of [patch_aider_prompts] succeed. *)
Definition imports_ok (h : host_state) : bool :=
  (bool_decide (is_Some (editblock_prompts h))
   && bool_decide (is_Some (wholefile_prompts h))
   && base_prompts h
   && bool_decide (is_Some (EditBlockFencedPrompts h))
   && bool_decide (is_Some (UnifiedDiffPrompts h)))%bool.

Global Instance prompt_slot_eq_dec : EqDecision prompt_slot.
Proof. solve_decision. Defined.

(** The class of the slot has no text of its own and shows that of the
    primary class: a fenced class that inherits it. *)
Definition borrows_text (s : prompt_slot) (h : host_state) : bool :=
  bool_decide (s = FencedSlot /\ attr_owner main_system FencedSlot h = Some EditBlockSlot).

(** What [prepend_prefix s] does to the host when the slot is there;
    nothing when it is not. *)
Definition prepend_in (prefix : string) (s : prompt_slot) (h : host_state) : host_state :=
  match class_of s h with
  | Some c =>
      match slot_text s h with
      | Some original =>
          set_class s {| main_system := Some (prefix +:+ original);
                         example_messages := example_messages c;
                         repo_content_prefix := repo_content_prefix c |} h
      | None => h
      end
  | None => h
  end.

(** The host after [patch_aider_prompts] ran to its end. *)
Definition aider_patched (P : platform) (h : host_state) : host_state :=
  extend_in (RUNANYWHERE_EXAMPLE_MESSAGES P) EditBlockSlot
    (prepend_in (runanywhere_prefix P) UDiffSlot
       (prepend_in (runanywhere_prefix P) FencedSlot
          (prepend_in (runanywhere_prefix P) WholeFileSlot
             (prepend_in (runanywhere_prefix P) EditBlockSlot h)))).

(** *** Vocabulary of the further properties *)

Definition with_argv (l : list string) (w : state) : state :=
  {| environ := environ w; cache_file := cache_file w; stdin := stdin w;
     argv := l; host := host w; trace := trace w |}.

Definition with_stdin (l : list string) (w : state) : state :=
  {| environ := environ w; cache_file := cache_file w; stdin := l;
     argv := argv w; host := host w; trace := trace w |}.

(** [len(v)], where it is defined. *)
Definition json_len (v : json_value) : option nat :=
  match v with
  | JArray items => Some (length items)
  | JObject members => Some (length (remove_dups (members.*1)))
  | JString s => Some (String.length s)
  | JNull => None
  | JBool _ => None
  | JNumber _ => None
  end.

(** The answer of the server that lets a user in: status 200 and a JSON
    body with a positive length. *)
Definition grants (answer : exn + response) : Prop :=
  exists r v n,
    answer = inr r /\ status_code r = 200 /\ json r = inr v /\
    json_len v = Some n /\ (0 < n)%nat.

(** A typed line the prompt loop takes for an email: once trimmed it is not
    empty and holds an [@] and a dot. *)
Definition plausible (line : string) : bool :=
  (truthy (strip line) && contains "@" (strip line) && contains "." (strip line))%bool.

(** The parts of the state besides the trace. *)
Inductive part := Environ | CacheFile | Stdin | Argv | Host.

Definition same (p : part) (w w' : state) : Prop :=
  match p with
  | Environ => environ w' = environ w
  | CacheFile => cache_file w' = cache_file w
  | Stdin => stdin w' = stdin w
  | Argv => argv w' = argv w
  | Host => host w' = host w
  end.

(** A program that leaves a part of the state as it found it. *)
Definition keeps {A} (p : part) (m : prog A) : Prop :=
  forall w, same p w (m w).2.

(** The authentication is skipped: the flag is on the command line or
    [RUNANYWHERE_SKIP_AUTH] is [1]. *)
Definition skips_auth (w : state) : bool :=
  (mem "--skip-auth" (argv w)
   || bool_decide (environ w !! "RUNANYWHERE_SKIP_AUTH" = Some "1"))%bool.

(** [check_help_flags] ends the run: [--version] is given, or [-v] is the
    only argument. *)
Definition asks_version (w : state) : bool :=
  (mem "--version" (argv w) || mem "-v" (argv w) && Nat.eqb (length (argv w)) 2)%bool.

(** [main] appends a default model: no argument is [--model] and no [-m]
    occurs anywhere in the command line. *)
Definition lacks_model_flag (args : list string) : bool :=
  (negb (mem "--model" args) && negb (contains "-m" (join " " args)))%bool.

(** A character of the base64 alphabet, or the padding. *)
Definition is_b64_char (c : ascii) : bool :=
  (contains (String c EmptyString) B64_ALPHABET || Ascii.eqb c "=")%bool.

Fixpoint all_chars (ok : ascii -> bool) (s : string) : bool :=
  match s with
  | EmptyString => true
  | String c s' => (ok c && all_chars ok s')%bool
  end.

(** A file of an SDK folder of the tree cannot be read. *)
Definition has_unreadable (tree : string -> option sdk_folder) : Prop :=
  exists sdk folder,
    sdk ∈ sdk_folders /\ tree sdk = Some folder /\
    (Documentation_md folder = Unreadable \/ ARCHITECTURE_md folder = Unreadable).

(** No SDK folder of the tree holds a document. *)
Definition no_documents (tree : string -> option sdk_folder) : Prop :=
  forall sdk folder,
    sdk ∈ sdk_folders -> tree sdk = Some folder ->
    Documentation_md folder = Absent /\ ARCHITECTURE_md folder = Absent.

Definition usable (r : outcome (option string)) : bool :=
  match r with
  | Return key => truthy_opt key
  | _ => false
  end.

(** What [patch_help_system] does to the host. *)
Definition help_in (h : host_state) : host_state :=
  match HelpPrompts h with
  | Some c =>
      set_class HelpSlot
        {| main_system := Some HELP_MAIN_SYSTEM;
           example_messages := example_messages c;
           repo_content_prefix := Some HELP_REPO_CONTENT_PREFIX |} h
  | None => h
  end.

(** What [patch_commit_prompts] does to the host. *)
Definition commit_in (h : host_state) : host_state :=
  match mjoin (prompts h) with
  | Some original => set_commit_system (original +:+ COMMIT_SUFFIX) h
  | None => h
  end.

(** What [patch_aider_prompts] does to the host. *)
Definition aider_in (P : platform) (h : host_state) : host_state :=
  if imports_ok h then
    match slot_text EditBlockSlot h, slot_text WholeFileSlot h with
    | Some _, Some _ => aider_patched P h
    | Some _, None => prepend_in (runanywhere_prefix P) EditBlockSlot h
    | None, _ => h
    end
  else h.

(** The example messages of a slot's class. *)
Definition slot_examples (s : prompt_slot) (h : host_state) : option (list message) :=
  class_of s h ≫= example_messages.

(** The commit-message template. *)
Definition commit_text (h : host_state) : option string := mjoin (prompts h).

(** The banner, and what [check_help_flags] and [main] show of it before
    anything else: twice when help is asked for. *)
Definition banner (P : platform) : string :=
  BANNER_TOP +:+ ljust 43 (__version__ P) +:+ BANNER_BOTTOM.

Definition banners (P : platform) (w : state) : list event :=
  if (mem "--help" (argv w) || mem "-h" (argv w))%bool
  then [Print (banner P); Print (banner P)]
  else [Print (banner P)].

(** [sys.argv] after the gate: without the first [--skip-auth]. *)
Definition gate_argv (w : state) : list string :=
  if mem "--skip-auth" (argv w) then remove_first "--skip-auth" (argv w) else argv w.

(** The host has not been started yet. *)
Definition clean (w : state) : Prop := forall args, HostMain args ∉ trace w.

(** A program that only adds to the trace. *)
Definition grows {A} (m : prog A) : Prop :=
  forall w, exists evs, trace (m w).2 = trace w ++ evs.

(** The model name [get_default_model] answers in state [w]. *)
Definition default_model_in (P : platform) (w : state) : string :=
  match (get_default_model P w).1 with
  | Return model => model
  | _ => ""
  end.

(** The handlers of step 5 of [main]. *)
Definition session_handlers : list (exn_class * (exn -> prog (option Z))) :=
  [(KeyboardInterrupt, fun _ =>
      print (NL +:+ NL +:+ "Session ended. Goodbye!");;
      mret (Some 0));
   (Exception, fun e =>
      print (NL +:+ "Error: " +:+ exn_str e);;
      args ← get_argv;
      (if mem "--verbose" args then emit (Traceback e) else mret tt);;
      mret (Some 1))].

(** ** Sample platforms and states, for the witnesses and counterexamples *)

Module Sample.

(** A codec that knows one string: the base64 of [sk-test]. *)
Definition codec (s : string) : option string :=
  if String.eqb s "c2stdGVzdA==" then Some "sk-test" else None.

Definition granting (_ : http_request) : exn + response :=
  inr {| status_code := 200;
         json := inr (JArray [JObject [("email", JString "user@example.com")]]) |}.

Definition timing_out (_ : http_request) : exn + response :=
  inl {| exn_cls := ReadTimeout; exn_str := "Read timed out. (read timeout=10)" |}.

Definition installation (keys : gmap string string)
    (server : http_request -> exn + response) : platform :=
  {| __version__ := "0.1.0";
     _EMBEDDED_KEYS := keys;
     b64decode_utf8 := codec;
     SDK_DOCUMENTATION := "## RunAnywhere SDK Quick Reference";
     RUNANYWHERE_EXAMPLE_MESSAGES :=
       [{| role := "user"; content := "Create a simple iOS app that runs a local LLM" |}];
     resources_dir := {| docs := None; sdk_documentation_md := Absent |};
     http_get := server;
     fs_fault := fun _ => None;
     encode_fault := fun _ => None;
     aider_main := fun _ => Return None |}.

(** The package as shipped, in front of a server that knows the user. *)
Definition shipped : platform := installation shipped_EMBEDDED_KEYS granting.

(** The package as shipped, in front of a server that does not answer. *)
Definition offline : platform := installation shipped_EMBEDDED_KEYS timing_out.

(** A package with an Anthropic key embedded. *)
Definition keyed : platform :=
  installation (<["anthropic" := "c2stdGVzdA=="]> shipped_EMBEDDED_KEYS) granting.

Definition prompt_of (text : string) : prompt_class :=
  {| main_system := Some text; example_messages := Some []; repo_content_prefix := None |}.

(** A host with all its prompt slots. *)
Definition aider : host_state :=
  {| editblock_prompts := Some (Some (prompt_of "EDITBLOCK"));
     wholefile_prompts := Some (Some (prompt_of "WHOLEFILE"));
     base_prompts := true;
     EditBlockFencedPrompts := Some (prompt_of "FENCED");
     UnifiedDiffPrompts := Some (prompt_of "UDIFF");
     HelpPrompts := Some (prompt_of "HELP");
     prompts := Some (Some "COMMIT");
     fenced_inherits := false |}.

(** A host with the classes as aider declares them: the fenced class is a
    subclass of the primary one and defines only its examples. *)
Definition aider_inheriting : host_state :=
  {| editblock_prompts := Some (Some (prompt_of "EDITBLOCK"));
     wholefile_prompts := Some (Some (prompt_of "WHOLEFILE"));
     base_prompts := true;
     EditBlockFencedPrompts :=
       Some {| main_system := None; example_messages := Some [];
               repo_content_prefix := None |};
     UnifiedDiffPrompts := Some (prompt_of "UDIFF");
     HelpPrompts := Some (prompt_of "HELP");
     prompts := Some (Some "COMMIT");
     fenced_inherits := true |}.

(** The same host, its primary edit-block template missing. *)
Definition aider_without_primary : host_state :=
  {| editblock_prompts :=
       Some (Some {| main_system := None; example_messages := Some [];
                     repo_content_prefix := None |});
     wholefile_prompts := Some (Some (prompt_of "WHOLEFILE"));
     base_prompts := true;
     EditBlockFencedPrompts := Some (prompt_of "FENCED");
     UnifiedDiffPrompts := Some (prompt_of "UDIFF");
     HelpPrompts := Some (prompt_of "HELP");
     prompts := Some (Some "COMMIT");
     fenced_inherits := false |}.

(** The same host, its fenced template missing. *)
Definition aider_without_fenced : host_state :=
  {| editblock_prompts := Some (Some (prompt_of "EDITBLOCK"));
     wholefile_prompts := Some (Some (prompt_of "WHOLEFILE"));
     base_prompts := true;
     EditBlockFencedPrompts :=
       Some {| main_system := None; example_messages := None;
               repo_content_prefix := None |};
     UnifiedDiffPrompts := Some (prompt_of "UDIFF");
     HelpPrompts := Some (prompt_of "HELP");
     prompts := Some (Some "COMMIT");
     fenced_inherits := false |}.

(** A fresh process: the given environment, cache, typed lines and
    arguments. *)
Definition process (env : gmap string string) (cache : option string)
    (typed args : list string) (h : host_state) : state :=
  {| environ := env; cache_file := cache; stdin := typed;
     argv := "runanywhere-agent" :: args; host := h; trace := [] |}.

Definition first_run : state :=
  process ∅ None ["  User@Example.COM  "] [] aider.

Definition dev_mode : state :=
  process (<["RUNANYWHERE_DEV_MODE" := "1"]> ∅) None [] [] aider.

Definition skipping_auth : state :=
  process ∅ None [] ["--skip-auth"] aider.

Definition logged_in : state :=
  process ∅ (Some "user@example.com") [] [] aider.

Definition empty_anthropic : state :=
  process (<["ANTHROPIC_API_KEY" := ""]> ∅) None [] [] aider.

Definition own_anthropic : state :=
  process (<["ANTHROPIC_API_KEY" := "sk-ant-mine"]> ∅) None [] [] aider.

Definition own_openai : state :=
  process (<["OPENAI_API_KEY" := "sk-mine"]> ∅) None [] [] aider.

Definition without_primary : state :=
  process ∅ None [] ["--skip-auth"] aider_without_primary.

Definition without_fenced : state :=
  process ∅ None [] ["--skip-auth"] aider_without_fenced.

Definition inheriting : state :=
  process ∅ None [] ["--skip-auth"] aider_inheriting.

(** A server that answers, and knows nobody. *)
Definition denying (_ : http_request) : exn + response :=
  inr {| status_code := 200; json := inr (JArray []) |}.

(** The package as shipped, in front of that server. *)
Definition unknown_user : platform := installation shipped_EMBEDDED_KEYS denying.

(** A keyed package whose host fails. *)
Definition crashing : platform :=
  {| __version__ := "0.1.0";
     _EMBEDDED_KEYS := <["anthropic" := "c2stdGVzdA=="]> shipped_EMBEDDED_KEYS;
     b64decode_utf8 := codec;
     SDK_DOCUMENTATION := "## RunAnywhere SDK Quick Reference";
     RUNANYWHERE_EXAMPLE_MESSAGES := [];
     resources_dir := {| docs := None; sdk_documentation_md := Absent |};
     http_get := granting;
     fs_fault := fun _ => None;
     encode_fault := fun _ => None;
     aider_main := fun _ => Raise {| exn_cls := ValueError; exn_str := "bad model" |} |}.

(** The package as shipped, where the cache file cannot be unlinked. *)
Definition undeletable : platform :=
  {| __version__ := "0.1.0";
     _EMBEDDED_KEYS := shipped_EMBEDDED_KEYS;
     b64decode_utf8 := codec;
     SDK_DOCUMENTATION := "## RunAnywhere SDK Quick Reference";
     RUNANYWHERE_EXAMPLE_MESSAGES := [];
     resources_dir := {| docs := None; sdk_documentation_md := Absent |};
     http_get := granting;
     fs_fault := fun op =>
       match op with
       | FsUnlink => Some "[Errno 13] Permission denied"
       | _ => None
       end;
     encode_fault := fun _ => None;
     aider_main := fun _ => Return None |}.

(** A package whose Swift document cannot be read. *)
Definition unreadable_docs : platform :=
  {| __version__ := "0.1.0";
     _EMBEDDED_KEYS := shipped_EMBEDDED_KEYS;
     b64decode_utf8 := codec;
     SDK_DOCUMENTATION := "## RunAnywhere SDK Quick Reference";
     RUNANYWHERE_EXAMPLE_MESSAGES := [];
     resources_dir :=
       {| docs := Some (fun sdk =>
                          if String.eqb sdk "swift"
                          then Some {| Documentation_md := Unreadable;
                                       ARCHITECTURE_md := Absent |}
                          else None);
          sdk_documentation_md := Text "# SDK" |};
     http_get := granting;
     fs_fault := fun _ => None;
     encode_fault := fun _ => None;
     aider_main := fun _ => Return None |}.

Definition mistyping : state :=
  process ∅ None ["nobody"; " a@b.c "; "later"] [] aider.

Definition email_in_env : state :=
  process (<["RUNANYWHERE_EMAIL" := " me@example.com "]> ∅) None [] [] aider.

Definition model_in_env : state :=
  process (<["RUNANYWHERE_DEFAULT_MODEL" := "opus"]> ∅) None [] [] aider.

Definition asking_version : state :=
  process ∅ None [] ["--version"] aider.

Definition logging_out : state :=
  process ∅ (Some "user@example.com") [] ["--logout"] aider.

(** A user with a cached identity who presses Enter at the prompt. *)
Definition returning : state :=
  process ∅ (Some "user@example.com") [""] [] aider.

End Sample.

(** ** Facts on strings *)

Section StringFacts.

Lemma truthy_true s : truthy s = true <-> s <> "".
Proof. unfold truthy. destruct (String.eqb_spec s ""); simpl; split; done. Qed.

Lemma truthy_false s : truthy s = false <-> s = "".
Proof. unfold truthy. destruct (String.eqb_spec s ""); simpl; split; done. Qed.

Lemma truthy_or_opt a b : truthy_opt (or_opt a b) = (truthy_opt a || truthy_opt b)%bool.
Proof. unfold or_opt. destruct (truthy_opt a) eqn:E; [by rewrite E|done]. Qed.

Lemma rstrip_empty_iff s : rstrip s = "" <-> whitespace_only s = true.
Proof.
  induction s as [|c s IH]; simpl; [done|].
  destruct (rstrip s) eqn:E.
  - destruct (isspace c); simpl; [tauto|]. split; discriminate.
  - split; [discriminate|]. intros H. apply andb_true_iff in H as [_ H].
    apply IH in H. discriminate.
Qed.

Lemma lstrip_empty_iff s : lstrip s = "" <-> whitespace_only s = true.
Proof.
  induction s as [|c s IH]; simpl; [done|].
  destruct (isspace c); simpl; [done|]. split; discriminate.
Qed.

Lemma whitespace_only_rstrip s : whitespace_only (rstrip s) = whitespace_only s.
Proof.
  induction s as [|c s IH]; simpl; [done|].
  destruct (rstrip s) eqn:E.
  - assert (whitespace_only s = true) as -> by (by apply rstrip_empty_iff).
    destruct (isspace c) eqn:Hc; simpl; [done|]. by rewrite Hc.
  - simpl in *. by rewrite IH.
Qed.

(** [strip] leaves nothing exactly of the strings that are white space. *)
Lemma strip_empty_iff s : strip s = "" <-> whitespace_only s = true.
Proof. unfold strip. by rewrite lstrip_empty_iff, whitespace_only_rstrip. Qed.

Lemma rstrip_lstrip s : rstrip (lstrip s) = lstrip (rstrip s).
Proof.
  induction s as [|c s IH]; [done|].
  cbn [lstrip]. destruct (isspace c) eqn:Hc.
  - cbn [rstrip]. destruct (rstrip s) eqn:E.
    + by rewrite Hc, IH.
    + cbn [lstrip]. by rewrite Hc.
  - cbn [rstrip]. destruct (rstrip s) eqn:E; rewrite ?Hc; cbn [lstrip]; by rewrite Hc.
Qed.

Lemma lstrip_idemp s : lstrip (lstrip s) = lstrip s.
Proof.
  induction s as [|c s IH]; [done|]. cbn [lstrip].
  destruct (isspace c) eqn:Hc; [done|]. cbn [lstrip]. by rewrite Hc.
Qed.

Lemma rstrip_idemp s : rstrip (rstrip s) = rstrip s.
Proof.
  induction s as [|c s IH]; [done|]. cbn [rstrip].
  destruct (rstrip s) eqn:E.
  - destruct (isspace c) eqn:Hc; [done|]. cbn [rstrip]. by rewrite Hc.
  - cbn [rstrip]. cbn [rstrip] in IH. by rewrite IH.
Qed.

(** A trimmed string is its own trimmed form. *)
Lemma strip_idemp s : strip (strip s) = strip s.
Proof. unfold strip. by rewrite rstrip_lstrip, rstrip_idemp, lstrip_idemp. Qed.

Lemma nonblank_truthy email :
  whitespace_only email = false -> truthy email = true /\ truthy (strip email) = true.
Proof.
  intros H. split; apply truthy_true.
  - intros ->. discriminate.
  - intros E. apply strip_empty_iff in E. congruence.
Qed.

End StringFacts.

(** ** Running programs *)

Lemma run_bind {A B} (m : prog A) (f : A -> prog B) w :
  (m ≫= f) w =
    match m w with
    | (Return a, w') => f a w'
    | (Raise e, w') => (Raise e, w')
    | (SysExit c, w') => (SysExit c, w')
    end.
Proof. reflexivity. Qed.

Lemma bind_Return {A B} (m : prog A) (f : A -> prog B) w b w' :
  (m ≫= f) w = (Return b, w') ->
  exists a w1, m w = (Return a, w1) /\ f a w1 = (Return b, w').
Proof.
  rewrite run_bind. destruct (m w) as [[a|e|c] w1]; intros H; try discriminate. eauto.
Qed.

Lemma print_run text w : print text w = (Return tt, add_events [Print text] w).
Proof. reflexivity. Qed.

Lemma add_events_nil w : add_events [] w = w.
Proof. unfold add_events. rewrite app_nil_r. by destruct w. Qed.

Lemma add_events_app evs evs' w :
  add_events evs' (add_events evs w) = add_events (evs ++ evs') w.
Proof. unfold add_events. cbn. by rewrite app_assoc. Qed.

Lemma with_host_id w : with_host (host w) w = w.
Proof. by destruct w. Qed.

(** [isinstance] of an exception whose class is known. *)
Ltac eval_isinstance :=
  repeat match goal with
  | |- context [isinstance {| exn_cls := ?c; exn_str := ?m |} ?b] =>
      let v := eval vm_compute in (issubclass c b) in
      change (isinstance {| exn_cls := c; exn_str := m |} b) with v
  end.

(** Unfolds the primitive programs and computes. *)
Ltac run :=
  unfold mbind, prog_bind, mret, prog_ret, print, emit, raise, sys_exit,
    environ_get, environ_set, get_argv, set_argv, get_host, set_host,
    get_cache_file, set_cache_file, os_error;
  cbn; eval_isinstance; cbn.

(** Closes an equation between two runs that differ in how the trace is
    bracketed. *)
Ltac same_run :=
  cbn; eval_isinstance; cbn; unfold add_events; cbn; rewrite <- ?app_assoc; reflexivity.

Ltac step_print := rewrite run_bind, print_run; cbv beta iota.

(** ** The access gate: [verify_email] *)

Lemma diagnostic_inj f g : diagnostic f = diagnostic g -> f = g.
Proof.
  destruct f, g; simpl; intros H; try done; try (by inversion H).
  - inversion H as [H']. apply (inj (String.app _)) in H'.
    apply (inj pretty) in H'. by subst.
  - inversion H as [H']. apply (inj (String.app _)) in H'. by subst.
Qed.

Lemma verify_email_blank_run P email w :
  whitespace_only email = true -> verify_email P email w = (Return false, w).
Proof.
  intros H. apply strip_empty_iff in H. unfold verify_email. rewrite H.
  by rewrite orb_true_r.
Qed.

Lemma verify_email_dev_run P email w :
  whitespace_only email = false ->
  environ w !! "RUNANYWHERE_DEV_MODE" = Some "1" ->
  verify_email P email w =
    (Return true, add_events [Print "[DEV MODE] Skipping email verification"] w).
Proof.
  intros H Hd. destruct (nonblank_truthy _ H) as [He Hs].
  unfold verify_email. rewrite He, Hs. simpl.
  rewrite run_bind. unfold environ_get. cbv beta iota. by rewrite Hd.
Qed.

Lemma verify_email_failure_run P email w f :
  whitespace_only email = false ->
  environ w !! "RUNANYWHERE_DEV_MODE" <> Some "1" ->
  failure_of (http_get P (sent_request w email)) = Some f ->
  verify_email P email w =
    (Return false,
     add_events (HttpGet (sent_request w email) :: map Print (diagnostic f)) w).
Proof.
  intros Hb Hd Hf. destruct (nonblank_truthy _ Hb) as [He Hs].
  unfold verify_email. rewrite He, Hs. simpl.
  rewrite run_bind. unfold environ_get. cbv beta iota.
  rewrite bool_decide_eq_false_2 by done.
  unfold try_except, SUPABASE_URL, SUPABASE_ANON_KEY, requests_get. run.
  fold (sent_request w email). unfold failure_of in Hf.
  destruct (http_get P (sent_request w email)) as [e|r]; run.
  - destruct (isinstance e Timeout) eqn:Ht.
    + injection Hf as <-. same_run.
    + destruct (isinstance e ConnectionError) eqn:Hc; [|done].
      injection Hf as <-. same_run.
  - destruct (Z.eqb (status_code r) 200) eqn:Hst.
    + unfold response_json. destruct (json r) as [msg|v]; [|done].
      injection Hf as <-. same_run.
    + injection Hf as <-. same_run.
Qed.

(** [verify_email] changes nothing but the trace. *)
Lemma verify_email_frame P email w :
  exists evs, (verify_email P email w).2 = add_events evs w.
Proof.
  unfold verify_email.
  destruct (negb (truthy email) || negb (truthy (strip email)))%bool.
  { exists []. by rewrite add_events_nil. }
  run. destruct (bool_decide _).
  { eexists. reflexivity. }
  unfold try_except, SUPABASE_URL, SUPABASE_ANON_KEY, requests_get. run.
  destruct (http_get P _) as [e|r]; run.
  - destruct (isinstance e Timeout); [eexists; same_run|].
    destruct (isinstance e ConnectionError); [eexists; same_run|].
    destruct (isinstance e RequestException); eexists; same_run.
  - destruct (Z.eqb _ _); [|eexists; same_run].
    unfold response_json. destruct (json r) as [msg|v]; run; [eexists; same_run|].
    destruct v; run; eexists; same_run.
Qed.

Lemma verify_email_true P email w w' :
  verify_email P email w = (Return true, w') ->
  truthy email = true /\ environ w' = environ w /\ cache_file w' = cache_file w.
Proof.
  intros H. split.
  - unfold verify_email in H. destruct (truthy email); [done|]. discriminate.
  - destruct (verify_email_frame P email w) as [evs Hevs]. rewrite H in Hevs.
    simpl in Hevs. by subst w'.
Qed.

(** [verify_email] sends its request exactly when the email is not blank
    and the development flag is off. *)
Lemma verify_email_sends_request P email w :
  whitespace_only email = false ->
  environ w !! "RUNANYWHERE_DEV_MODE" <> Some "1" ->
  exists evs,
    trace (verify_email P email w).2 = trace w ++ HttpGet (sent_request w email) :: evs.
Proof.
  intros Hb Hd. destruct (nonblank_truthy _ Hb) as [He Hs].
  unfold verify_email. rewrite He, Hs. simpl.
  rewrite run_bind. unfold environ_get. cbv beta iota.
  rewrite bool_decide_eq_false_2 by done.
  unfold try_except, SUPABASE_URL, SUPABASE_ANON_KEY, requests_get. run.
  fold (sent_request w email).
  destruct (http_get P (sent_request w email)) as [e|r]; run.
  - destruct (isinstance e Timeout); [eexists; cbn; by rewrite <- app_assoc|].
    destruct (isinstance e ConnectionError); [eexists; cbn; by rewrite <- !app_assoc|].
    destruct (isinstance e RequestException); eexists; cbn; by rewrite <- ?app_assoc.
  - destruct (Z.eqb _ _); [|eexists; cbn; by rewrite <- app_assoc].
    unfold response_json. destruct (json r) as [msg|v]; run;
      [eexists; cbn; by rewrite <- app_assoc|].
    destruct v; run; eexists; reflexivity.
Qed.

Lemma verify_email_sends_no_request P email w :
  whitespace_only email = true \/ environ w !! "RUNANYWHERE_DEV_MODE" = Some "1" ->
  exists evs,
    trace (verify_email P email w).2 = trace w ++ evs /\
    forall req, HttpGet req ∉ evs.
Proof.
  intros H. destruct (whitespace_only email) eqn:Hb.
  - exists []. rewrite verify_email_blank_run by done. cbn. rewrite app_nil_r.
    split; [done|]. intros req Hin. by apply elem_of_nil in Hin.
  - destruct H as [H|H]; [done|]. eexists. rewrite verify_email_dev_run by done.
    split; [reflexivity|]. intros req Hin.
    apply list_elem_of_singleton in Hin. discriminate.
Qed.

(** C10.  An email that is empty or only white space is denied without a
    request and without any output: [verify_email] answers [False] and
    leaves the state, its trace included, as it was, whatever the
    environment holds, so also under [RUNANYWHERE_DEV_MODE=1]. *)
Theorem blank_email_denied_before_dev_mode (P : platform) (email : string) (w : state) :
  whitespace_only email = true ->
  verify_email P email w = (Return false, w).
Proof. apply verify_email_blank_run. Qed.

Lemma blank_email_denied_before_dev_mode_witness :
  environ Sample.dev_mode !! "RUNANYWHERE_DEV_MODE" = Some "1" /\
  verify_email Sample.shipped "  " Sample.dev_mode = (Return false, Sample.dev_mode).
Proof.
  split; [reflexivity|].
  apply (blank_email_denied_before_dev_mode Sample.shipped "  " Sample.dev_mode).
  reflexivity.
Defined.

(** C5, as the code has it.  Under [RUNANYWHERE_DEV_MODE=1] an email that
    is not blank is verified: [verify_email] answers [True], the only thing
    it does is to print the bypass notice, and so it sends no request. *)
Theorem dev_mode_grants_nonblank_email (P : platform) (email : string) (w : state) :
  whitespace_only email = false ->
  environ w !! "RUNANYWHERE_DEV_MODE" = Some "1" ->
  verify_email P email w =
    (Return true, add_events [Print "[DEV MODE] Skipping email verification"] w).
Proof. apply verify_email_dev_run. Qed.

Lemma dev_mode_grants_nonblank_email_witness :
  verify_email Sample.offline "User@Example.COM" Sample.dev_mode =
    (Return true,
     add_events [Print "[DEV MODE] Skipping email verification"] Sample.dev_mode).
Proof.
  apply (dev_mode_grants_nonblank_email Sample.offline "User@Example.COM" Sample.dev_mode);
    reflexivity.
Defined.

(** C5 as stated fails: with the flag set, the empty email is denied. *)
Lemma dev_mode_denies_empty_email :
  environ Sample.dev_mode !! "RUNANYWHERE_DEV_MODE" = Some "1" /\
  (verify_email Sample.shipped "" Sample.dev_mode).1 = Return false.
Proof. split; reflexivity. Qed.



(** ** Programs that do not reach the host *)

Lemma quiet_same {A} (m : prog A) : (forall w, (m w).2 = w) -> quiet m.
Proof. intros H w. exists []. rewrite H, app_nil_r. by split. Qed.

Lemma quiet_same_trace {A} (m : prog A) :
  (forall w, trace (m w).2 = trace w) -> quiet m.
Proof. intros H w. exists []. rewrite H, app_nil_r. by split. Qed.

Lemma quiet_ret {A} (a : A) : quiet (mret a).
Proof. by apply quiet_same. Qed.

Lemma quiet_raise {A} e : quiet (@raise A e).
Proof. by apply quiet_same. Qed.

Lemma quiet_sys_exit {A} c : quiet (@sys_exit A c).
Proof. by apply quiet_same. Qed.

Lemma quiet_bind {A B} (m : prog A) (f : A -> prog B) :
  quiet m -> (forall a, quiet (f a)) -> quiet (m ≫= f).
Proof.
  intros Hm Hf w. rewrite run_bind. destruct (Hm w) as (evs & Ht & Hq).
  destruct (m w) as [[a|e|c] w1]; cbn in *; [|by eauto..].
  destruct (Hf a w1) as (evs' & Ht' & Hq'). exists (evs ++ evs').
  rewrite Ht', Ht, app_assoc. split; [done|]. by apply Forall_app.
Qed.

Lemma quiet_try_except {A} (body : prog A) clauses :
  quiet body -> Forall (fun cl => forall e, quiet (cl.2 e)) clauses ->
  quiet (try_except body clauses).
Proof.
  intros Hm Hc w. unfold try_except. destruct (Hm w) as (evs & Ht & Hq).
  destruct (body w) as [[a|e|c] w1]; cbn in *; [by eauto| |by eauto].
  destruct (find _ clauses) as [cl|] eqn:Hfind; [|by eauto].
  apply find_some in Hfind as [Hin _]. apply list_elem_of_In in Hin.
  rewrite Forall_forall in Hc. destruct (Hc cl Hin e w1) as (evs' & Ht' & Hq').
  exists (evs ++ evs'). rewrite Ht', Ht, app_assoc. split; [done|]. by apply Forall_app.
Qed.

Lemma quiet_emit ev : not_host_main ev -> quiet (emit ev).
Proof. intros H w. exists [ev]. split; [done|]. by constructor. Qed.

Lemma quiet_print text : quiet (print text).
Proof. apply quiet_emit. by intros args. Qed.

Lemma quiet_environ_get name : quiet (environ_get name).
Proof. by apply quiet_same. Qed.
Lemma quiet_environ_set name v : quiet (environ_set name v).
Proof. by apply quiet_same_trace. Qed.
Lemma quiet_get_argv : quiet get_argv.
Proof. by apply quiet_same. Qed.
Lemma quiet_set_argv l : quiet (set_argv l).
Proof. by apply quiet_same_trace. Qed.
Lemma quiet_get_host : quiet get_host.
Proof. by apply quiet_same. Qed.
Lemma quiet_set_host h : quiet (set_host h).
Proof. by apply quiet_same_trace. Qed.
Lemma quiet_get_cache_file : quiet get_cache_file.
Proof. by apply quiet_same. Qed.
Lemma quiet_set_cache_file c : quiet (set_cache_file c).
Proof. by apply quiet_same_trace. Qed.
Lemma quiet_read_line : quiet read_line.
Proof. apply quiet_same_trace. intros w. unfold read_line. by destruct (stdin w). Qed.

Lemma email_loop_events lines :
  Forall not_host_main (email_loop lines).2.
Proof.
  induction lines as [|line rest IH]; cbn.
  - repeat constructor. by intros args.
  - destruct (negb (truthy (strip line))).
    { destruct (email_loop rest) as [[r l] evs]. cbn in *.
      repeat (constructor; [by intros args|]). done. }
    destruct (negb (contains "@" (strip line)) || negb (contains "." (strip line)))%bool.
    { destruct (email_loop rest) as [[r l] evs]. cbn in *.
      repeat (constructor; [by intros args|]). done. }
    repeat constructor. by intros args.
Qed.

Lemma quiet_read_email : quiet read_email.
Proof.
  intros w. unfold read_email. pose proof (email_loop_events (stdin w)) as H.
  destruct (email_loop (stdin w)) as [[r l] evs]. cbn in *. eauto.
Qed.

Create HintDb quiet.
#[export] Hint Resolve quiet_ret quiet_raise quiet_sys_exit quiet_print quiet_environ_get
  quiet_environ_set quiet_get_argv quiet_set_argv quiet_get_host quiet_set_host
  quiet_get_cache_file quiet_set_cache_file quiet_read_line quiet_read_email : quiet.

(** Proves [quiet] of a program by going through its text. *)
Ltac quiet_step :=
  match goal with
  | |- quiet (mbind _ _) => apply quiet_bind; [|intros ?]
  | |- quiet (try_except _ _) => apply quiet_try_except; [|repeat constructor; intros ?]
  | |- quiet (if ?b then _ else _) => destruct b
  | |- quiet (match ?x with _ => _ end) => destruct x
  | |- quiet (emit _) => apply quiet_emit; by intros ?
  | |- quiet _ => solve [auto with quiet]
  end.
Ltac quiet_tac := repeat (cbn [snd]; quiet_step).

Lemma quiet_fs_guard P op : quiet (fs_guard P op).
Proof. unfold fs_guard. quiet_tac. Qed.
#[export] Hint Resolve quiet_fs_guard : quiet.

Lemma quiet_get_cached_email P : quiet (get_cached_email P).
Proof. unfold get_cached_email, path_exists, read_text. quiet_tac. Qed.

Lemma quiet_save_email_to_cache P email : quiet (save_email_to_cache P email).
Proof. unfold save_email_to_cache, mkdir_parents, write_text. quiet_tac. Qed.

Lemma quiet_clear_auth_cache P : quiet (clear_auth_cache P).
Proof. unfold clear_auth_cache, path_exists, unlink. quiet_tac. Qed.
#[export] Hint Resolve quiet_get_cached_email quiet_save_email_to_cache
  quiet_clear_auth_cache : quiet.

Lemma quiet_verify_email P email : quiet (verify_email P email).
Proof.
  unfold verify_email, SUPABASE_URL, SUPABASE_ANON_KEY, requests_get, response_json, py_len.
  quiet_tac.
Qed.

Lemma quiet_prompt_without_cache : quiet prompt_without_cache.
Proof. unfold prompt_without_cache. quiet_tac. Qed.
#[export] Hint Resolve quiet_verify_email quiet_prompt_without_cache : quiet.

Lemma quiet_prompt_for_email P : quiet (prompt_for_email P).
Proof. unfold prompt_for_email, input. quiet_tac. Qed.
#[export] Hint Resolve quiet_prompt_for_email : quiet.

Lemma quiet_authenticate P : quiet (authenticate P).
Proof. unfold authenticate. quiet_tac. Qed.

Lemma quiet_logout P : quiet (logout P).
Proof. unfold logout. quiet_tac. Qed.
#[export] Hint Resolve quiet_authenticate quiet_logout : quiet.

Lemma quiet_main_gate P : quiet (main_gate P).
Proof. unfold main_gate, check_help_flags, print_banner. quiet_tac. Qed.

(** ** The access gate: the cached identity *)

Lemma whitespace_only_newlines b s : whitespace_only (newlines b s) = whitespace_only s.
Proof.
  revert b. induction s as [|c s IH]; intros b; [done|]. cbn [newlines].
  destruct (Ascii.eqb_spec c "013") as [->|Hc].
  - cbn [whitespace_only]. by rewrite IH.
  - destruct b; cbn [andb].
    + destruct (Ascii.eqb_spec c "010") as [->|Hl].
      * by rewrite IH.
      * cbn [whitespace_only]. by rewrite IH.
    + cbn [whitespace_only]. by rewrite IH.
Qed.

Lemma newlines_without_cr s :
  contains (String "013" EmptyString) s = false -> universal_newlines s = s.
Proof.
  unfold universal_newlines. induction s as [|c s IH]; [done|].
  cbn [contains String.prefix newlines]. intros H. apply orb_false_iff in H as [Hp Hs].
  destruct (Ascii.eqb_spec c "013") as [->|Hc].
  - exfalso. destruct (Ascii.ascii_dec "013" "013") as [_|Hn]; [|by destruct Hn].
    by destruct s.
  - cbn [andb]. by rewrite IH.
Qed.

Lemma get_cached_email_run P w :
  get_cached_email P w =
    (Return (match cache_file w, fs_fault P FsRead with
             | Some text, None => Some (strip (universal_newlines text))
             | _, _ => None
             end), w).
Proof.
  unfold get_cached_email, try_except, path_exists, read_text, fs_guard. run.
  destruct (cache_file w) as [text|] eqn:Hc; cbn; [|done].
  destruct (fs_fault P FsRead); run; [done|]. rewrite Hc; reflexivity.
Qed.

(** The run of [save_email_to_cache], step by step: the directory, the
    opening of the file, the encoding, the writing. *)
Lemma save_email_to_cache_run P email w :
  save_email_to_cache P email w =
    match fs_fault P FsMkdir, fs_fault P FsWrite with
    | Some msg, _ | None, Some msg =>
        (Return tt, add_events [Print ("Warning: Could not save auth cache: " +:+ msg)] w)
    | None, None =>
        match encode_fault P email with
        | Some msg => (Raise (unicode_encode_error msg), with_cache_file (Some "") w)
        | None =>
            match fs_fault P FsFlush with
            | Some msg =>
                (Return tt,
                 add_events [Print ("Warning: Could not save auth cache: " +:+ msg)]
                   (with_cache_file (Some "") w))
            | None => (Return tt, with_cache_file (Some email) w)
            end
        end
    end.
Proof.
  unfold save_email_to_cache, try_except, mkdir_parents, write_text, fs_guard.
  destruct (fs_fault P FsMkdir); [run; reflexivity|].
  destruct (fs_fault P FsWrite); [run; reflexivity|]. run.
  destruct (encode_fault P email); run; [reflexivity|].
  destruct (fs_fault P FsFlush); run; reflexivity.
Qed.

Lemma save_email_to_cache_ok P email w :
  fs_fault P FsMkdir = None -> fs_fault P FsWrite = None -> fs_fault P FsFlush = None ->
  encode_fault P email = None ->
  save_email_to_cache P email w = (Return tt, with_cache_file (Some email) w).
Proof. intros Hm Hw Hf He. by rewrite save_email_to_cache_run, Hm, Hw, Hf, He. Qed.

Lemma clear_auth_cache_run P w :
  clear_auth_cache P w =
    (Return tt, match cache_file w, fs_fault P FsUnlink with
                | Some _, None => with_cache_file None w
                | _, _ => w
                end).
Proof.
  unfold clear_auth_cache, try_except, path_exists, unlink, fs_guard. run.
  destruct (cache_file w) eqn:Hc; cbn; [|done].
  destruct (fs_fault P FsUnlink); run; [done|]. rewrite Hc. reflexivity.
Qed.

Lemma logout_run P w :
  logout P w =
    (Return tt,
     add_events
       [Print "Logged out successfully. You will need to re-authenticate next time."]
       (match cache_file w, fs_fault P FsUnlink with
        | Some _, None => with_cache_file None w
        | _, _ => w
        end)).
Proof. unfold logout. rewrite run_bind, clear_auth_cache_run. reflexivity. Qed.

Lemma logouts_cache_file P n w :
  fs_fault P FsUnlink = None -> cache_file (logouts P (S n) w) = None.
Proof.
  intros Hf. cbn [logouts]. rewrite logout_run, Hf. cbn [snd].
  destruct (cache_file (logouts P n w)) eqn:E; [reflexivity|exact E].
Qed.




(** ** The access gate: [authenticate] *)

Lemma email_loop_Return lines e rem evs :
  email_loop lines = (Return e, rem, evs) ->
  exists line, line ∈ lines /\ e = strip line.
Proof.
  revert rem evs. induction lines as [|line rest IH]; intros rem evs; simpl; [discriminate|].
  destruct (negb (truthy (strip line))).
  { destruct (email_loop rest) as [[r l] ev] eqn:E. intros [= -> -> <-].
    destruct (IH _ _ eq_refl) as (x & Hx & ->). exists x.
    split; [apply elem_of_cons; by right|done]. }
  destruct (negb (contains "@" (strip line)) || negb (contains "." (strip line)))%bool.
  { destruct (email_loop rest) as [[r l] ev] eqn:E. intros [= -> -> <-].
    destruct (IH _ _ eq_refl) as (x & Hx & ->). exists x.
    split; [apply elem_of_cons; by right|done]. }
  intros [= <- <- <-]. exists line. split; [apply elem_of_cons; by left|done].
Qed.

Lemma prompt_without_cache_Return w e w1 :
  prompt_without_cache w = (Return e, w1) ->
  exists entered,
    (environ w !! "RUNANYWHERE_EMAIL" = Some entered \/ entered ∈ stdin w)
    /\ e = strip entered.
Proof.
  unfold prompt_without_cache. rewrite run_bind. unfold environ_get. cbv beta iota.
  destruct (environ w !! "RUNANYWHERE_EMAIL") as [v|] eqn:Hv; cbn [truthy_opt].
  - destruct (truthy v).
    + intros [= <- <-]. exists v. auto.
    + repeat step_print. unfold read_email. cbn.
      destruct (email_loop (stdin w)) as [[r l] ev] eqn:E. intros [= -> <-].
      destruct (email_loop_Return _ _ _ _ E) as (x & Hx & ->). eauto.
  - repeat step_print. unfold read_email. cbn.
    destruct (email_loop (stdin w)) as [[r l] ev] eqn:E. intros [= -> <-].
    destruct (email_loop_Return _ _ _ _ E) as (x & Hx & ->). eauto.
Qed.

(** What [prompt_for_email] returns is the trimmed form of something
    entered. *)
Lemma prompt_for_email_Return P w e w1 :
  prompt_for_email P w = (Return e, w1) ->
  exists entered, entered_in w entered /\ e = strip entered.
Proof.
  unfold prompt_for_email. rewrite run_bind, get_cached_email_run. cbv beta iota.
  destruct (cache_file w) as [text|] eqn:Hc; [destruct (fs_fault P FsRead)|].
  - cbn [truthy_opt]. intros H. apply prompt_without_cache_Return in H as (x & Hx & ->).
    exists x. unfold entered_in. tauto.
  - cbn [truthy_opt]. destruct (truthy (strip (universal_newlines text))) eqn:Ht.
    + step_print. unfold input, read_line. run.
      destruct (stdin w) as [|line rest] eqn:Hin; cbn; [discriminate|].
      destruct (String.eqb (lower (strip line)) "new"); cbn.
      * intros H. apply prompt_without_cache_Return in H as (x & Hx & ->).
        cbn in Hx. exists x. unfold entered_in. rewrite Hin. split; [|done].
        destruct Hx as [Hx|Hx]; [tauto|]. right; right. apply elem_of_cons. by right.
      * intros [= <- <-]. exists (universal_newlines text). unfold entered_in. eauto.
    + intros H. apply prompt_without_cache_Return in H as (x & Hx & ->).
      exists x. unfold entered_in. tauto.
  - cbn [truthy_opt]. intros H. apply prompt_without_cache_Return in H as (x & Hx & ->).
    exists x. unfold entered_in. tauto.
Qed.

(** A run of [authenticate] that returns went through the three steps. *)
Lemma authenticate_Return P w email w' :
  authenticate P w = (Return email, w') ->
  exists w1 w2,
    prompt_for_email P w = (Return email, w1) /\
    verify_email P email (add_events [Print (NL +:+ "Verifying email...")] w1)
      = (Return true, w2) /\
    save_email_to_cache P email (add_events [Print ("✓ Email verified: " +:+ email)] w2)
      = (Return tt, w').
Proof.
  unfold authenticate. intros H.
  apply bind_Return in H as (e & w1 & Hp & H).
  apply bind_Return in H as ([] & w1' & Hpr & H). injection Hpr as <-.
  apply bind_Return in H as (ok & w2 & Hv & H).
  destruct ok.
  - apply bind_Return in H as ([] & w3 & Hpr & H). injection Hpr as <-.
    apply bind_Return in H as ([] & w4 & Hs & H). injection H as <- <-.
    eauto.
  - exfalso. revert H. repeat step_print.
    rewrite run_bind, clear_auth_cache_run. discriminate.
Qed.

(** With a cached identity that can be read, [prompt_for_email] starts by
    offering it, and returns it unless the user types [new]. *)
Lemma prompt_for_email_offers P w file email :
  cache_file w = Some file -> strip (universal_newlines file) = email ->
  truthy email = true ->
  fs_fault P FsRead = None ->
  (exists evs, trace (prompt_for_email P w).2
               = trace w ++ Print ("Using cached email: " +:+ email) :: evs) /\
  (forall line rest, stdin w = line :: rest -> lower (strip line) <> "new" ->
     (prompt_for_email P w).1 = Return email).
Proof.
  intros Hc Hs Ht Hr.
  unfold prompt_for_email. rewrite run_bind, get_cached_email_run, Hc, Hr, Hs.
  cbv beta iota. cbn [truthy_opt default from_option]. rewrite Ht.
  step_print. unfold input. rewrite !run_bind. unfold emit, read_line. cbn.
  split.
  - destruct (stdin w) as [|line rest]; cbn.
    + eexists. rewrite <- app_assoc. reflexivity.
    + destruct (String.eqb _ _); cbn.
      * match goal with |- context [prompt_without_cache ?w0] =>
          destruct (quiet_prompt_without_cache w0) as (evs & -> & _) end.
        cbn. eexists. rewrite <- !app_assoc. reflexivity.
      * eexists. rewrite <- app_assoc. reflexivity.
  - intros line rest -> Hn. cbn.
    destruct (String.eqb_spec (lower (strip line)) "new"); [done|]. reflexivity.
Qed.




(** ** The credential resolver *)

Lemma get_anthropic_key_run P w :
  get_anthropic_key P w = (Return (resolve P (environ w) "ANTHROPIC_API_KEY" "anthropic"), w).
Proof.
  unfold get_anthropic_key, resolve. rewrite run_bind. unfold environ_get. cbv beta iota.
  by destruct (truthy_opt _).
Qed.

Lemma get_openai_key_run P w :
  get_openai_key P w = (Return (resolve P (environ w) "OPENAI_API_KEY" "openai"), w).
Proof.
  unfold get_openai_key, resolve. rewrite run_bind. unfold environ_get. cbv beta iota.
  by destruct (truthy_opt _).
Qed.

Lemma check_api_keys_run P w :
  check_api_keys P w =
    (Return (truthy_opt (resolve P (environ w) "ANTHROPIC_API_KEY" "anthropic")
             || truthy_opt (resolve P (environ w) "OPENAI_API_KEY" "openai"))%bool, w).
Proof.
  unfold check_api_keys. rewrite run_bind, get_anthropic_key_run. cbv beta iota.
  rewrite run_bind, get_openai_key_run. cbv beta iota. by rewrite <- truthy_or_opt.
Qed.

Lemma resolve_override P env variable provider v :
  env !! variable = Some v -> v <> "" -> resolve P env variable provider = Some v.
Proof.
  intros H Hv. unfold resolve. rewrite H. cbn. apply truthy_true in Hv. by rewrite Hv.
Qed.

Lemma resolve_unconfigured P env variable provider :
  env !! variable = None ->
  startswith (embedded_key P provider) "REPLACE_WITH" = true
  \/ embedded_key P provider = ""
  \/ b64decode_utf8 P (embedded_key P provider) = None ->
  resolve P env variable provider = None.
Proof.
  intros H Hk. unfold resolve, _decode_key. rewrite H. cbn.
  destruct Hk as [Hk|[Hk|Hk]].
  - rewrite Hk. by rewrite orb_true_r.
  - rewrite Hk. reflexivity.
  - by destruct (_ || _)%bool.
Qed.

Lemma truthy_opt_Some o : truthy_opt o = true <-> exists s, o = Some s /\ s <> "".
Proof.
  destruct o as [s|]; cbn.
  - rewrite truthy_true. split; [eauto|]. by intros (? & [= <-] & ?).
  - split; [done|]. by intros (? & ? & ?).
Qed.

(** C6, as the code has it.  A provider's variable that is set to a
    non-empty value is what [get_anthropic_key] and [get_openai_key]
    return, whatever [_EMBEDDED_KEYS] and the codec are; the state is left
    as it was. *)
Theorem override_wins_when_nonempty (P : platform) (w : state) (v : string) :
  v <> "" ->
  (environ w !! "ANTHROPIC_API_KEY" = Some v -> get_anthropic_key P w = (Return (Some v), w)) /\
  (environ w !! "OPENAI_API_KEY" = Some v -> get_openai_key P w = (Return (Some v), w)).
Proof.
  intros Hv. split; intros H.
  - rewrite get_anthropic_key_run. by rewrite (resolve_override P _ _ _ v).
  - rewrite get_openai_key_run. by rewrite (resolve_override P _ _ _ v).
Qed.

Lemma override_wins_when_nonempty_witness :
  get_anthropic_key Sample.keyed Sample.own_anthropic
    = (Return (Some "sk-ant-mine"), Sample.own_anthropic) /\
  get_openai_key Sample.keyed Sample.own_openai
    = (Return (Some "sk-mine"), Sample.own_openai).
Proof.
  split.
  - apply (proj1 (override_wins_when_nonempty Sample.keyed Sample.own_anthropic
                    "sk-ant-mine" ltac:(discriminate))).
    reflexivity.
  - apply (proj2 (override_wins_when_nonempty Sample.keyed Sample.own_openai
                    "sk-mine" ltac:(discriminate))).
    reflexivity.
Defined.

(** C6 as stated fails: [ANTHROPIC_API_KEY] is set, to the empty string,
    and the resolver does not return it: it returns the embedded key where
    there is one, and [None] with the shipped placeholders. *)
Lemma empty_override_is_ignored :
  environ Sample.empty_anthropic !! "ANTHROPIC_API_KEY" = Some "" /\
  (get_anthropic_key Sample.keyed Sample.empty_anthropic).1 = Return (Some "sk-test") /\
  (get_anthropic_key Sample.shipped Sample.empty_anthropic).1 = Return None.
Proof. repeat split; reflexivity. Qed.

(** C7.  When a provider's variable is not set and its entry in
    [_EMBEDDED_KEYS] starts with [REPLACE_WITH], is empty (or missing), or
    does not decode, the resolver returns [None]. *)
Theorem unconfigured_fallback_is_absent (P : platform) (w : state) :
  (environ w !! "ANTHROPIC_API_KEY" = None ->
   startswith (embedded_key P "anthropic") "REPLACE_WITH" = true
   \/ embedded_key P "anthropic" = ""
   \/ b64decode_utf8 P (embedded_key P "anthropic") = None ->
   get_anthropic_key P w = (Return None, w)) /\
  (environ w !! "OPENAI_API_KEY" = None ->
   startswith (embedded_key P "openai") "REPLACE_WITH" = true
   \/ embedded_key P "openai" = ""
   \/ b64decode_utf8 P (embedded_key P "openai") = None ->
   get_openai_key P w = (Return None, w)).
Proof.
  split; intros H Hk.
  - rewrite get_anthropic_key_run. by rewrite resolve_unconfigured.
  - rewrite get_openai_key_run. by rewrite resolve_unconfigured.
Qed.

Lemma unconfigured_fallback_is_absent_witness :
  get_anthropic_key Sample.shipped Sample.first_run = (Return None, Sample.first_run) /\
  get_openai_key Sample.shipped Sample.first_run = (Return None, Sample.first_run).
Proof.
  destruct (unconfigured_fallback_is_absent Sample.shipped Sample.first_run) as [Ha Ho].
  split.
  - apply Ha; [reflexivity|]. left. reflexivity.
  - apply Ho; [reflexivity|]. left. reflexivity.
Defined.

(** *** [inject_api_keys] *)

Lemma inject_key_run P provider variable status w :
  inject_key P provider variable status w =
    if truthy_opt (environ w !! variable) then
      (Return (<[provider +:+ "_available" := true]> status), w)
    else if truthy_opt (_decode_key P (embedded_key P provider)) then
      (Return (<[provider +:+ "_available" := true]>
                 (<[provider +:+ "_injected" := true]> status)),
       with_environ
         (<[variable := default "" (_decode_key P (embedded_key P provider))]> (environ w)) w)
    else (Return status, w).
Proof.
  unfold inject_key. rewrite run_bind. unfold environ_get. cbv beta iota.
  destruct (truthy_opt (environ w !! variable)); cbn [negb]; [reflexivity|].
  destruct (truthy_opt (_decode_key P (embedded_key P provider))); reflexivity.
Qed.

(** The environment after one block of [inject_api_keys]. *)
Lemma inject_key_env P provider variable status w name :
  environ (inject_key P provider variable status w).2 !! name =
    if (bool_decide (name = variable) && injects P (environ w) variable provider)%bool
    then _decode_key P (embedded_key P provider)
    else environ w !! name.
Proof.
  rewrite inject_key_run. unfold injects.
  destruct (truthy_opt (environ w !! variable)); cbn [negb andb].
  { by rewrite andb_false_r. }
  destruct (truthy_opt (_decode_key P (embedded_key P provider))) eqn:Hk.
  - rewrite andb_true_r. cbn. case_bool_decide as Hn.
    + subst. rewrite lookup_insert_eq.
      apply truthy_opt_Some in Hk as (k & -> & _). reflexivity.
    + by rewrite lookup_insert_ne.
  - by rewrite andb_false_r.
Qed.

Lemma inject_key_Return P provider variable status w :
  exists status', (inject_key P provider variable status w).1 = Return status'.
Proof.
  rewrite inject_key_run.
  destruct (truthy_opt _); [eauto|]. destruct (truthy_opt _); eauto.
Qed.

Lemma inject_api_keys_run P w :
  inject_api_keys P w =
    inject_key P "openai" "OPENAI_API_KEY"
      (default initial_status
         (match (inject_key P "anthropic" "ANTHROPIC_API_KEY" initial_status w).1 with
          | Return st => Some st
          | _ => None
          end))
      (inject_key P "anthropic" "ANTHROPIC_API_KEY" initial_status w).2.
Proof.
  unfold inject_api_keys. rewrite run_bind.
  destruct (inject_key_Return P "anthropic" "ANTHROPIC_API_KEY" initial_status w) as [st Hst].
  destruct (inject_key P "anthropic" "ANTHROPIC_API_KEY" initial_status w) as [r w1].
  cbn in Hst. subst r. reflexivity.
Qed.

(** The environment after [inject_api_keys]: a variable changes only where
    it is injected, to the decoded embedded key. *)
Lemma inject_api_keys_env P w name :
  environ (inject_api_keys P w).2 !! name =
    if (bool_decide (name = "OPENAI_API_KEY")
        && injects P (environ w) "OPENAI_API_KEY" "openai")%bool
    then _decode_key P (embedded_key P "openai")
    else if (bool_decide (name = "ANTHROPIC_API_KEY")
             && injects P (environ w) "ANTHROPIC_API_KEY" "anthropic")%bool
    then _decode_key P (embedded_key P "anthropic")
    else environ w !! name.
Proof.
  rewrite inject_api_keys_run, inject_key_env.
  assert (injects P (environ (inject_key P "anthropic" "ANTHROPIC_API_KEY"
                                initial_status w).2) "OPENAI_API_KEY" "openai"
          = injects P (environ w) "OPENAI_API_KEY" "openai") as ->.
  { unfold injects. rewrite inject_key_env.
    rewrite bool_decide_eq_false_2 by discriminate. reflexivity. }
  destruct (_ && _)%bool; [reflexivity|]. apply inject_key_env.
Qed.

(** The status record [inject_api_keys] returns. *)
Lemma inject_api_keys_status P w :
  exists status,
    (inject_api_keys P w).1 = Return status /\
    status !! "anthropic_available"
      = Some (truthy_opt (resolve P (environ w) "ANTHROPIC_API_KEY" "anthropic")) /\
    status !! "anthropic_injected"
      = Some (injects P (environ w) "ANTHROPIC_API_KEY" "anthropic") /\
    status !! "openai_available"
      = Some (truthy_opt (resolve P (environ w) "OPENAI_API_KEY" "openai")) /\
    status !! "openai_injected"
      = Some (injects P (environ w) "OPENAI_API_KEY" "openai").
Proof.
  unfold inject_api_keys, injects, resolve. rewrite run_bind, inject_key_run.
  destruct (truthy_opt (environ w !! "ANTHROPIC_API_KEY")) eqn:Ha;
    [|destruct (truthy_opt (_decode_key P (embedded_key P "anthropic"))) eqn:Hka];
    cbv beta iota; rewrite inject_key_run; cbn [environ with_environ];
    rewrite ?lookup_insert_ne by discriminate;
    (destruct (truthy_opt (environ w !! "OPENAI_API_KEY")) eqn:Ho;
     [|destruct (truthy_opt (_decode_key P (embedded_key P "openai"))) eqn:Hko]);
    eexists; (split; [reflexivity|]); rewrite ?Ha, ?Hka, ?Ho, ?Hko;
    repeat split; reflexivity.
Qed.

Lemma inject_api_keys_no_write P w :
  injects P (environ w) "ANTHROPIC_API_KEY" "anthropic" = false ->
  injects P (environ w) "OPENAI_API_KEY" "openai" = false ->
  (inject_api_keys P w).2 = w.
Proof.
  unfold injects. intros Ha Ho. unfold inject_api_keys. rewrite run_bind, inject_key_run.
  destruct (truthy_opt (environ w !! "ANTHROPIC_API_KEY"));
    [|destruct (truthy_opt (_decode_key P (embedded_key P "anthropic"))); [done|]];
    cbv beta iota; rewrite inject_key_run;
    (destruct (truthy_opt (environ w !! "OPENAI_API_KEY"));
     [|destruct (truthy_opt (_decode_key P (embedded_key P "openai"))); [done|]]);
    reflexivity.
Qed.

(** C8, as the code has it.  A provider's variable that holds a non-empty
    value before [inject_api_keys] runs holds the same value after, and the
    status reports the provider as available and not injected.  A variable
    that changes is one of the two, held nothing (it was unset or empty)
    and now holds the decoded, non-empty embedded key of its provider. *)
Theorem inject_keeps_nonempty_variables (P : platform) (w : state) :
  (forall provider variable v,
     (provider, variable) ∈ [("anthropic", "ANTHROPIC_API_KEY"); ("openai", "OPENAI_API_KEY")] ->
     environ w !! variable = Some v -> v <> "" ->
     environ (inject_api_keys P w).2 !! variable = Some v /\
     exists status,
       (inject_api_keys P w).1 = Return status /\
       status !! (provider +:+ "_available") = Some true /\
       status !! (provider +:+ "_injected") = Some false) /\
  (forall name,
     environ (inject_api_keys P w).2 !! name <> environ w !! name ->
     exists provider key,
       (provider, name) ∈ [("anthropic", "ANTHROPIC_API_KEY"); ("openai", "OPENAI_API_KEY")] /\
       truthy_opt (environ w !! name) = false /\
       _decode_key P (embedded_key P provider) = Some key /\ key <> "" /\
       environ (inject_api_keys P w).2 !! name = Some key).
Proof.
  split.
  - intros provider variable v Hin Hv Hne.
    assert (truthy_opt (environ w !! variable) = true) as Ht.
    { rewrite Hv. by apply truthy_true. }
    destruct (inject_api_keys_status P w) as (status & Hs & Haa & Hai & Hoa & Hoi).
    apply elem_of_cons in Hin as [[= -> ->]|Hin];
      [|apply list_elem_of_singleton in Hin as [= -> ->]].
    + split.
      * rewrite inject_api_keys_env. unfold injects. rewrite Ht.
        rewrite bool_decide_eq_false_2 by discriminate. cbn. by rewrite andb_false_r.
      * exists status. split; [done|]. split.
        -- change (status !! "anthropic_available" = Some true).
           rewrite Haa. unfold resolve. by rewrite Ht, Ht.
        -- change (status !! "anthropic_injected" = Some false).
           rewrite Hai. unfold injects. by rewrite Ht.
    + split.
      * rewrite inject_api_keys_env. unfold injects. rewrite Ht.
        rewrite andb_false_r. rewrite bool_decide_eq_false_2 by discriminate. done.
      * exists status. split; [done|]. split.
        -- change (status !! "openai_available" = Some true).
           rewrite Hoa. unfold resolve. by rewrite Ht, Ht.
        -- change (status !! "openai_injected" = Some false).
           rewrite Hoi. unfold injects. by rewrite Ht.
  - intros name. rewrite inject_api_keys_env. unfold injects.
    case_bool_decide as Ho.
    + subst name. cbn [andb].
      destruct (truthy_opt (environ w !! "OPENAI_API_KEY")) eqn:Ht; cbn [negb andb].
      { rewrite bool_decide_eq_false_2 by discriminate. done. }
      destruct (truthy_opt (_decode_key P (embedded_key P "openai"))) eqn:Hk.
      * intros _. apply truthy_opt_Some in Hk as (k & Hk & Hne).
        exists "openai", k. rewrite Hk. repeat split; try done.
        apply elem_of_cons. right. by apply list_elem_of_singleton.
      * rewrite bool_decide_eq_false_2 by discriminate. done.
    + cbn [andb]. case_bool_decide as Ha; [|done]. subst name. cbn [andb].
      destruct (truthy_opt (environ w !! "ANTHROPIC_API_KEY")) eqn:Ht; cbn [negb andb]; [done|].
      destruct (truthy_opt (_decode_key P (embedded_key P "anthropic"))) eqn:Hk; [|done].
      intros _. apply truthy_opt_Some in Hk as (k & Hk & Hne).
      exists "anthropic", k. rewrite Hk. repeat split; try done.
      apply elem_of_cons. by left.
Qed.

Lemma inject_keeps_nonempty_variables_witness :
  environ (inject_api_keys Sample.keyed Sample.own_anthropic).2 !! "ANTHROPIC_API_KEY"
    = Some "sk-ant-mine" /\
  exists status,
    (inject_api_keys Sample.keyed Sample.own_anthropic).1 = Return status /\
    status !! "anthropic_available" = Some true /\
    status !! "anthropic_injected" = Some false.
Proof.
  apply (proj1 (inject_keeps_nonempty_variables Sample.keyed Sample.own_anthropic)
           "anthropic" "ANTHROPIC_API_KEY" "sk-ant-mine").
  - apply elem_of_cons. by left.
  - reflexivity.
  - discriminate.
Defined.

(** C8 as stated fails: [ANTHROPIC_API_KEY] is set, to the empty string;
    with a key embedded the variable is overwritten and reported as
    injected, and with the shipped placeholders it is left alone but
    reported as not available. *)
Lemma inject_overwrites_empty_variable :
  environ Sample.empty_anthropic !! "ANTHROPIC_API_KEY" = Some "" /\
  environ (inject_api_keys Sample.keyed Sample.empty_anthropic).2 !! "ANTHROPIC_API_KEY"
    = Some "sk-test" /\
  (exists status,
     (inject_api_keys Sample.keyed Sample.empty_anthropic).1 = Return status /\
     status !! "anthropic_injected" = Some true) /\
  (exists status,
     (inject_api_keys Sample.shipped Sample.empty_anthropic).1 = Return status /\
     status !! "anthropic_available" = Some false).
Proof.
  split; [reflexivity|]. split; [reflexivity|].
  split; eexists; (split; [reflexivity|reflexivity]).
Qed.

(** ** The prompt augmenter *)

Lemma class_of_set_class s s' c h :
  is_Some (class_of s h) ->
  class_of s' (set_class s c h) = if decide (s = s') then Some c else class_of s' h.
Proof. intros [c0 H]. destruct s, s'; cbn in *; done. Qed.

Lemma imports_ok_set_class s c h :
  is_Some (class_of s h) -> imports_ok (set_class s c h) = imports_ok h.
Proof.
  intros [c0 H]. unfold imports_ok. destruct s; cbn in *; try done.
  - destruct (editblock_prompts h) as [[?|]|]; done.
  - destruct (wholefile_prompts h) as [[?|]|]; done.
  - by rewrite H.
  - by rewrite H.
Qed.

(** Goes through the shapes of a host that a goal on its classes looks
    at. *)
Ltac host_cases :=
  repeat first
    [ match goal with
      | |- context [mjoin ?x] => is_var x; destruct x as [[?|]|]; cbn in *
      | |- context [match ?x ≫= _ with _ => _ end] => is_var x; destruct x; cbn in *
      | |- context [?x ≫= _] => is_var x; destruct x; cbn in *
      | |- context [main_system ?c ≫= _] => destruct (main_system c) eqn:?; cbn in *
      end
    | case_match; cbn in *; simplify_eq
    | case_bool_decide ];
  cbn in *; simplify_eq; try done;
  try (match goal with H : ~ (_ \/ _) |- _ => exfalso; apply H; by auto end);
  try (match goal with H : _ \/ _ |- _ => by destruct H end);
  try (repeat match goal with H : main_system _ = _ |- _ => rewrite H; clear H end; done).

Lemma fenced_inherits_set_class s c h :
  fenced_inherits (set_class s c h) = fenced_inherits h.
Proof. by destruct s. Qed.

(** The text of a class that stands alone is its own. *)
Lemma slot_text_alone s h :
  s <> FencedSlot -> slot_text s h = class_of s h ≫= main_system.
Proof.
  intros Hs. unfold slot_text, class_attr.
  destruct (class_of s h) as [c|]; [|done]. cbn.
  destruct (main_system c); [done|]. by destruct s.
Qed.

(** The text of the fenced class: its own, or the inherited one. *)
Lemma slot_text_fenced h :
  slot_text FencedSlot h =
    c ← class_of FencedSlot h;
    match main_system c with
    | Some t => Some t
    | None => if fenced_inherits h then class_of EditBlockSlot h ≫= main_system else None
    end.
Proof. reflexivity. Qed.

(** A prefix on the text of slot [s] shows in slot [s'] when it is the
    same slot, or when the class of [s'] takes its text from that of
    [s]. *)
Lemma slot_text_prepend_in prefix s s' h :
  slot_text s' (prepend_in prefix s h) =
    if bool_decide (s = s' \/ attr_owner main_system s' h = Some s)
    then (fun o => prefix +:+ o) <$> slot_text s' h
    else slot_text s' h.
Proof.
  unfold slot_text, class_attr, attr_owner, prepend_in, slot_text, class_attr, attr_owner.
  destruct h as [e wf bp f u hp pr inh].
  destruct s, s'; cbn; host_cases.
Qed.

Lemma attr_owner_cases {A} (attr : prompt_class -> option A) s h o :
  attr_owner attr s h = Some o -> o = s \/ s = FencedSlot /\ o = EditBlockSlot.
Proof.
  unfold attr_owner. destruct (class_of s h) as [c|]; [|done]. cbn.
  destruct (attr c); [intros [= <-]; by left|].
  destruct s; try done. destruct (fenced_inherits h); [|done].
  intros H. right. split; [done|]. revert H.
  destruct (mjoin (editblock_prompts h)) as [b|]; cbn; [|done].
  destruct (attr b); cbn; [|done]. by intros [= <-].
Qed.

(** A prefix on the text of slot [s] does not show in another slot,
    unless that is a fenced one looking at the primary one. *)
Lemma slot_text_prepend_in_alone prefix s s' h :
  s <> s' -> s' <> FencedSlot \/ s <> EditBlockSlot ->
  slot_text s' (prepend_in prefix s h) = slot_text s' h.
Proof.
  intros Hne Hf. rewrite slot_text_prepend_in. case_bool_decide as Hd; [|done].
  destruct Hd as [?|Ho]; [done|]. apply attr_owner_cases in Ho. exfalso.
  destruct Ho as [?|[? ?]]; [by subst|]. by destruct Hf.
Qed.

Lemma slot_text_extend_in more s s' h : slot_text s' (extend_in more s h) = slot_text s' h.
Proof.
  unfold extend_in.
  destruct (class_of s h) as [c|] eqn:Hc; [|done].
  destruct (example_messages c) as [l|]; [|done].
  destruct s, s'; rewrite ?slot_text_fenced, ?slot_text_alone by done;
    rewrite ?fenced_inherits_set_class;
    rewrite ?class_of_set_class by (rewrite Hc; eauto);
    cbn [decide decide_rel prompt_slot_eq_dec mbind option_bind];
    cbn in Hc |- *; rewrite ?Hc; cbn; try done;
    repeat match goal with
           | |- context [match ?x with _ => _ end] => destruct x eqn:?
           end; cbn in *; simplify_eq; done.
Qed.

Lemma get_main_system_run s w :
  get_main_system s w =
    match class_of s (host w) with
    | None => (Raise (attribute_error "module" (class_name s)), w)
    | Some c =>
        match slot_text s (host w) with
        | None => (Raise (attribute_error (class_name s) "main_system"), w)
        | Some text => (Return text, w)
        end
    end.
Proof.
  unfold get_main_system, get_class, slot_text. run.
  destruct (class_of s (host w)) as [c|]; [|done]. cbn.
  by destruct (class_attr main_system s (host w)).
Qed.

Lemma slot_text_class_of s h : is_Some (slot_text s h) -> is_Some (class_of s h).
Proof.
  unfold slot_text, class_attr, attr_owner.
  destruct (class_of s h); [eauto|]. by intros [? ?].
Qed.

Lemma slot_text_is_Some_get s w :
  is_Some (slot_text s (host w)) -> exists t, get_main_system s w = (Return t, w).
Proof.
  intros H. rewrite get_main_system_run.
  destruct (slot_text_class_of _ _ H) as [c ->]. destruct H as [t ->]. eauto.
Qed.

Lemma slot_text_None_get s w :
  slot_text s (host w) = None ->
  exists msg, get_main_system s w = (Raise {| exn_cls := AttributeError; exn_str := msg |}, w).
Proof.
  intros H. rewrite get_main_system_run, H. unfold attribute_error.
  destruct (class_of s (host w)) as [c|]; eauto.
Qed.

Lemma prepend_prefix_run P s w :
  prepend_prefix P s w =
    match get_main_system s w with
    | (Return _, _) => (Return tt, with_host (prepend_in (runanywhere_prefix P) s (host w)) w)
    | (Raise e, _) => (Raise e, w)
    | (SysExit c, _) => (SysExit c, w)
    end.
Proof.
  unfold prepend_prefix. rewrite run_bind, get_main_system_run.
  unfold prepend_in, set_main_system, get_class.
  destruct (class_of s (host w)) as [c|] eqn:Hc; [|done].
  destruct (slot_text s (host w)); [|done]. run. rewrite Hc. reflexivity.
Qed.

Lemma guarded_prepend_run P s w :
  try_except (prepend_prefix P s) [(Exception, fun _ => mret tt)] w =
    (Return tt, with_host (prepend_in (runanywhere_prefix P) s (host w)) w).
Proof.
  unfold try_except. rewrite prepend_prefix_run, get_main_system_run. unfold prepend_in.
  destruct (class_of s (host w)) as [c|].
  - destruct (slot_text s (host w)); [done|]. unfold attribute_error. run.
    by rewrite with_host_id.
  - unfold attribute_error. run. by rewrite with_host_id.
Qed.

(** The class that holds the examples of the primary slot is its own. *)
Lemma guarded_extend_run more w :
  try_except (extend_example_messages EditBlockSlot more) [(Exception, fun _ => mret tt)] w =
    (Return tt, with_host (extend_in more EditBlockSlot (host w)) w).
Proof.
  unfold try_except, extend_example_messages, get_class, extend_in, attr_owner. run.
  destruct (editblock_prompts (host w)) as [[c|]|] eqn:Hc; cbn; rewrite ?Hc; cbn.
  - destruct (example_messages c) eqn:He; cbn; rewrite ?Hc; cbn; rewrite ?He;
      [done|by rewrite with_host_id].
  - by rewrite with_host_id.
  - by rewrite with_host_id.
Qed.

Lemma import_name_run name present w :
  import_name name present w =
    if present (host w) then (Return tt, w) else (Raise (import_error name), w).
Proof. unfold import_name. run. by destruct (present (host w)). Qed.

Lemma imports_ok_true h :
  imports_ok h = true ->
  bool_decide (is_Some (editblock_prompts h)) = true /\
  bool_decide (is_Some (wholefile_prompts h)) = true /\
  base_prompts h = true /\
  bool_decide (is_Some (EditBlockFencedPrompts h)) = true /\
  bool_decide (is_Some (UnifiedDiffPrompts h)) = true.
Proof. unfold imports_ok. rewrite !andb_true_iff. tauto. Qed.

Ltac step_import H :=
  rewrite run_bind, import_name_run; cbv beta; rewrite ?H; cbv beta iota.

(** [patch_aider_prompts] with the imports, the primary template and the
    whole-file template in place: it runs to its end. *)
Lemma patch_aider_prompts_ok P w :
  imports_ok (host w) = true ->
  is_Some (slot_text EditBlockSlot (host w)) ->
  is_Some (slot_text WholeFileSlot (host w)) ->
  patch_aider_prompts P w =
    (Return tt, add_events [Print "✓ RunAnywhere SDK prompts loaded"]
                  (with_host (aider_patched P (host w)) w)).
Proof.
  intros (H1 & H2 & H3 & H4 & H5)%imports_ok_true He Hw.
  unfold patch_aider_prompts. unfold try_except at 1.
  step_import H1. step_import H2. step_import H3. step_import H4. step_import H5.
  destruct (slot_text_is_Some_get _ _ He) as [t Ht].
  rewrite run_bind, prepend_prefix_run, Ht. cbv beta iota.
  set (w1 := with_host _ w).
  assert (is_Some (slot_text WholeFileSlot (host w1))) as Hw1.
  { subst w1. unfold with_host. cbn [host].
    by rewrite slot_text_prepend_in_alone by auto. }
  destruct (slot_text_is_Some_get _ _ Hw1) as [t' Ht'].
  rewrite run_bind, prepend_prefix_run, Ht'. cbv beta iota.
  rewrite run_bind, guarded_prepend_run. cbv beta iota.
  rewrite run_bind, guarded_prepend_run. cbv beta iota.
  rewrite run_bind, guarded_extend_run. cbv beta iota.
  rewrite print_run. reflexivity.
Qed.

(** The whole-file template missing: the primary one is patched, then the
    function gives up with a warning. *)
Lemma patch_aider_prompts_no_whole_file P w :
  imports_ok (host w) = true ->
  is_Some (slot_text EditBlockSlot (host w)) ->
  slot_text WholeFileSlot (host w) = None ->
  exists msg,
    patch_aider_prompts P w =
      (Return tt, add_events [Print ("Warning: Error patching prompts: " +:+ msg)]
                    (with_host (prepend_in (runanywhere_prefix P) EditBlockSlot (host w)) w)).
Proof.
  intros (H1 & H2 & H3 & H4 & H5)%imports_ok_true He Hw.
  unfold patch_aider_prompts. unfold try_except at 1.
  step_import H1. step_import H2. step_import H3. step_import H4. step_import H5.
  destruct (slot_text_is_Some_get _ _ He) as [t Ht].
  rewrite run_bind, prepend_prefix_run, Ht. cbv beta iota.
  set (w1 := with_host _ w).
  assert (slot_text WholeFileSlot (host w1) = None) as Hw1.
  { subst w1. unfold with_host. cbn [host].
    by rewrite slot_text_prepend_in_alone by auto. }
  destruct (slot_text_None_get _ _ Hw1) as [msg Hmsg].
  rewrite run_bind, prepend_prefix_run, Hmsg. cbv beta iota.
  exists msg. run. reflexivity.
Qed.

(** The primary template missing: nothing is patched. *)
Lemma patch_aider_prompts_no_edit_block P w :
  imports_ok (host w) = true ->
  slot_text EditBlockSlot (host w) = None ->
  exists msg,
    patch_aider_prompts P w =
      (Return tt, add_events [Print ("Warning: Error patching prompts: " +:+ msg)] w).
Proof.
  intros (H1 & H2 & H3 & H4 & H5)%imports_ok_true He.
  unfold patch_aider_prompts. unfold try_except at 1.
  step_import H1. step_import H2. step_import H3. step_import H4. step_import H5.
  destruct (slot_text_None_get _ _ He) as [msg Hmsg].
  rewrite run_bind, prepend_prefix_run, Hmsg. cbv beta iota.
  exists msg. run. reflexivity.
Qed.

(** An import failing: nothing is patched. *)
Lemma patch_aider_prompts_import_fails P w :
  imports_ok (host w) = false ->
  exists msg,
    patch_aider_prompts P w =
      (Return tt, add_events [Print ("Warning: Could not patch aider prompts: " +:+ msg)] w).
Proof.
  intros H. unfold patch_aider_prompts. unfold try_except at 1.
  unfold imports_ok in H.
  rewrite run_bind, import_name_run. cbv beta.
  destruct (bool_decide (is_Some (editblock_prompts (host w)))); cbv beta iota;
    [|eexists; unfold import_error; run; reflexivity].
  rewrite run_bind, import_name_run. cbv beta.
  destruct (bool_decide (is_Some (wholefile_prompts (host w)))); cbv beta iota;
    [|eexists; unfold import_error; run; reflexivity].
  rewrite run_bind, import_name_run. cbv beta.
  destruct (base_prompts (host w)); cbv beta iota;
    [|eexists; unfold import_error; run; reflexivity].
  rewrite run_bind, import_name_run. cbv beta.
  destruct (bool_decide (is_Some (EditBlockFencedPrompts (host w)))); cbv beta iota;
    [|eexists; unfold import_error; run; reflexivity].
  rewrite run_bind, import_name_run. cbv beta.
  destruct (bool_decide (is_Some (UnifiedDiffPrompts (host w)))); cbv beta iota;
    [discriminate|eexists; unfold import_error; run; reflexivity].
Qed.

Lemma class_of_prepend_in_ne prefix s s' h :
  s <> s' -> class_of s' (prepend_in prefix s h) = class_of s' h.
Proof.
  intros Hne. unfold prepend_in. destruct (class_of s h) as [c|] eqn:Hc; [|done].
  destruct (slot_text s h); [|done].
  rewrite class_of_set_class by (rewrite Hc; eauto). by destruct (decide _).
Qed.

Lemma class_of_extend_in_ne more s s' h :
  s <> s' -> class_of s' (extend_in more s h) = class_of s' h.
Proof.
  intros Hne. unfold extend_in. destruct (class_of s h) as [c|] eqn:Hc; [|done].
  destruct (example_messages c); [|done].
  rewrite class_of_set_class by (rewrite Hc; eauto). by destruct (decide _).
Qed.

Lemma class_of_help_aider_patched P h :
  class_of HelpSlot (aider_patched P h) = class_of HelpSlot h.
Proof.
  unfold aider_patched.
  rewrite class_of_extend_in_ne, !class_of_prepend_in_ne; done.
Qed.

(** The edit templates after a full run of [patch_aider_prompts]: each
    has the prefix once, but for a fenced template that is the inherited
    primary one, which has it twice. *)
Lemma slot_text_aider_patched P h s :
  s <> HelpSlot ->
  slot_text s (aider_patched P h) =
    (fun o =>
       if borrows_text s h
       then runanywhere_prefix P +:+ runanywhere_prefix P +:+ o
       else runanywhere_prefix P +:+ o) <$> slot_text s h.
Proof.
  intros Hs. unfold aider_patched, borrows_text. rewrite slot_text_extend_in.
  generalize (runanywhere_prefix P). intros p.
  destruct s; [| | | |done].
  - rewrite !slot_text_prepend_in_alone by auto. rewrite slot_text_prepend_in.
    rewrite bool_decide_eq_true_2 by auto. by rewrite bool_decide_eq_false_2 by (by intros [? _]).
  - rewrite !slot_text_prepend_in_alone by auto. rewrite slot_text_prepend_in.
    rewrite bool_decide_eq_true_2 by auto. rewrite bool_decide_eq_false_2 by (by intros [? _]).
    by rewrite slot_text_prepend_in_alone by auto.
  - rewrite slot_text_prepend_in_alone by auto. rewrite slot_text_prepend_in.
    rewrite bool_decide_eq_true_2 by auto.
    rewrite slot_text_prepend_in_alone by auto. rewrite slot_text_prepend_in.
    case_bool_decide as H1; case_bool_decide as H2.
    + by destruct (slot_text FencedSlot h).
    + destruct H1 as [?|?]; [done|]. by destruct H2.
    + destruct H2 as [_ ?]. destruct H1. by right.
    + done.
  - rewrite slot_text_prepend_in.
    rewrite bool_decide_eq_true_2 by auto. rewrite bool_decide_eq_false_2 by (by intros [? _]).
    by rewrite !slot_text_prepend_in_alone by auto.
Qed.

Lemma patch_help_system_run w :
  patch_help_system w =
    match HelpPrompts (host w) with
    | Some c =>
        (Return tt,
         add_events [Print "✓ RunAnywhere help system loaded"]
           (with_host
              (set_class HelpSlot
                 {| main_system := Some HELP_MAIN_SYSTEM;
                    example_messages := example_messages c;
                    repo_content_prefix := Some HELP_REPO_CONTENT_PREFIX |} (host w)) w))
    | None =>
        (Return tt,
         add_events [Print ("Warning: Could not patch help system: "
                            +:+ exn_str (import_error "HelpPrompts"))] w)
    end.
Proof.
  unfold patch_help_system, try_except.
  rewrite run_bind, import_name_run. cbv beta.
  destruct (HelpPrompts (host w)) as [c|] eqn:Hc; cbn [bool_decide decide_rel].
  - unfold set_main_system, set_repo_content_prefix, get_class. run. rewrite Hc. run.
    reflexivity.
  - unfold import_error. run. reflexivity.
Qed.

Lemma patch_commit_prompts_run w :
  patch_commit_prompts w =
    (Return tt,
     with_host (match mjoin (prompts (host w)) with
                | Some original => set_commit_system (original +:+ COMMIT_SUFFIX) (host w)
                | None => host w
                end) w).
Proof.
  unfold patch_commit_prompts, try_except.
  rewrite run_bind, import_name_run. cbv beta.
  destruct (prompts (host w)) as [[o|]|] eqn:Hc; cbn.
  - run. rewrite Hc. reflexivity.
  - run. rewrite Hc. unfold attribute_error. run. by rewrite with_host_id.
  - unfold import_error. run. by rewrite with_host_id.
Qed.

Lemma slot_text_after_commit s h :
  slot_text s (match mjoin (prompts h) with
               | Some original => set_commit_system (original +:+ COMMIT_SUFFIX) h
               | None => h
               end) = slot_text s h.
Proof. destruct (mjoin (prompts h)); by destruct s. Qed.

(** C4, where the code falls short of it.  On a host that has every class
    but lacks the text of the primary edit-block template,
    [apply_all_patches] returns, and the whole-file, fenced and
    unified-diff templates, which are there, are left without the prefix:
    the read of the primary template is not guarded as the reads of the
    fenced and unified-diff templates are, so it ends
    [patch_aider_prompts]. *)
Theorem missing_primary_slot_blocks_whole_file :
  let w := Sample.without_primary in
  let w' := (apply_all_patches Sample.shipped w).2 in
  (apply_all_patches Sample.shipped w).1 = Return tt /\
  slot_text EditBlockSlot (host w) = None /\
  (slot_text WholeFileSlot (host w) = Some "WHOLEFILE" /\
   slot_text WholeFileSlot (host w') = Some "WHOLEFILE") /\
  (slot_text FencedSlot (host w) = Some "FENCED" /\
   slot_text FencedSlot (host w') = Some "FENCED") /\
  (slot_text UDiffSlot (host w) = Some "UDIFF" /\
   slot_text UDiffSlot (host w') = Some "UDIFF") /\
  Print "✓ RunAnywhere SDK prompts loaded" ∉ trace w'.
Proof.
  cbv zeta. split; [reflexivity|]. split; [reflexivity|].
  split; [split; reflexivity|]. split; [split; reflexivity|].
  split; [split; reflexivity|].
  intros H. apply list_elem_of_In in H. vm_compute in H. intuition discriminate.
Qed.
(** ** The orchestrator *)

Lemma check_api_keys_false P w :
  (check_api_keys P w).1 = Return false ->
  truthy_opt (resolve P (environ w) "ANTHROPIC_API_KEY" "anthropic") = false /\
  truthy_opt (resolve P (environ w) "OPENAI_API_KEY" "openai") = false.
Proof.
  rewrite check_api_keys_run. cbn. intros [= H]. by apply orb_false_iff in H.
Qed.

(** Where the check after the injection fails, nothing was injected. *)
Lemma no_keys_nothing_injected P w :
  (check_api_keys P (inject_api_keys P w).2).1 = Return false ->
  (inject_api_keys P w).2 = w.
Proof.
  intros [Ha Ho]%check_api_keys_false. unfold resolve in Ha, Ho.
  rewrite !inject_api_keys_env in Ha, Ho. cbn [bool_decide decide_rel andb] in Ha, Ho.
  rewrite (bool_decide_eq_false_2 ("ANTHROPIC_API_KEY" = "OPENAI_API_KEY")) in Ha
    by discriminate.
  rewrite (bool_decide_eq_true_2 ("ANTHROPIC_API_KEY" = "ANTHROPIC_API_KEY")) in Ha by done.
  rewrite (bool_decide_eq_true_2 ("OPENAI_API_KEY" = "OPENAI_API_KEY")) in Ho by done.
  cbn [andb] in Ha, Ho.
  apply inject_api_keys_no_write.
  - destruct (injects P (environ w) "ANTHROPIC_API_KEY" "anthropic") eqn:Hi; [|done].
    unfold injects in Hi. apply andb_true_iff in Hi as [_ Hk]. by rewrite Hk, Hk in Ha.
  - destruct (injects P (environ w) "OPENAI_API_KEY" "openai") eqn:Hi; [|done].
    unfold injects in Hi. apply andb_true_iff in Hi as [_ Hk]. by rewrite Hk, Hk in Ho.
Qed.

Lemma main_session_no_keys P w :
  (check_api_keys P (inject_api_keys P w).2).1 = Return false ->
  main_session P w = (SysExit 1, add_events (map Print no_keys_message) w).
Proof.
  intros Hc. pose proof (no_keys_nothing_injected P w Hc) as Hw.
  rewrite Hw in Hc. unfold main_session. rewrite run_bind.
  destruct (inject_api_keys_status P w) as (status & Hs & _).
  destruct (inject_api_keys P w) as [r w1]. cbn in Hs, Hw. subst r w1. cbv beta iota.
  rewrite run_bind. destruct (check_api_keys P w) as [r w1] eqn:Hck.
  rewrite check_api_keys_run in Hck. injection Hck as <- <-. cbn in Hc.
  injection Hc as ->. cbv beta iota. cbn [negb].
  rewrite run_bind. repeat step_print. unfold sys_exit.
  rewrite !add_events_app. reflexivity.
Qed.

Lemma check_api_keys_iff P w :
  exists b,
    check_api_keys P w = (Return b, w) /\
    (b = true <->
     exists s, s <> "" /\
       ((get_anthropic_key P w).1 = Return (Some s) \/
        (get_openai_key P w).1 = Return (Some s))).
Proof.
  eexists. split; [apply check_api_keys_run|].
  rewrite get_anthropic_key_run, get_openai_key_run. cbn [fst].
  rewrite orb_true_iff, !truthy_opt_Some. split.
  - intros [(s & -> & Hs)|(s & -> & Hs)]; exists s; auto.
  - intros (s & Hs & [[= ->]|[= ->]]); eauto.
Qed.

(** C3.  [check_api_keys] returns [True] exactly when one of the two
    resolvers returns a non-empty string.  And when [main] has come
    through its gate and the check, made after [inject_api_keys], returns
    [False], [main] ends in [sys.exit(1)] having printed the message that
    names [ANTHROPIC_API_KEY] and [OPENAI_API_KEY] and nothing else; the
    host's entry point was not invoked in that run. *)
Theorem missing_credentials_are_fatal (P : platform) :
  (forall w, exists b,
     check_api_keys P w = (Return b, w) /\
     (b = true <->
      exists s, s <> "" /\
        ((get_anthropic_key P w).1 = Return (Some s) \/
         (get_openai_key P w).1 = Return (Some s)))) /\
  (forall w0 w,
     main_gate P w0 = (Return tt, w) ->
     (check_api_keys P (inject_api_keys P w).2).1 = Return false ->
     main P w0 = (SysExit 1, add_events (map Print no_keys_message) w) /\
     forall args, HostMain args ∈ trace (main P w0).2 -> HostMain args ∈ trace w0).
Proof.
  split; [apply check_api_keys_iff|].
  intros w0 w Hg Hc.
  assert (main P w0 = (SysExit 1, add_events (map Print no_keys_message) w)) as Hm.
  { unfold main. rewrite run_bind, Hg. cbv beta iota. by apply main_session_no_keys. }
  split; [done|]. intros args. rewrite Hm. cbn [snd add_events trace].
  destruct (quiet_main_gate P w0) as (evs & Ht & Hq). rewrite Hg in Ht. cbn in Ht.
  rewrite Ht. rewrite !elem_of_app. intros [[H|H]|H]; [done| |].
  - rewrite Forall_forall in Hq. by destruct (Hq _ H args).
  - exfalso. apply list_elem_of_fmap in H as (? & [=] & _).
Qed.

Lemma missing_credentials_are_fatal_witness :
  (main Sample.shipped Sample.skipping_auth).1 = SysExit 1 /\
  forall args, HostMain args ∉ trace (main Sample.shipped Sample.skipping_auth).2.
Proof.
  destruct (proj2 (missing_credentials_are_fatal Sample.shipped) Sample.skipping_auth
              (main_gate Sample.shipped Sample.skipping_auth).2) as [Hm Hh].
  - reflexivity.
  - reflexivity.
  - split; [by rewrite Hm|]. intros args H. apply Hh in H. by apply elem_of_nil in H.
Defined.

(** * Further properties *)

(** ** Programs that keep a part of the state, and programs that return *)

Lemma same_refl p w : same p w w.
Proof. by destruct p. Qed.

Lemma same_trans p w1 w2 w3 : same p w1 w2 -> same p w2 w3 -> same p w1 w3.
Proof. destruct p; cbn; congruence. Qed.

Lemma same_add_events p evs w : same p w (add_events evs w).
Proof. by destruct p. Qed.

Lemma keeps_ret {A} p (a : A) : keeps p (mret a).
Proof. intros w. apply same_refl. Qed.

Lemma keeps_raise {A} p e : keeps p (@raise A e).
Proof. intros w. apply same_refl. Qed.

Lemma keeps_sys_exit {A} p c : keeps p (@sys_exit A c).
Proof. intros w. apply same_refl. Qed.

Lemma keeps_bind {A B} p (m : prog A) (f : A -> prog B) :
  keeps p m -> (forall a, keeps p (f a)) -> keeps p (m ≫= f).
Proof.
  intros Hm Hf w. rewrite run_bind. specialize (Hm w).
  destruct (m w) as [[a|e|c] w1]; cbn in *; [|done..].
  eapply same_trans; [exact Hm|apply Hf].
Qed.

Lemma keeps_try_except {A} p (body : prog A) clauses :
  keeps p body -> Forall (fun cl => forall e, keeps p (cl.2 e)) clauses ->
  keeps p (try_except body clauses).
Proof.
  intros Hm Hc w. unfold try_except. specialize (Hm w).
  destruct (body w) as [[a|e|c] w1]; cbn in *; [done| |done].
  destruct (find _ clauses) as [cl|] eqn:Hfind; [|done].
  apply find_some in Hfind as [Hin _]. apply list_elem_of_In in Hin.
  rewrite Forall_forall in Hc. eapply same_trans; [exact Hm|by apply Hc].
Qed.

Lemma keeps_emit p ev : keeps p (emit ev).
Proof. intros w. apply same_add_events. Qed.

Lemma keeps_print p text : keeps p (print text).
Proof. apply keeps_emit. Qed.

Lemma keeps_environ_get p name : keeps p (environ_get name).
Proof. intros w. apply same_refl. Qed.

Lemma keeps_get_argv p : keeps p get_argv.
Proof. intros w. apply same_refl. Qed.

Lemma keeps_get_host p : keeps p get_host.
Proof. intros w. apply same_refl. Qed.

Lemma keeps_get_cache_file p : keeps p get_cache_file.
Proof. intros w. apply same_refl. Qed.

Lemma keeps_environ_set p name v : p <> Environ -> keeps p (environ_set name v).
Proof. intros Hp w. by destruct p. Qed.

Lemma keeps_set_argv p l : p <> Argv -> keeps p (set_argv l).
Proof. intros Hp w. by destruct p. Qed.

Lemma keeps_set_host p h : p <> Host -> keeps p (set_host h).
Proof. intros Hp w. by destruct p. Qed.

Lemma keeps_set_cache_file p c : p <> CacheFile -> keeps p (set_cache_file c).
Proof. intros Hp w. by destruct p. Qed.

Lemma keeps_read_line p : p <> Stdin -> keeps p read_line.
Proof. intros Hp w. unfold read_line. destruct (stdin w); by destruct p. Qed.

Lemma keeps_read_email p : p <> Stdin -> keeps p read_email.
Proof.
  intros Hp w. unfold read_email. destruct (email_loop (stdin w)) as [[r l] evs].
  by destruct p.
Qed.

Create HintDb keeps.
#[export] Hint Resolve keeps_ret keeps_raise keeps_sys_exit keeps_print keeps_emit
  keeps_environ_get keeps_get_argv keeps_get_host keeps_get_cache_file : keeps.
#[export] Hint Extern 1 (keeps _ (environ_set _ _)) =>
  apply keeps_environ_set; discriminate : keeps.
#[export] Hint Extern 1 (keeps _ (set_argv _)) =>
  apply keeps_set_argv; discriminate : keeps.
#[export] Hint Extern 1 (keeps _ (set_host _)) =>
  apply keeps_set_host; discriminate : keeps.
#[export] Hint Extern 1 (keeps _ (set_cache_file _)) =>
  apply keeps_set_cache_file; discriminate : keeps.
#[export] Hint Extern 1 (keeps _ read_line) =>
  apply keeps_read_line; discriminate : keeps.
#[export] Hint Extern 1 (keeps _ read_email) =>
  apply keeps_read_email; discriminate : keeps.

(** Proves [keeps] of a program by going through its text. *)
Ltac keeps_step :=
  match goal with
  | |- keeps _ (mbind _ _) => apply keeps_bind; [|intros ?]
  | |- keeps _ (try_except _ _) => apply keeps_try_except; [|repeat constructor; intros ?]
  | |- keeps _ (if ?b then _ else _) => destruct b
  | |- keeps _ (match ?x with _ => _ end) => destruct x
  | |- keeps _ _ => solve [auto with keeps]
  end.
Ltac keeps_tac := repeat (cbn [snd]; keeps_step).

Lemma keeps_fs_guard P p op : keeps p (fs_guard P op).
Proof. unfold fs_guard. keeps_tac. Qed.
#[export] Hint Resolve keeps_fs_guard : keeps.

Lemma keeps_get_cached_email P p : keeps p (get_cached_email P).
Proof. unfold get_cached_email, path_exists, read_text. keeps_tac. Qed.

Lemma keeps_save_email_to_cache P p email :
  p <> CacheFile -> keeps p (save_email_to_cache P email).
Proof. intros Hp. unfold save_email_to_cache, mkdir_parents, write_text. destruct p; keeps_tac; done. Qed.

Lemma keeps_clear_auth_cache P p : p <> CacheFile -> keeps p (clear_auth_cache P).
Proof. intros Hp. unfold clear_auth_cache, path_exists, unlink. destruct p; keeps_tac; done. Qed.

Lemma keeps_verify_email P p email : keeps p (verify_email P email).
Proof.
  unfold verify_email, SUPABASE_URL, SUPABASE_ANON_KEY, requests_get, response_json, py_len.
  keeps_tac.
Qed.

Lemma keeps_prompt_without_cache p : p <> Stdin -> keeps p prompt_without_cache.
Proof. intros Hp. unfold prompt_without_cache. destruct p; keeps_tac; done. Qed.

Lemma keeps_prompt_for_email P p : p <> Stdin -> keeps p (prompt_for_email P).
Proof.
  intros Hp. unfold prompt_for_email, input.
  pose proof (keeps_prompt_without_cache p Hp). pose proof (keeps_get_cached_email P p).
  destruct p; keeps_tac; done.
Qed.

(** ** More on the access gate *)

Lemma py_len_run v w :
  py_len v w =
    (match json_len v with
     | Some n => Return n
     | None => Raise {| exn_cls := TypeError;
                        exn_str := "object of type '" +:+ type_name v +:+ "' has no len()" |}
     end, w).
Proof. by destruct v. Qed.

Lemma verify_email_200_run P email w r v :
  whitespace_only email = false ->
  environ w !! "RUNANYWHERE_DEV_MODE" <> Some "1" ->
  http_get P (sent_request w email) = inr r ->
  status_code r = 200 ->
  json r = inr v ->
  verify_email P email w =
    (match json_len v with
     | Some n => Return (Nat.ltb 0 n)
     | None => Raise {| exn_cls := TypeError;
                        exn_str := "object of type '" +:+ type_name v +:+ "' has no len()" |}
     end,
     add_events [HttpGet (sent_request w email)] w).
Proof.
  intros Hb Hd Hg Hst Hj. destruct (nonblank_truthy _ Hb) as [He Hs].
  unfold verify_email. rewrite He, Hs. simpl.
  rewrite run_bind. unfold environ_get. cbv beta iota.
  rewrite bool_decide_eq_false_2 by done.
  unfold try_except, SUPABASE_URL, SUPABASE_ANON_KEY, requests_get. run.
  fold (sent_request w email). rewrite Hg. run. rewrite Hst. cbn.
  unfold response_json. rewrite Hj. run. rewrite py_len_run.
  destruct (json_len v); run; reflexivity.
Qed.

Lemma verify_email_true_inv P email w w' :
  verify_email P email w = (Return true, w') ->
  whitespace_only email = false /\
  (environ w !! "RUNANYWHERE_DEV_MODE" = Some "1"
   \/ grants (http_get P (sent_request w email))).
Proof.
  intros H. destruct (whitespace_only email) eqn:Hb.
  { rewrite verify_email_blank_run in H by done. discriminate. }
  split; [done|].
  destruct (decide (environ w !! "RUNANYWHERE_DEV_MODE" = Some "1")) as [Hd|Hd]; [by left|].
  right. destruct (failure_of (http_get P (sent_request w email))) as [f|] eqn:Hf.
  { rewrite (verify_email_failure_run P email w f) in H by done. discriminate. }
  unfold failure_of in Hf.
  destruct (http_get P (sent_request w email)) as [e|r] eqn:Hg.
  - exfalso. revert H. destruct (nonblank_truthy _ Hb) as [He Hs].
    unfold verify_email. rewrite He, Hs. simpl.
    rewrite run_bind. unfold environ_get. cbv beta iota.
    rewrite bool_decide_eq_false_2 by done.
    unfold try_except, SUPABASE_URL, SUPABASE_ANON_KEY, requests_get. run.
    fold (sent_request w email). rewrite Hg. run.
    destruct (isinstance e Timeout); [done|].
    destruct (isinstance e ConnectionError); [done|].
    destruct (isinstance e RequestException); cbn; discriminate.
  - destruct (Z.eqb_spec (status_code r) 200) as [Hst|]; [|done].
    destruct (json r) as [msg|v] eqn:Hj; [done|].
    rewrite (verify_email_200_run P email w r v) in H by done.
    destruct (json_len v) as [n|] eqn:Hn; [|discriminate].
    injection H as Hlt _. apply Nat.ltb_lt in Hlt.
    exists r, v, n. done.
Qed.


(** X2.  An email that [authenticate] returns is not blank, and either the
    development flag [RUNANYWHERE_DEV_MODE] is [1] or the server has
    answered the request for that email with status 200 and a body of
    positive length. *)
Theorem authenticate_grants_only_verified
    (P : platform) (w w' : state) (email : string) :
  authenticate P w = (Return email, w') ->
  whitespace_only email = false /\
  (environ w !! "RUNANYWHERE_DEV_MODE" = Some "1"
   \/ grants (http_get P (sent_request w email))).
Proof.
  intros H. apply authenticate_Return in H as (w1 & w2 & Hp & Hv & _).
  apply verify_email_true_inv in Hv as [Hb Hv]. split; [done|].
  pose proof (keeps_prompt_for_email P Environ ltac:(discriminate) w) as He.
  rewrite Hp in He. cbn in He. unfold sent_request in *. cbn in Hv.
  by rewrite He in Hv.
Qed.

Lemma authenticate_denied_run P w email w1 w2 :
  prompt_for_email P w = (Return email, w1) ->
  verify_email P email (add_events [Print (NL +:+ "Verifying email...")] w1)
    = (Return false, w2) ->
  authenticate P w =
    (SysExit 1,
     (clear_auth_cache P
        (add_events
           [Print (NL +:+ rule "=" 60);
            Print "  Access Denied";
            Print (rule "=" 60);
            Print (NL +:+ "The email '" +:+ email
                   +:+ "' is not authorized to use RunAnywhere Agent.");
            Print (NL +:+ "To get access:");
            Print "  1. Visit https://www.runanywhere.ai";
            Print "  2. Sign up for an account";
            Print "  3. Contact founders@runanywhere.ai for agent access";
            Print ""] w2)).2).
Proof.
  intros Hp Hv. unfold authenticate. rewrite run_bind, Hp. cbv beta iota.
  step_print. rewrite run_bind, Hv. cbv beta iota.
  repeat step_print. rewrite run_bind.
  rewrite !add_events_app. cbn [app].
  destruct (clear_auth_cache P _) as [r w3] eqn:Hc.
  rewrite clear_auth_cache_run in Hc. injection Hc as <- <-. reflexivity.
Qed.

(** X3.  When [verify_email] answers [False] for the email
    [prompt_for_email] has returned, [authenticate] ends the process with
    [sys.exit(1)], prints the access-denied notice, leaves the environment
    as it was and, on a file system that lets the file be unlinked, leaves
    no cache file. *)
Theorem authenticate_denied_exits_and_clears
    (P : platform) (w w1 w2 : state) (email : string) :
  prompt_for_email P w = (Return email, w1) ->
  verify_email P email (add_events [Print (NL +:+ "Verifying email...")] w1)
    = (Return false, w2) ->
  (authenticate P w).1 = SysExit 1 /\
  Print "  Access Denied" ∈ trace (authenticate P w).2 /\
  environ (authenticate P w).2 = environ w /\
  (fs_fault P FsUnlink = None -> cache_file (authenticate P w).2 = None).
Proof.
  intros Hp Hv. rewrite (authenticate_denied_run P w email w1 w2 Hp Hv).
  rewrite clear_auth_cache_run. cbn [fst snd]. split; [done|].
  set (evs := [Print (NL +:+ rule "=" 60); _; _; _; _; _; _; _; _]).
  assert (environ w2 = environ w) as Henv.
  { pose proof (keeps_prompt_for_email P Environ ltac:(discriminate) w) as H1.
    rewrite Hp in H1. pose proof (keeps_verify_email P Environ email
      (add_events [Print (NL +:+ "Verifying email...")] w1)) as H2.
    rewrite Hv in H2. cbn in H1, H2. congruence. }
  split; [|split].
  - assert (Print "  Access Denied" ∈ trace (add_events evs w2)) as Hin.
    { cbn [trace add_events]. apply elem_of_app. right. subst evs. apply elem_of_cons. right.
      apply elem_of_cons. left. reflexivity. }
    cbn [cache_file add_events]. destruct (cache_file w2), (fs_fault P FsUnlink); exact Hin.
  - cbn [cache_file add_events]. destruct (cache_file w2), (fs_fault P FsUnlink); exact Henv.
  - intros Hf. rewrite Hf. cbn [cache_file add_events].
    destruct (cache_file w2) eqn:E; [reflexivity|exact E].
Qed.

(** ** The prompt *)

Lemma email_loop_rejects line rest :
  plausible line = false ->
  exists notice,
    email_loop (line :: rest) =
      ((email_loop rest).1.1, (email_loop rest).1.2,
       Prompt "Email: " :: Print notice :: (email_loop rest).2).
Proof.
  unfold plausible. intros H. cbn [email_loop].
  destruct (truthy (strip line)) eqn:Ht; cbn [negb].
  - cbn [andb] in H. apply andb_false_iff in H.
    assert ((negb (contains "@" (strip line)) || negb (contains "." (strip line)))%bool
            = true) as ->.
    { destruct H as [-> | ->]; cbn; [done|by rewrite orb_true_r]. }
    destruct (email_loop rest) as [[r l] evs]. eauto.
  - destruct (email_loop rest) as [[r l] evs]. eauto.
Qed.

Lemma email_loop_accepts line rest :
  plausible line = true ->
  email_loop (line :: rest) = (Return (strip line), rest, [Prompt "Email: "]).
Proof.
  unfold plausible. rewrite !andb_true_iff. intros [[Ht Ha] Hd]. cbn [email_loop].
  by rewrite Ht, Ha, Hd.
Qed.

Lemma email_loop_first_plausible skipped line rest :
  Forall (fun l => plausible l = false) skipped ->
  plausible line = true ->
  exists evs,
    email_loop (skipped ++ line :: rest) = (Return (strip line), rest, evs).
Proof.
  intros Hs Hl. induction Hs as [|l skipped Hl' Hs IH]; cbn [app].
  - rewrite email_loop_accepts by done. eauto.
  - destruct IH as (evs & IH).
    destruct (email_loop_rejects l (skipped ++ line :: rest) Hl') as [notice ->].
    rewrite IH. cbn [fst snd]. eauto.
Qed.

Lemma email_loop_none_plausible lines :
  Forall (fun l => plausible l = false) lines ->
  exists evs,
    email_loop lines =
      (Raise {| exn_cls := EOFError; exn_str := "EOF when reading a line" |}, [], evs).
Proof.
  intros Hs. induction Hs as [|l lines Hl Hs IH].
  - eexists. reflexivity.
  - destruct IH as (evs & IH).
    destruct (email_loop_rejects l lines Hl) as [notice ->].
    rewrite IH. cbn [fst snd]. eauto.
Qed.

Lemma prompt_for_email_no_cache P w :
  cache_file w = None -> prompt_for_email P w = prompt_without_cache w.
Proof.
  intros Hc. unfold prompt_for_email. rewrite run_bind, get_cached_email_run, Hc.
  reflexivity.
Qed.

Lemma prompt_without_cache_typed w :
  truthy_opt (environ w !! "RUNANYWHERE_EMAIL") = false ->
  (prompt_without_cache w).1 = (email_loop (stdin w)).1.1 /\
  stdin (prompt_without_cache w).2 = (email_loop (stdin w)).1.2.
Proof.
  intros He. unfold prompt_without_cache. rewrite run_bind. unfold environ_get.
  cbv beta iota. rewrite He. repeat step_print. unfold read_email.
  cbn [stdin add_events]. by destruct (email_loop (stdin w)) as [[r l] evs].
Qed.

(** X4.  Without a cached identity and without [RUNANYWHERE_EMAIL], the
    prompt reads lines until one, once trimmed, is not empty and holds an
    [@] and a dot: it returns that line trimmed and leaves the lines after
    it unread.  When no line of the input qualifies, the prompt ends in
    [EOFError] with the input used up. *)
Theorem prompt_takes_first_plausible_line (P : platform) (w : state) :
  cache_file w = None ->
  truthy_opt (environ w !! "RUNANYWHERE_EMAIL") = false ->
  (forall skipped line rest,
     stdin w = skipped ++ line :: rest ->
     Forall (fun l => plausible l = false) skipped ->
     plausible line = true ->
     (prompt_for_email P w).1 = Return (strip line) /\
     stdin (prompt_for_email P w).2 = rest) /\
  (Forall (fun l => plausible l = false) (stdin w) ->
   (prompt_for_email P w).1
     = Raise {| exn_cls := EOFError; exn_str := "EOF when reading a line" |} /\
   stdin (prompt_for_email P w).2 = []).
Proof.
  intros Hc He. rewrite prompt_for_email_no_cache by done.
  destruct (prompt_without_cache_typed w He) as [-> ->]. split.
  - intros skipped line rest -> Hs Hl.
    destruct (email_loop_first_plausible skipped line rest Hs Hl) as (evs & ->). done.
  - intros Hs. destruct (email_loop_none_plausible _ Hs) as (evs & ->). done.
Qed.

(** X5.  Without a cached identity, a non-empty [RUNANYWHERE_EMAIL] is
    returned trimmed, with no check of its form: the prompt reads no input
    and prints the one line that names the value as it stands in the
    environment. *)
Theorem environment_email_is_taken_unchecked (P : platform) (w : state) (v : string) :
  cache_file w = None ->
  environ w !! "RUNANYWHERE_EMAIL" = Some v ->
  v <> "" ->
  prompt_for_email P w =
    (Return (strip v), add_events [Print ("Using email from environment: " +:+ v)] w).
Proof.
  intros Hc He Hv. rewrite prompt_for_email_no_cache by done.
  unfold prompt_without_cache. rewrite run_bind. unfold environ_get. cbv beta iota.
  rewrite He. cbn [truthy_opt]. apply truthy_true in Hv. rewrite Hv. reflexivity.
Qed.

(** ** The cache file *)




(** ** More on the credential resolver *)

Lemma injects_after_inject P w variable provider :
  (provider, variable) ∈ [("anthropic", "ANTHROPIC_API_KEY"); ("openai", "OPENAI_API_KEY")] ->
  injects P (environ (inject_api_keys P w).2) variable provider = false.
Proof.
  intros Hin. unfold injects. rewrite inject_api_keys_env.
  apply elem_of_cons in Hin as [[= -> ->]|Hin];
    [|apply list_elem_of_singleton in Hin as [= -> ->]].
  - rewrite bool_decide_eq_false_2 by discriminate.
    rewrite (bool_decide_eq_true_2 ("ANTHROPIC_API_KEY" = "ANTHROPIC_API_KEY")) by done.
    cbn [andb]. unfold injects.
    destruct (truthy_opt (environ w !! "ANTHROPIC_API_KEY")) eqn:Ht; cbn [negb andb].
    + by rewrite Ht.
    + destruct (truthy_opt (_decode_key P (embedded_key P "anthropic"))) eqn:Hk.
      * by rewrite Hk.
      * by rewrite Ht.
  - rewrite (bool_decide_eq_true_2 ("OPENAI_API_KEY" = "OPENAI_API_KEY")) by done.
    cbn [andb]. unfold injects.
    destruct (truthy_opt (environ w !! "OPENAI_API_KEY")) eqn:Ht; cbn [negb andb].
    + rewrite bool_decide_eq_false_2 by discriminate. cbn. by rewrite Ht.
    + destruct (truthy_opt (_decode_key P (embedded_key P "openai"))) eqn:Hk.
      * by rewrite Hk.
      * rewrite bool_decide_eq_false_2 by discriminate. cbn. by rewrite Ht.
Qed.

Lemma resolve_after_inject P w variable provider :
  (provider, variable) ∈ [("anthropic", "ANTHROPIC_API_KEY"); ("openai", "OPENAI_API_KEY")] ->
  resolve P (environ (inject_api_keys P w).2) variable provider
    = resolve P (environ w) variable provider.
Proof.
  intros Hin. unfold resolve. rewrite inject_api_keys_env.
  apply elem_of_cons in Hin as [[= -> ->]|Hin];
    [|apply list_elem_of_singleton in Hin as [= -> ->]].
  - rewrite bool_decide_eq_false_2 by discriminate.
    rewrite (bool_decide_eq_true_2 ("ANTHROPIC_API_KEY" = "ANTHROPIC_API_KEY")) by done.
    cbn [andb]. unfold injects.
    destruct (truthy_opt (environ w !! "ANTHROPIC_API_KEY")) eqn:Ht; cbn [negb andb].
    + by rewrite Ht.
    + destruct (truthy_opt (_decode_key P (embedded_key P "anthropic"))) eqn:Hk.
      * by rewrite Hk.
      * by rewrite Ht.
  - rewrite (bool_decide_eq_true_2 ("OPENAI_API_KEY" = "OPENAI_API_KEY")) by done.
    cbn [andb]. unfold injects.
    destruct (truthy_opt (environ w !! "OPENAI_API_KEY")) eqn:Ht; cbn [negb andb].
    + rewrite bool_decide_eq_false_2 by discriminate. cbn. by rewrite Ht.
    + destruct (truthy_opt (_decode_key P (embedded_key P "openai"))) eqn:Hk.
      * by rewrite Hk.
      * rewrite bool_decide_eq_false_2 by discriminate. cbn. by rewrite Ht.
Qed.

Lemma environ_after_inject_other P w name :
  name <> "ANTHROPIC_API_KEY" -> name <> "OPENAI_API_KEY" ->
  environ (inject_api_keys P w).2 !! name = environ w !! name.
Proof.
  intros Ha Ho. rewrite inject_api_keys_env.
  by rewrite !bool_decide_eq_false_2 by done.
Qed.

Lemma get_default_model_run P w :
  get_default_model P w =
    (Return
       (if truthy_opt (environ w !! "RUNANYWHERE_DEFAULT_MODEL")
        then default "" (environ w !! "RUNANYWHERE_DEFAULT_MODEL")
        else if truthy_opt (resolve P (environ w) "ANTHROPIC_API_KEY" "anthropic")
        then DEFAULT_MODEL
        else if truthy_opt (resolve P (environ w) "OPENAI_API_KEY" "openai")
        then "gpt-4o"
        else DEFAULT_MODEL), w).
Proof.
  unfold get_default_model. rewrite run_bind. unfold environ_get. cbv beta iota.
  destruct (truthy_opt (environ w !! "RUNANYWHERE_DEFAULT_MODEL")); [done|].
  rewrite run_bind, get_anthropic_key_run. cbv beta iota.
  destruct (truthy_opt (resolve P (environ w) "ANTHROPIC_API_KEY" "anthropic")); [done|].
  rewrite run_bind, get_openai_key_run. cbv beta iota.
  by destruct (truthy_opt (resolve P (environ w) "OPENAI_API_KEY" "openai")).
Qed.

(** X7.  [inject_api_keys] changes no answer of the resolvers: the two
    keys, [check_api_keys] and [get_default_model] answer after the
    injection what they answer before it. *)
Theorem inject_keeps_resolution (P : platform) (w : state) :
  let w' := (inject_api_keys P w).2 in
  (get_anthropic_key P w').1 = (get_anthropic_key P w).1 /\
  (get_openai_key P w').1 = (get_openai_key P w).1 /\
  (check_api_keys P w').1 = (check_api_keys P w).1 /\
  (get_default_model P w').1 = (get_default_model P w).1.
Proof.
  cbv zeta.
  assert (resolve P (environ (inject_api_keys P w).2) "ANTHROPIC_API_KEY" "anthropic"
          = resolve P (environ w) "ANTHROPIC_API_KEY" "anthropic") as Ha.
  { apply resolve_after_inject. apply elem_of_cons. by left. }
  assert (resolve P (environ (inject_api_keys P w).2) "OPENAI_API_KEY" "openai"
          = resolve P (environ w) "OPENAI_API_KEY" "openai") as Ho.
  { apply resolve_after_inject. apply elem_of_cons. right. by apply list_elem_of_singleton. }
  rewrite !get_anthropic_key_run, !get_openai_key_run, !check_api_keys_run,
    !get_default_model_run. cbn [fst].
  rewrite Ha, Ho, environ_after_inject_other by discriminate. done.
Qed.

(** X8.  A second [inject_api_keys] changes nothing, and its status
    reports no key as injected. *)
Theorem inject_twice_is_inject_once (P : platform) (w : state) :
  let w' := (inject_api_keys P w).2 in
  (inject_api_keys P w').2 = w' /\
  exists status,
    (inject_api_keys P w').1 = Return status /\
    status !! "anthropic_injected" = Some false /\
    status !! "openai_injected" = Some false.
Proof.
  cbv zeta.
  assert (injects P (environ (inject_api_keys P w).2) "ANTHROPIC_API_KEY" "anthropic" = false)
    as Ha by (apply injects_after_inject; apply elem_of_cons; by left).
  assert (injects P (environ (inject_api_keys P w).2) "OPENAI_API_KEY" "openai" = false)
    as Ho by (apply injects_after_inject; apply elem_of_cons; right;
              by apply list_elem_of_singleton).
  split; [by apply inject_api_keys_no_write|].
  destruct (inject_api_keys_status P (inject_api_keys P w).2)
    as (status & Hs & _ & Hai & _ & Hoi).
  exists status. by rewrite Hai, Hoi, Ha, Ho.
Qed.

(** X9.  The status [inject_api_keys] returns tells, for each provider,
    [available]: the variable is non-empty after the call, and
    [injected]: it was empty or unset before and is non-empty after. *)
Theorem status_reports_the_environment (P : platform) (w : state) :
  exists status,
    (inject_api_keys P w).1 = Return status /\
    forall provider variable,
      (provider, variable)
        ∈ [("anthropic", "ANTHROPIC_API_KEY"); ("openai", "OPENAI_API_KEY")] ->
      status !! (provider +:+ "_available")
        = Some (truthy_opt (environ (inject_api_keys P w).2 !! variable)) /\
      status !! (provider +:+ "_injected")
        = Some (negb (truthy_opt (environ w !! variable))
                && truthy_opt (environ (inject_api_keys P w).2 !! variable))%bool.
Proof.
  destruct (inject_api_keys_status P w) as (status & Hs & Haa & Hai & Hoa & Hoi).
  exists status. split; [done|]. intros provider variable Hin.
  assert (forall variable provider,
            (provider, variable)
              ∈ [("anthropic", "ANTHROPIC_API_KEY"); ("openai", "OPENAI_API_KEY")] ->
            truthy_opt (environ (inject_api_keys P w).2 !! variable)
              = truthy_opt (resolve P (environ w) variable provider) /\
            injects P (environ w) variable provider
              = (negb (truthy_opt (environ w !! variable))
                 && truthy_opt (resolve P (environ w) variable provider))%bool) as Hkey.
  { clear. intros variable provider Hin. split.
    - rewrite <- (resolve_after_inject P w variable provider Hin).
      pose proof (injects_after_inject P w variable provider Hin) as Hi.
      unfold injects in Hi. unfold resolve.
      destruct (truthy_opt (environ (inject_api_keys P w).2 !! variable)) eqn:Ht; [done|].
      cbn in Hi. by rewrite Hi.
    - unfold injects, resolve.
      destruct (truthy_opt (environ w !! variable)) eqn:Ht; [done|]. done. }
  destruct (Hkey variable provider Hin) as [-> Hi].
  apply elem_of_cons in Hin as [[= -> ->]|Hin];
    [|apply list_elem_of_singleton in Hin as [= -> ->]].
  - change (status !! "anthropic_available"
            = Some (truthy_opt (resolve P (environ w) "ANTHROPIC_API_KEY" "anthropic")) /\
            status !! "anthropic_injected"
            = Some (negb (truthy_opt (environ w !! "ANTHROPIC_API_KEY"))
                    && truthy_opt (resolve P (environ w) "ANTHROPIC_API_KEY" "anthropic"))%bool).
    by rewrite Haa, Hai, Hi.
  - change (status !! "openai_available"
            = Some (truthy_opt (resolve P (environ w) "OPENAI_API_KEY" "openai")) /\
            status !! "openai_injected"
            = Some (negb (truthy_opt (environ w !! "OPENAI_API_KEY"))
                    && truthy_opt (resolve P (environ w) "OPENAI_API_KEY" "openai"))%bool).
    by rewrite Hoa, Hoi, Hi.
Qed.


(** X10.  [get_default_model] always answers and leaves the state alone.
    A non-empty [RUNANYWHERE_DEFAULT_MODEL] is the answer.  Otherwise the
    answer is [gpt-4o] exactly when no Anthropic key but an OpenAI key
    resolves, and [sonnet] in every other case, also when no key resolves
    at all. *)
Theorem default_model_follows_credentials (P : platform) (w : state) :
  (forall v, environ w !! "RUNANYWHERE_DEFAULT_MODEL" = Some v -> v <> "" ->
     get_default_model P w = (Return v, w)) /\
  (truthy_opt (environ w !! "RUNANYWHERE_DEFAULT_MODEL") = false ->
   exists m,
     get_default_model P w = (Return m, w) /\
     (m = "gpt-4o" <->
      usable (get_anthropic_key P w).1 = false /\ usable (get_openai_key P w).1 = true) /\
     (m <> "gpt-4o" -> m = "sonnet")).
Proof.
  rewrite get_default_model_run, get_anthropic_key_run, get_openai_key_run. cbn [fst usable].
  split.
  - intros v Hv Hne. rewrite Hv. cbn. apply truthy_true in Hne. by rewrite Hne.
  - intros ->. eexists. split; [reflexivity|].
    destruct (truthy_opt (resolve P (environ w) "ANTHROPIC_API_KEY" "anthropic"));
      [by split; [split; [discriminate|intros [? ?]]|]|].
    destruct (truthy_opt (resolve P (environ w) "OPENAI_API_KEY" "openai")).
    + by split; [split|].
    + by split; [split; [discriminate|intros [? ?]]|].
Qed.

(** ** The key encoder *)

Lemma get_contains i s c :
  String.get i s = Some c -> contains (String c EmptyString) s = true.
Proof.
  revert i. induction s as [|a s IH]; intros i; [by destruct i|].
  destruct i as [|i]; cbn [String.get].
  - intros [= ->]. cbn [contains String.prefix].
    destruct (Ascii.ascii_dec c c) as [_|Hn]; [by destruct s|by destruct Hn].
  - intros H. cbn [contains]. rewrite (IH i H). apply orb_true_r.
Qed.

Lemma b64_char_ok n : is_b64_char (b64_char n) = true.
Proof.
  unfold is_b64_char, b64_char.
  destruct (String.get (N.to_nat n) B64_ALPHABET) as [c|] eqn:Hg.
  - change (default "A"%char (Some c)) with c. by rewrite (get_contains _ _ _ Hg).
  - reflexivity.
Qed.

Lemma b64encode_chars bytes : all_chars is_b64_char (b64encode bytes) = true.
Proof.
  assert (forall n, (length bytes <= n)%nat -> all_chars is_b64_char (b64encode bytes) = true)
    as H; [|by apply (H (length bytes))].
  intros n. revert bytes. induction n as [|n IH]; intros bytes Hn.
  - destruct bytes; [done|cbn in Hn; lia].
  - destruct bytes as [|a [|b [|c rest]]]; [done|..].
    + cbn [b64encode all_chars]. by rewrite !b64_char_ok.
    + cbn [b64encode all_chars]. by rewrite !b64_char_ok.
    + cbn [b64encode all_chars]. rewrite !b64_char_ok. cbn [andb].
      apply IH. cbn in Hn. lia.
Qed.

Lemma all_chars_prefix ok p s :
  String.prefix p s = true -> all_chars ok s = true -> all_chars ok p = true.
Proof.
  revert s. induction p as [|a p IH]; intros s; [done|].
  destruct s as [|b s]; cbn [String.prefix]; [done|].
  destruct (Ascii.ascii_dec a b) as [->|]; [|done].
  cbn [all_chars]. rewrite !andb_true_iff. intros Hp [Hb Hs]. eauto.
Qed.

Lemma b64encode_nonempty bytes : bytes <> [] -> b64encode bytes <> "".
Proof. destruct bytes as [|a [|b [|c rest]]]; done. Qed.

Lemma utf8_encode_nonempty s : s <> "" -> utf8_encode s <> [].
Proof.
  destruct s as [|c s]; [done|]. intros _. cbn [utf8_encode]. unfold utf8_char.
  by destruct (N.ltb _ _).
Qed.

Lemma encoded_key_passes_guards P api_key :
  api_key <> "" ->
  _decode_key P (encode_key_for_config api_key)
    = b64decode_utf8 P (encode_key_for_config api_key).
Proof.
  intros Hk. unfold _decode_key, encode_key_for_config.
  assert (truthy (b64encode (utf8_encode api_key)) = true) as ->.
  { apply truthy_true. by apply b64encode_nonempty, utf8_encode_nonempty. }
  destruct (startswith (b64encode (utf8_encode api_key)) "REPLACE_WITH") eqn:Hs; [|done].
  unfold startswith in Hs.
  pose proof (all_chars_prefix is_b64_char _ _ Hs (b64encode_chars _)) as Hp.
  vm_compute in Hp. discriminate.
Qed.

(** X11.  What [encode_key_for_config] produces consists of base64
    characters only and never starts with [REPLACE_WITH]; so [_decode_key]
    does not take the encoding of a non-empty key for a placeholder: where
    the codec inverts the encoding, [_decode_key] returns the key. *)
Theorem encoded_key_is_never_a_placeholder (P : platform) (api_key : string) :
  all_chars is_b64_char (encode_key_for_config api_key) = true /\
  startswith (encode_key_for_config api_key) "REPLACE_WITH" = false /\
  (api_key <> "" ->
   b64decode_utf8 P (encode_key_for_config api_key) = Some api_key ->
   _decode_key P (encode_key_for_config api_key) = Some api_key).
Proof.
  split; [apply b64encode_chars|]. split.
  - destruct (startswith _ _) eqn:Hs; [|done]. unfold startswith in Hs.
    pose proof (all_chars_prefix is_b64_char _ _ Hs (b64encode_chars _)) as Hp.
    vm_compute in Hp. discriminate.
  - intros Hk Hd. by rewrite encoded_key_passes_guards.
Qed.

(** ** The documentation *)

Lemma foldl_load_sdk_None tree l : foldl (load_sdk tree) None l = None.
Proof. by induction l. Qed.

Lemma foldl_load_sdk_unreadable tree l sdk folder acc :
  sdk ∈ l -> tree sdk = Some folder ->
  Documentation_md folder = Unreadable \/ ARCHITECTURE_md folder = Unreadable ->
  foldl (load_sdk tree) acc l = None.
Proof.
  intros Hin Ht Hu. revert acc. induction l as [|x l IH]; intros acc.
  { by apply elem_of_nil in Hin. }
  apply elem_of_cons in Hin as [<-|Hin]; [|by apply IH].
  cbn [foldl]. assert (load_sdk tree acc sdk = None) as ->; [|apply foldl_load_sdk_None].
  unfold load_sdk. destruct acc as [parts|]; [|done]. cbn. rewrite Ht.
  destruct Hu as [-> | Hu]; [done|]. rewrite Hu.
  by destruct (Documentation_md folder).
Qed.

Lemma foldl_load_sdk_nothing tree l acc :
  (forall sdk folder, sdk ∈ l -> tree sdk = Some folder ->
     Documentation_md folder = Absent /\ ARCHITECTURE_md folder = Absent) ->
  foldl (load_sdk tree) (Some acc) l = Some acc.
Proof.
  induction l as [|x l IH]; intros H; [done|]. cbn [foldl].
  assert (load_sdk tree (Some acc) x = Some acc) as ->.
  { unfold load_sdk. cbn. destruct (tree x) as [folder|] eqn:Ht; [|done].
    destruct (H x folder) as [-> ->]; [apply elem_of_cons; by left|done|done]. }
  apply IH. intros sdk folder Hin. apply H. apply elem_of_cons. by right.
Qed.

(** X12.  [get_sdk_documentation] answers the built-in text whenever a
    document of an SDK folder exists and cannot be read, whatever else was
    read before.  Without a [docs] folder, or with SDK folders that hold no
    document, it answers [sdk-documentation.md] when that file can be
    read, and the built-in text otherwise. *)
Theorem sdk_documentation_falls_back (P : platform) :
  (forall tree, docs (resources_dir P) = Some tree -> has_unreadable tree ->
     get_sdk_documentation P = SDK_DOCUMENTATION P) /\
  (docs (resources_dir P) = None
   \/ (exists tree, docs (resources_dir P) = Some tree /\ no_documents tree) ->
   get_sdk_documentation P =
     match sdk_documentation_md (resources_dir P) with
     | Text s => s
     | Absent => SDK_DOCUMENTATION P
     | Unreadable => SDK_DOCUMENTATION P
     end).
Proof.
  unfold get_sdk_documentation. split.
  - intros tree -> (sdk & folder & Hin & Ht & Hu).
    by rewrite (foldl_load_sdk_unreadable tree sdk_folders sdk folder (Some []) Hin Ht Hu).
  - intros [-> | (tree & -> & Hn)].
    + cbn. by destruct (sdk_documentation_md (resources_dir P)).
    + rewrite foldl_load_sdk_nothing by exact Hn. cbn.
      by destruct (sdk_documentation_md (resources_dir P)).
Qed.

(** ** More on the prompt augmenter *)

Lemma patch_aider_prompts_run P w :
  exists line,
    patch_aider_prompts P w =
      (Return tt, add_events [Print line] (with_host (aider_in P (host w)) w)).
Proof.
  unfold aider_in. destruct (imports_ok (host w)) eqn:Hi.
  - destruct (slot_text EditBlockSlot (host w)) as [te|] eqn:He.
    + destruct (slot_text WholeFileSlot (host w)) as [tw|] eqn:Hw.
      * eexists. apply patch_aider_prompts_ok; rewrite ?He, ?Hw; eauto.
      * destruct (patch_aider_prompts_no_whole_file P w) as [msg Hm];
          rewrite ?He; eauto.
    + destruct (patch_aider_prompts_no_edit_block P w) as [msg Hm]; [done..|].
      eexists. rewrite with_host_id. exact Hm.
  - destruct (patch_aider_prompts_import_fails P w) as [msg Hm]; [done|].
    eexists. rewrite with_host_id. exact Hm.
Qed.

Lemma apply_all_patches_run P w :
  exists line1 line2,
    apply_all_patches P w =
      (Return tt,
       add_events [Print line1; Print line2]
         (with_host (commit_in (help_in (aider_in P (host w)))) w)).
Proof.
  destruct (patch_aider_prompts_run P w) as [line1 Hp].
  unfold apply_all_patches. rewrite run_bind, Hp. cbv beta iota.
  rewrite run_bind, patch_help_system_run. cbn [host add_events with_host].
  unfold help_in.
  destruct (HelpPrompts (aider_in P (host w))) as [c|]; cbv beta iota;
    rewrite patch_commit_prompts_run; cbn [host add_events with_host trace];
    eexists _, _; unfold commit_in, add_events, with_host; cbn;
    rewrite <- app_assoc; reflexivity.
Qed.


Lemma imports_ok_prepend_in prefix s h : imports_ok (prepend_in prefix s h) = imports_ok h.
Proof.
  unfold prepend_in. destruct (class_of s h) as [c|] eqn:Hc; [|done].
  destruct (slot_text s h); [|done]. apply imports_ok_set_class. rewrite Hc; eauto.
Qed.

Lemma imports_ok_extend_in more s h : imports_ok (extend_in more s h) = imports_ok h.
Proof.
  unfold extend_in. destruct (class_of s h) as [c|] eqn:Hc; [|done].
  destruct (example_messages c); [|done]. apply imports_ok_set_class. rewrite Hc; eauto.
Qed.

Lemma imports_ok_help_in h : imports_ok (help_in h) = imports_ok h.
Proof. unfold help_in. by destruct (HelpPrompts h). Qed.

Lemma imports_ok_commit_in h : imports_ok (commit_in h) = imports_ok h.
Proof. unfold commit_in. by destruct (mjoin (prompts h)). Qed.

Lemma slot_text_commit_in s h : slot_text s (commit_in h) = slot_text s h.
Proof. apply slot_text_after_commit. Qed.

Lemma slot_text_help_in s h : s <> HelpSlot -> slot_text s (help_in h) = slot_text s h.
Proof.
  intros Hs. unfold help_in. destruct (HelpPrompts h); [|done].
  destruct s; try reflexivity. done.
Qed.

Lemma slot_text_help_in_help h :
  slot_text HelpSlot (help_in h) = HelpPrompts h ≫= fun _ => Some HELP_MAIN_SYSTEM.
Proof. unfold help_in. by destruct (HelpPrompts h) eqn:E; cbn; rewrite ?E. Qed.

(** The edit templates after [apply_all_patches]. *)
Lemma slot_text_after_patches P h s :
  s <> HelpSlot ->
  slot_text s (commit_in (help_in (aider_in P h))) = slot_text s (aider_in P h).
Proof. intros Hs. by rewrite slot_text_commit_in, slot_text_help_in. Qed.

Lemma aider_in_ok P h :
  imports_ok h = true ->
  is_Some (slot_text EditBlockSlot h) -> is_Some (slot_text WholeFileSlot h) ->
  aider_in P h = aider_patched P h.
Proof. intros Hi [? He] [? Hw]. unfold aider_in. by rewrite Hi, He, Hw. Qed.

(** X13.  [apply_all_patches] never raises and never exits, whatever the
    host lacks: it returns, prints exactly two lines, and changes nothing
    of the state but the host's prompts. *)
Theorem patches_change_only_the_host (P : platform) (w : state) :
  exists h line1 line2,
    apply_all_patches P w =
      (Return tt, add_events [Print line1; Print line2] (with_host h w)).
Proof. destruct (apply_all_patches_run P w) as (l1 & l2 & H). eauto. Qed.

Lemma class_of_commit_in s h : class_of s (commit_in h) = class_of s h.
Proof. unfold commit_in. destruct (mjoin (prompts h)); by destruct s. Qed.

Lemma class_of_help_in s h : s <> HelpSlot -> class_of s (help_in h) = class_of s h.
Proof. intros Hs. unfold help_in. destruct (HelpPrompts h); by destruct s. Qed.

(** A fenced class that had a text to show has one of its own after the
    patches. *)
Lemma borrows_text_after_patches P h s :
  imports_ok h = true ->
  is_Some (slot_text EditBlockSlot h) -> is_Some (slot_text WholeFileSlot h) ->
  is_Some (slot_text s h) ->
  borrows_text s (commit_in (help_in (aider_in P h))) = false.
Proof.
  intros Hi He Hw Hs. unfold borrows_text. apply bool_decide_eq_false_2. intros [-> Ho].
  set (h2 := prepend_in (runanywhere_prefix P) WholeFileSlot
               (prepend_in (runanywhere_prefix P) EditBlockSlot h)).
  assert (class_of FencedSlot (commit_in (help_in (aider_in P h)))
          = class_of FencedSlot (prepend_in (runanywhere_prefix P) FencedSlot h2)) as Hcl.
  { rewrite class_of_commit_in. rewrite class_of_help_in by done.
    rewrite aider_in_ok by done. unfold aider_patched.
    rewrite class_of_extend_in_ne by done. by rewrite class_of_prepend_in_ne by done. }
  assert (is_Some (slot_text FencedSlot h2)) as [t Ht].
  { subst h2. rewrite slot_text_prepend_in_alone by auto. rewrite slot_text_prepend_in.
    destruct Hs as [t ->]. case_bool_decide; by eexists. }
  unfold attr_owner in Ho. rewrite Hcl in Ho. unfold prepend_in in Ho. rewrite Ht in Ho.
  destruct (class_of FencedSlot h2) as [c|] eqn:Hc.
  - rewrite class_of_set_class in Ho by (rewrite Hc; eauto).
    destruct (decide (FencedSlot = FencedSlot)); [|done]. cbn in Ho. discriminate.
  - rewrite Hc in Ho. discriminate.
Qed.

(** X14.  The patches are not idempotent.  On a host with both primary
    templates, a second [apply_all_patches] puts the prefix in front of
    every edit template a second time; and a fenced template that was
    the inherited primary one, as it is on aider, then carries the
    prefix three times, since the first run gave it two. *)
Theorem patching_twice_prepends_twice (P : platform) (w : state) :
  imports_ok (host w) = true ->
  is_Some (slot_text EditBlockSlot (host w)) ->
  is_Some (slot_text WholeFileSlot (host w)) ->
  let w1 := (apply_all_patches P w).2 in
  let w2 := (apply_all_patches P w1).2 in
  let p := runanywhere_prefix P in
  forall s, s <> HelpSlot ->
    slot_text s (host w1)
      = (fun o => if borrows_text s (host w) then p +:+ p +:+ o else p +:+ o)
          <$> slot_text s (host w) /\
    slot_text s (host w2)
      = (fun o => if borrows_text s (host w) then p +:+ p +:+ p +:+ o else p +:+ p +:+ o)
          <$> slot_text s (host w).
Proof.
  intros Hi He Hw. cbv zeta. intros s Hs.
  destruct (apply_all_patches_run P w) as (l1 & l2 & ->). cbn [snd].
  destruct (apply_all_patches_run P (add_events [Print l1; Print l2]
              (with_host (commit_in (help_in (aider_in P (host w)))) w)))
    as (l3 & l4 & ->).
  cbn [snd host add_events with_host].
  set (h1 := commit_in (help_in (aider_in P (host w)))).
  assert (forall s, s <> HelpSlot ->
            slot_text s h1 =
              (fun o => if borrows_text s (host w)
                        then runanywhere_prefix P +:+ runanywhere_prefix P +:+ o
                        else runanywhere_prefix P +:+ o) <$> slot_text s (host w))
    as H1.
  { intros s' Hs'. subst h1. rewrite slot_text_after_patches by done.
    rewrite aider_in_ok by done. by apply slot_text_aider_patched. }
  split; [by apply H1|].
  rewrite slot_text_after_patches by done.
  rewrite aider_in_ok.
  - rewrite slot_text_aider_patched by done. rewrite H1 by done.
    destruct (slot_text s (host w)) as [t|] eqn:Ht; [|done]. cbn.
    subst h1. rewrite borrows_text_after_patches by (rewrite ?Ht; eauto).
    by destruct (borrows_text s (host w)).
  - subst h1. rewrite imports_ok_commit_in, imports_ok_help_in, aider_in_ok by done.
    unfold aider_patched. by rewrite imports_ok_extend_in, !imports_ok_prepend_in.
  - rewrite H1 by done. destruct He as [? ->]. by eexists.
  - rewrite H1 by done. destruct Hw as [? ->]. by eexists.
Qed.

Lemma prompts_set_class s c h : prompts (set_class s c h) = prompts h.
Proof. by destruct s. Qed.

Lemma prompts_prepend_in prefix s h : prompts (prepend_in prefix s h) = prompts h.
Proof.
  unfold prepend_in. destruct (class_of s h) as [c|]; [|done].
  destruct (slot_text s h); [|done]. apply prompts_set_class.
Qed.

Lemma prompts_extend_in more s h : prompts (extend_in more s h) = prompts h.
Proof.
  unfold extend_in. destruct (class_of s h) as [c|]; [|done].
  destruct (example_messages c); [|done]. apply prompts_set_class.
Qed.

Lemma prompts_aider_in P h : prompts (aider_in P h) = prompts h.
Proof.
  unfold aider_in. destruct (imports_ok h); [|done].
  destruct (slot_text EditBlockSlot h); [|done].
  destruct (slot_text WholeFileSlot h).
  - unfold aider_patched. by rewrite prompts_extend_in, !prompts_prepend_in.
  - apply prompts_prepend_in.
Qed.

Lemma prompts_help_in h : prompts (help_in h) = prompts h.
Proof. unfold help_in. destruct (HelpPrompts h); [apply prompts_set_class|done]. Qed.

Lemma class_of_help_aider_in P h : class_of HelpSlot (aider_in P h) = class_of HelpSlot h.
Proof.
  unfold aider_in. destruct (imports_ok h); [|done].
  destruct (slot_text EditBlockSlot h); [|done].
  destruct (slot_text WholeFileSlot h).
  - apply class_of_help_aider_patched.
  - by apply class_of_prepend_in_ne.
Qed.

(** X15.  Whatever becomes of the edit templates, [apply_all_patches]
    appends the commit suffix to the commit template, when the host has
    one, and replaces the main text and the repository prefix of the help
    prompts, when the host has them, keeping their examples. *)
Theorem help_and_commit_patches_stand_alone (P : platform) (w : state) :
  let w' := (apply_all_patches P w).2 in
  commit_text (host w') = (fun o => o +:+ COMMIT_SUFFIX) <$> commit_text (host w) /\
  HelpPrompts (host w') =
    (fun c => {| main_system := Some HELP_MAIN_SYSTEM;
                 example_messages := example_messages c;
                 repo_content_prefix := Some HELP_REPO_CONTENT_PREFIX |})
      <$> HelpPrompts (host w).
Proof.
  cbv zeta. destruct (apply_all_patches_run P w) as (l1 & l2 & ->).
  cbn [snd host add_events with_host]. split.
  - unfold commit_text, commit_in at 1.
    rewrite prompts_help_in, prompts_aider_in.
    destruct (prompts (host w)) as [[o|]|] eqn:Hp; cbn; try done.
    + rewrite prompts_help_in, prompts_aider_in, Hp. done.
    + rewrite prompts_help_in, prompts_aider_in, Hp. done.
  - change (class_of HelpSlot (commit_in (help_in (aider_in P (host w))))
            = (fun c => {| main_system := Some HELP_MAIN_SYSTEM;
                           example_messages := example_messages c;
                           repo_content_prefix := Some HELP_REPO_CONTENT_PREFIX |})
                <$> class_of HelpSlot (host w)).
    rewrite class_of_commit_in, <- (class_of_help_aider_in P (host w)).
    cbn [class_of]. unfold help_in.
    destruct (HelpPrompts (aider_in P (host w))) as [c|] eqn:Hc; cbn; by rewrite ?Hc.
Qed.

Lemma slot_examples_set_class_main s s' c h text :
  class_of s h = Some c ->
  slot_examples s' (set_class s {| main_system := text;
                                   example_messages := example_messages c;
                                   repo_content_prefix := repo_content_prefix c |} h)
    = slot_examples s' h.
Proof.
  intros Hc. unfold slot_examples. rewrite class_of_set_class by (rewrite Hc; eauto).
  destruct (decide (s = s')) as [<-|]; [|done]. by rewrite Hc.
Qed.

Lemma slot_examples_prepend_in prefix s s' h :
  slot_examples s' (prepend_in prefix s h) = slot_examples s' h.
Proof.
  unfold prepend_in. destruct (class_of s h) as [c|] eqn:Hc; [|done].
  destruct (slot_text s h); [|done]. by apply slot_examples_set_class_main.
Qed.

Lemma slot_examples_extend_in more s s' h :
  slot_examples s' (extend_in more s h) =
    if decide (s = s') then (fun l => l ++ more) <$> slot_examples s h
    else slot_examples s' h.
Proof.
  unfold extend_in, slot_examples.
  destruct (class_of s h) as [c|] eqn:Hc.
  - destruct (example_messages c) as [l|] eqn:Hl.
    + rewrite class_of_set_class by (rewrite Hc; eauto).
      destruct (decide (s = s')); cbn; [by rewrite Hl|done].
    + destruct (decide (s = s')) as [<-|]; [|done]. rewrite Hc. cbn. by rewrite Hl.
  - destruct (decide (s = s')) as [<-|]; [|done]. by rewrite Hc.
Qed.

Lemma slot_examples_help_in s h : slot_examples s (help_in h) = slot_examples s h.
Proof.
  unfold help_in. destruct (HelpPrompts h) as [c|] eqn:Hc; [|done].
  unfold slot_examples. rewrite class_of_set_class by (cbn; rewrite Hc; eauto).
  destruct (decide (HelpSlot = s)) as [<-|]; [|done]. cbn. by rewrite Hc.
Qed.

Lemma slot_examples_commit_in s h : slot_examples s (commit_in h) = slot_examples s h.
Proof. unfold slot_examples. by rewrite class_of_commit_in. Qed.


(** ** The orchestrator: the gate *)

Lemma check_help_flags_run P w :
  check_help_flags P w =
    if asks_version w
    then (SysExit 0, add_events [Print ("runanywhere-agent " +:+ __version__ P)] w)
    else if (mem "--help" (argv w) || mem "-h" (argv w))%bool
    then (Return tt, add_events [Print (banner P)] w)
    else (Return tt, w).
Proof.
  unfold check_help_flags, asks_version. rewrite run_bind. unfold get_argv. cbv beta iota.
  destruct (_ || _ && _)%bool; [reflexivity|].
  by destruct (_ || _)%bool.
Qed.

Lemma main_start_run P w :
  asks_version w = false ->
  (check_help_flags P;; print_banner P) w = (Return tt, add_events (banners P w) w).
Proof.
  intros Hv. rewrite run_bind, check_help_flags_run, Hv. unfold banners.
  destruct (_ || _)%bool; cbv beta iota; unfold print_banner; rewrite print_run.
  - by rewrite add_events_app.
  - reflexivity.
Qed.

Lemma main_gate_version_run P w :
  asks_version w = true ->
  main_gate P w
    = (SysExit 0, add_events [Print ("runanywhere-agent " +:+ __version__ P)] w).
Proof.
  intros Hv. unfold main_gate. rewrite !run_bind, check_help_flags_run, Hv. reflexivity.
Qed.

(** X17.  With [--version] on the command line, or with [-v] as the only
    argument, [main] prints the version line and ends with
    [sys.exit(0)]: no banner, no authentication, nothing else changes. *)
Theorem version_flag_ends_the_run (P : platform) (w : state) :
  asks_version w = true ->
  main P w = (SysExit 0, add_events [Print ("runanywhere-agent " +:+ __version__ P)] w).
Proof.
  intros Hv. unfold main. by rewrite run_bind, main_gate_version_run.
Qed.

(** The gate up to the authentication. *)
Lemma main_gate_steps P w :
  asks_version w = false ->
  main_gate P w =
    if mem "--logout" (argv w) then
      (SysExit 0,
       add_events
         (banners P w ++
          [Print "Logged out successfully. You will need to re-authenticate next time."])
         (match cache_file w, fs_fault P FsUnlink with
          | Some _, None => with_cache_file None w
          | _, _ => w
          end))
    else
      (if negb (skips_auth w) then
         email ← authenticate P;
         print (NL +:+ "Welcome, " +:+ email +:+ "!" +:+ NL)
       else print ("[DEV MODE] Skipping authentication" +:+ NL))
        (add_events (banners P w) (with_argv (gate_argv w) w)).
Proof.
  intros Hv. unfold main_gate.
  rewrite run_bind.
  rewrite check_help_flags_run, Hv.
  assert (forall w0 : state,
            argv w0 = argv w -> environ w0 = environ w -> cache_file w0 = cache_file w ->
            (args ← get_argv;
             (if mem "--logout" args then logout P;; sys_exit 0 else mret tt);;
             args0 ← get_argv;
             skip_env ← environ_get "RUNANYWHERE_SKIP_AUTH";
             (if mem "--skip-auth" args0
              then set_argv (remove_first "--skip-auth" args0) else mret tt);;
             (if negb (mem "--skip-auth" args0 || bool_decide (skip_env = Some "1"))
              then email ← authenticate P;
                   print (NL +:+ "Welcome, " +:+ email +:+ "!" +:+ NL)
              else print ("[DEV MODE] Skipping authentication" +:+ NL))) w0
            = if mem "--logout" (argv w) then
                (SysExit 0,
                 add_events
                   [Print "Logged out successfully. You will need to re-authenticate next time."]
                   (match cache_file w, fs_fault P FsUnlink with
                    | Some _, None => with_cache_file None w0
                    | _, _ => w0
                    end))
              else
                (if negb (skips_auth w) then
                   email ← authenticate P;
                   print (NL +:+ "Welcome, " +:+ email +:+ "!" +:+ NL)
                 else print ("[DEV MODE] Skipping authentication" +:+ NL))
                  (with_argv (gate_argv w) w0)) as Hrest.
  { intros w0 Ha He Hc. rewrite run_bind. unfold get_argv at 1. cbv beta iota. rewrite Ha.
    destruct (mem "--logout" (argv w)).
    - rewrite run_bind, run_bind, logout_run. cbv beta iota. unfold sys_exit.
      by rewrite Hc.
    - rewrite run_bind. unfold mret at 1, prog_ret at 1. cbv beta iota.
      rewrite run_bind. unfold get_argv at 1. cbv beta iota. rewrite Ha.
      rewrite run_bind. unfold environ_get at 1. cbv beta iota. rewrite He.
      rewrite run_bind. unfold skips_auth, gate_argv.
      destruct (mem "--skip-auth" (argv w)); [reflexivity|].
      unfold mret at 1, prog_ret at 1. cbv beta iota.
      assert (with_argv (argv w) w0 = w0) as ->; [|reflexivity].
      rewrite <- Ha. by destruct w0. }
  unfold banners.
  destruct (mem "--help" (argv w) || mem "-h" (argv w))%bool; cbv beta iota;
    rewrite run_bind; unfold print_banner; rewrite print_run; cbv beta iota;
    rewrite Hrest by done; destruct (mem "--logout" (argv w)); [| |  |];
    try reflexivity.
  - destruct (cache_file w), (fs_fault P FsUnlink);
      unfold add_events, with_cache_file; cbn; by rewrite <- !app_assoc.
  - unfold add_events, with_argv. cbn. by rewrite <- !app_assoc.
  - destruct (cache_file w), (fs_fault P FsUnlink);
      unfold add_events, with_cache_file; cbn; by rewrite <- ?app_assoc.
Qed.

(** X18.  With [--logout] on the command line (and no version flag)
    [main] shows the banner, removes the cache file where the file system
    lets it, prints the logout line and ends with [sys.exit(0)]; it does
    not authenticate and does not start the host. *)
Theorem logout_flag_ends_the_run (P : platform) (w : state) :
  asks_version w = false ->
  mem "--logout" (argv w) = true ->
  main P w =
    (SysExit 0,
     add_events
       (banners P w ++
        [Print "Logged out successfully. You will need to re-authenticate next time."])
       (match cache_file w, fs_fault P FsUnlink with
        | Some _, None => with_cache_file None w
        | _, _ => w
        end)).
Proof.
  intros Hv Hl. unfold main. by rewrite run_bind, main_gate_steps, Hl.
Qed.

(** The gate past the flags and the banner. *)
Lemma main_gate_run P w :
  asks_version w = false ->
  mem "--logout" (argv w) = false ->
  main_gate P w =
    (if negb (skips_auth w) then
       email ← authenticate P;
       print (NL +:+ "Welcome, " +:+ email +:+ "!" +:+ NL)
     else print ("[DEV MODE] Skipping authentication" +:+ NL))
      (add_events (banners P w) (with_argv (gate_argv w) w)).
Proof. intros Hv Hl. by rewrite main_gate_steps, Hl. Qed.

(** X19.  With [--skip-auth] on the command line or
    [RUNANYWHERE_SKIP_AUTH=1], the gate of [main] returns without a
    request and without reading input: it shows the banner and the
    skipping notice, and removes the first [--skip-auth] from
    [sys.argv]. *)
Theorem skip_auth_bypasses_the_gate (P : platform) (w : state) :
  asks_version w = false ->
  mem "--logout" (argv w) = false ->
  skips_auth w = true ->
  main_gate P w =
    (Return tt,
     add_events
       (banners P w ++ [Print ("[DEV MODE] Skipping authentication" +:+ NL)])
       (with_argv (gate_argv w) w)).
Proof.
  intros Hv Hl Hs. rewrite main_gate_run by done. rewrite Hs. cbn [negb].
  rewrite print_run. by rewrite add_events_app.
Qed.

Lemma keeps_authenticate P p :
  p <> Stdin -> p <> CacheFile -> keeps p (authenticate P).
Proof.
  intros H1 H2. unfold authenticate.
  pose proof (keeps_prompt_for_email P p H1). pose proof (keeps_verify_email P p).
  pose proof (keeps_save_email_to_cache P p). pose proof (keeps_clear_auth_cache P p H2).
  destruct p; keeps_tac; done.
Qed.

Lemma keeps_logout P p : p <> CacheFile -> keeps p (logout P).
Proof.
  intros Hp. unfold logout. pose proof (keeps_clear_auth_cache P p Hp).
  destruct p; keeps_tac; done.
Qed.

Lemma keeps_main_gate P p :
  p <> Stdin -> p <> CacheFile -> p <> Argv -> keeps p (main_gate P).
Proof.
  intros H1 H2 H3. unfold main_gate, check_help_flags, print_banner.
  pose proof (keeps_authenticate P p H1 H2). pose proof (keeps_logout P p H2).
  destruct p; keeps_tac; done.
Qed.

(** A gate that lets [main] go on was skipped, or has verified an email
    and welcomed its user. *)
Lemma main_gate_Return P w w1 :
  main_gate P w = (Return tt, w1) ->
  skips_auth w = true
  \/ exists email,
       Print (NL +:+ "Welcome, " +:+ email +:+ "!" +:+ NL) ∈ trace w1 /\
       (environ w !! "RUNANYWHERE_DEV_MODE" = Some "1"
        \/ HttpGet (sent_request w email) ∈ trace w1 /\
           grants (http_get P (sent_request w email))).
Proof.
  intros H. destruct (asks_version w) eqn:Hv.
  { rewrite main_gate_version_run in H by done. discriminate. }
  destruct (mem "--logout" (argv w)) eqn:Hl.
  { rewrite main_gate_steps, Hl in H by done. discriminate. }
  rewrite main_gate_run in H by done.
  destruct (skips_auth w); [by left|]. right. cbn [negb] in H.
  apply bind_Return in H as (email & w2 & Ha & Hw). rewrite print_run in Hw.
  injection Hw as <-. exists email.
  split; [cbn; apply elem_of_app; right; apply elem_of_cons; by left|].
  apply authenticate_Return in Ha as (w3 & w4 & Hp & Hv' & Hs).
  pose proof Hv' as Hi. apply verify_email_true_inv in Hi as [Hb Hg].
  pose proof (keeps_prompt_for_email P Environ ltac:(discriminate)
                (add_events (banners P w) (with_argv (gate_argv w) w))) as He.
  rewrite Hp in He. cbn in He.
  assert (sent_request (add_events [Print (NL +:+ "Verifying email...")] w3) email
          = sent_request w email) as Hr.
  { unfold sent_request. cbn. by rewrite He. }
  rewrite Hr in Hg.
  destruct (decide (environ w !! "RUNANYWHERE_DEV_MODE" = Some "1")) as [Hd|Hd]; [by left|].
  right. destruct Hg as [Hg|Hg]; [cbn in Hg; rewrite He in Hg; done|]. split; [|done].
  destruct (verify_email_sends_request P email
              (add_events [Print (NL +:+ "Verifying email...")] w3) Hb) as (evs & Ht).
  { cbn. by rewrite He. }
  rewrite Hv', Hr in Ht. cbn [snd] in Ht.
  destruct (quiet_save_email_to_cache P email
              (add_events [Print ("✓ Email verified: " +:+ email)] w4)) as (evs' & Ht' & _).
  rewrite Hs in Ht'. cbn [snd add_events trace] in Ht' |- *. rewrite Ht', Ht.
  rewrite !elem_of_app, elem_of_cons. tauto.
Qed.

(** ** The orchestrator: the session *)

Lemma quiet_clean {A} (m : prog A) w : quiet m -> clean w -> clean (m w).2.
Proof.
  intros Hq Hc args. destruct (Hq w) as (evs & -> & Hevs).
  rewrite elem_of_app. intros [H|H]; [by apply (Hc args)|].
  rewrite Forall_forall in Hevs. by apply (Hevs _ H args).
Qed.

(** The host is started in the second half of a sequence whose first half
    is quiet. *)
Lemma host_in_bind {A B} (m : prog A) (f : A -> prog B) w args :
  quiet m -> clean w -> HostMain args ∈ trace ((m ≫= f) w).2 ->
  exists a w1, m w = (Return a, w1) /\ clean w1 /\ HostMain args ∈ trace (f a w1).2.
Proof.
  intros Hq Hc H. pose proof (quiet_clean m w Hq Hc) as Hc1. rewrite run_bind in H.
  destruct (m w) as [[a|e|c] w1]; cbn in *; [eauto|by destruct (Hc1 args)..].
Qed.

Lemma get_argv_bind {B} (f : list string -> prog B) w : (get_argv ≫= f) w = f (argv w) w.
Proof. reflexivity. Qed.

Lemma quiet_inject_api_keys P : quiet (inject_api_keys P).
Proof. unfold inject_api_keys, inject_key. quiet_tac. Qed.

Lemma quiet_check_api_keys P : quiet (check_api_keys P).
Proof. apply quiet_same. intros w. by rewrite check_api_keys_run. Qed.

Lemma quiet_print_key_status P : quiet (print_key_status P).
Proof. unfold print_key_status, get_anthropic_key, get_openai_key. quiet_tac. Qed.

Lemma quiet_apply_all_patches P : quiet (apply_all_patches P).
Proof.
  intros w. destruct (apply_all_patches_run P w) as (l1 & l2 & ->).
  eexists. split; [reflexivity|]. repeat constructor; by intros ?.
Qed.

Lemma keeps_inject_api_keys P p : p <> Environ -> keeps p (inject_api_keys P).
Proof. intros Hp. unfold inject_api_keys, inject_key. destruct p; keeps_tac; done. Qed.

Lemma keeps_check_api_keys P p : keeps p (check_api_keys P).
Proof. intros w. rewrite check_api_keys_run. apply same_refl. Qed.

Lemma keeps_print_key_status P p : keeps p (print_key_status P).
Proof. unfold print_key_status, get_anthropic_key, get_openai_key. keeps_tac. Qed.

Lemma keeps_apply_all_patches P p : p <> Host -> keeps p (apply_all_patches P).
Proof.
  intros Hp w. destruct (apply_all_patches_run P w) as (l1 & l2 & ->). by destruct p.
Qed.

Lemma default_model_in_environ P w w' :
  environ w' = environ w -> default_model_in P w' = default_model_in P w.
Proof. intros H. unfold default_model_in. by rewrite !get_default_model_run, H. Qed.

(** Step 4 of [main]. *)
Lemma model_step_run P w :
  (if (negb (mem "--model" (argv w)) && negb (contains "-m" (join " " (argv w))))%bool
   then default_model ← get_default_model P;
        set_argv (argv w ++ ["--model"; default_model]);;
        print ("Using model: " +:+ default_model)
   else mret tt) w
  = (Return tt,
     if lacks_model_flag (argv w)
     then add_events [Print ("Using model: " +:+ default_model_in P w)]
            (with_argv (argv w ++ ["--model"; default_model_in P w]) w)
     else w).
Proof.
  unfold lacks_model_flag, default_model_in.
  destruct (_ && _)%bool; [|reflexivity].
  rewrite run_bind, get_default_model_run. reflexivity.
Qed.

(** Step 5 of [main]: the host's run and what becomes of its outcome. *)

Lemma session_run P w :
  try_except (run_aider_main P) session_handlers w =
    match aider_main P (argv w) with
    | Return r => (Return r, add_events [HostMain (argv w)] w)
    | SysExit c => (SysExit c, add_events [HostMain (argv w)] w)
    | Raise e =>
        if isinstance e KeyboardInterrupt then
          (Return (Some 0),
           add_events [HostMain (argv w); Print (NL +:+ NL +:+ "Session ended. Goodbye!")] w)
        else if isinstance e Exception then
          (Return (Some 1),
           add_events
             ([HostMain (argv w); Print (NL +:+ "Error: " +:+ exn_str e)]
              ++ if mem "--verbose" (argv w) then [Traceback e] else []) w)
        else (Raise e, add_events [HostMain (argv w)] w)
    end.
Proof.
  unfold try_except, run_aider_main. rewrite get_argv_bind, run_bind.
  unfold emit at 1. cbv beta iota.
  destruct (aider_main P (argv w)) as [r|e|c]; [reflexivity| |reflexivity].
  unfold raise. cbn [argv add_events find fst snd session_handlers].
  destruct (isinstance e KeyboardInterrupt); cbn [snd]; cbv beta iota.
  - rewrite run_bind, print_run. cbv beta iota. by rewrite add_events_app.
  - destruct (isinstance e Exception); cbn [find fst snd]; cbv beta iota; [|reflexivity].
    cbn [snd]; cbv beta iota.
    rewrite run_bind, print_run. cbv beta iota. rewrite get_argv_bind.
    cbn [argv add_events]. rewrite run_bind.
    destruct (mem "--verbose" (argv w)).
    + unfold emit. cbv beta iota. by rewrite !add_events_app.
    + unfold mret at 1, prog_ret at 1. cbv beta iota. by rewrite !add_events_app.
Qed.

Lemma session_host P w args :
  clean w -> HostMain args ∈ trace (try_except (run_aider_main P) session_handlers w).2 ->
  args = argv w.
Proof.
  intros Hc. rewrite session_run.
  assert (forall l, Forall not_host_main l ->
            HostMain args ∈ trace (add_events (HostMain (argv w) :: l) w) -> args = argv w)
    as Hl.
  { intros l Hq. cbn. rewrite elem_of_app, elem_of_cons. intros [H|[H|H]].
    - by destruct (Hc args).
    - congruence.
    - rewrite Forall_forall in Hq. by destruct (Hq _ H args). }
  destruct (aider_main P (argv w)) as [r|e|c]; [by apply (Hl [])| |by apply (Hl [])].
  destruct (isinstance e KeyboardInterrupt).
  { apply Hl. repeat constructor. by intros ?. }
  destruct (isinstance e Exception); [|by apply (Hl [])].
  apply Hl. destruct (mem "--verbose" (argv w)); repeat constructor; by intros ?.
Qed.

(** A session that starts the host has come to step 5. *)
Lemma main_session_host P w args :
  clean w -> HostMain args ∈ trace (main_session P w).2 ->
  exists w5,
    main_session P w = try_except (run_aider_main P) session_handlers w5 /\
    clean w5 /\
    args = argv w5 /\
    (check_api_keys P (inject_api_keys P w).2).1 = Return true /\
    argv w5 =
      if lacks_model_flag (argv w)
      then argv w ++ ["--model"; default_model_in P (inject_api_keys P w).2]
      else argv w.
Proof.
  intros Hc H.
  destruct (check_api_keys P (inject_api_keys P w).2).1 as [[|]| |] eqn:Hk;
    rewrite check_api_keys_run in Hk; cbn [fst] in Hk; try discriminate.
  2:{ exfalso. rewrite main_session_no_keys in H
        by (rewrite check_api_keys_run; exact Hk).
      cbn [snd add_events trace] in H.
      apply elem_of_app in H as [H|H]; [by destruct (Hc args)|].
      apply list_elem_of_fmap in H as (? & [=] & _). }
  unfold main_session in *.
  destruct (host_in_bind _ _ _ _ (quiet_inject_api_keys P) Hc H)
    as (status & w1 & E1 & Hc1 & H1). clear H.
  rewrite run_bind, E1. cbv beta iota.
  pose proof (keeps_inject_api_keys P Argv ltac:(discriminate) w) as Ka1.
  rewrite E1 in Ka1, Hk. cbn in Ka1, Hk. injection Hk as Hk.
  rewrite run_bind, check_api_keys_run, Hk in H1 |- *. cbv beta iota in H1 |- *.
  cbn [negb] in H1 |- *. rewrite run_bind in H1 |- *.
  unfold mret at 1, prog_ret at 1 in H1. unfold mret at 1, prog_ret at 1.
  cbv beta iota in H1 |- *. rewrite get_argv_bind in H1 |- *.
  assert (quiet (if (mem "--verbose" (argv w1) || mem "-v" (argv w1))%bool
                 then print_key_status P else mret tt)) as Hq2.
  { destruct (mem "--verbose" (argv w1) || mem "-v" (argv w1))%bool;
      [apply quiet_print_key_status|apply quiet_ret]. }
  assert (forall p, keeps p (if (mem "--verbose" (argv w1) || mem "-v" (argv w1))%bool
                             then print_key_status P else mret tt)) as Hk2.
  { intros p. destruct (mem "--verbose" (argv w1) || mem "-v" (argv w1))%bool;
      [apply keeps_print_key_status|apply keeps_ret]. }
  destruct (host_in_bind _ _ _ _ Hq2 Hc1 H1) as ([] & w2 & E2 & Hc2 & H2). clear H1.
  rewrite run_bind, E2. cbv beta iota.
  pose proof (Hk2 Argv w1) as Ka2. pose proof (Hk2 Environ w1) as Ke2.
  rewrite E2 in Ka2, Ke2. cbn in Ka2, Ke2.
  destruct (host_in_bind _ _ _ _ (quiet_apply_all_patches P) Hc2 H2)
    as ([] & w3 & E3 & Hc3 & H3). clear H2.
  rewrite run_bind, E3. cbv beta iota.
  pose proof (keeps_apply_all_patches P Argv ltac:(discriminate) w2) as Ka3.
  pose proof (keeps_apply_all_patches P Environ ltac:(discriminate) w2) as Ke3.
  rewrite E3 in Ka3, Ke3. cbn in Ka3, Ke3.
  rewrite get_argv_bind in H3 |- *. rewrite run_bind, model_step_run in H3 |- *.
  cbv beta iota in H3 |- *.
  repeat (rewrite run_bind, print_run in H3; cbv beta iota in H3).
  repeat (rewrite run_bind, print_run; cbv beta iota).
  fold session_handlers in H3 |- *.
  eexists. split; [reflexivity|].
  assert (default_model_in P w3 = default_model_in P w1) as Hm.
  { apply default_model_in_environ. congruence. }
  assert (argv w3 = argv w) as Ha by congruence.
  rewrite Hm, Ha in *.
  match type of H3 with
  | _ ∈ trace (try_except _ _ ?w5).2 =>
      assert (clean w5) as Hc5; [|split; [exact Hc5|]; split;
                                   [exact (session_host P w5 args Hc5 H3)|]]
  end.
  - intros a Hin. apply (Hc3 a). revert Hin.
    destruct (lacks_model_flag (argv w)); cbn;
      rewrite ?elem_of_app, ?elem_of_cons, ?elem_of_nil; intuition discriminate.
  - split; [done|]. cbn [snd]. by destruct (lacks_model_flag (argv w)).
Qed.

Lemma inject_api_keys_environ P w w' :
  environ w' = environ w ->
  environ (inject_api_keys P w').2 = environ (inject_api_keys P w).2.
Proof. intros H. apply map_eq. intros name. by rewrite !inject_api_keys_env, H. Qed.

(** The command line and the environment a gate that returns leaves. *)
Lemma main_gate_Return_state P w w1 :
  main_gate P w = (Return tt, w1) ->
  argv w1 = gate_argv w /\ environ w1 = environ w /\ host w1 = host w.
Proof.
  intros H. destruct (asks_version w) eqn:Hv.
  { rewrite main_gate_version_run in H by done. discriminate. }
  destruct (mem "--logout" (argv w)) eqn:Hl.
  { rewrite main_gate_steps, Hl in H by done. discriminate. }
  rewrite main_gate_run in H by done.
  destruct (skips_auth w); cbn [negb] in H.
  - rewrite print_run in H. by injection H as <-.
  - apply bind_Return in H as (email & w2 & Ha & Hp). rewrite print_run in Hp.
    injection Hp as <-.
    pose proof (keeps_authenticate P Argv ltac:(discriminate) ltac:(discriminate)
                  (add_events (banners P w) (with_argv (gate_argv w) w))) as Ka.
    pose proof (keeps_authenticate P Environ ltac:(discriminate) ltac:(discriminate)
                  (add_events (banners P w) (with_argv (gate_argv w) w))) as Ke.
    pose proof (keeps_authenticate P Host ltac:(discriminate) ltac:(discriminate)
                  (add_events (banners P w) (with_argv (gate_argv w) w))) as Kh.
    rewrite Ha in Ka, Ke, Kh. by cbn in *.
Qed.

(** A run that starts the host has passed the gate and come to step 5. *)
Lemma main_host P w args :
  clean w -> HostMain args ∈ trace (main P w).2 ->
  exists w1 w5,
    main_gate P w = (Return tt, w1) /\
    main P w = try_except (run_aider_main P) session_handlers w5 /\
    clean w5 /\ args = argv w5 /\
    args =
      if lacks_model_flag (gate_argv w)
      then gate_argv w ++ ["--model"; default_model_in P (inject_api_keys P w).2]
      else gate_argv w.
Proof.
  intros Hc H. unfold main in *.
  destruct (host_in_bind _ _ _ _ (quiet_main_gate P) Hc H) as ([] & w1 & E1 & Hc1 & H1).
  destruct (main_session_host P w1 args Hc1 H1) as (w5 & E5 & Hc5 & Ha & _ & Ha5).
  destruct (main_gate_Return_state P w w1 E1) as (Hg & He & _).
  exists w1, w5. rewrite run_bind, E1. cbv beta iota.
  repeat split; [done..|].
  rewrite Ha, Ha5, Hg.
  by rewrite (default_model_in_environ P (inject_api_keys P w).2 (inject_api_keys P w1).2)
    by by apply inject_api_keys_environ.
Qed.

Lemma quiet_grows {A} (m : prog A) : quiet m -> grows m.
Proof. intros Hq w. destruct (Hq w) as (evs & H & _). eauto. Qed.

Lemma grows_bind {A B} (m : prog A) (f : A -> prog B) :
  grows m -> (forall a, grows (f a)) -> grows (m ≫= f).
Proof.
  intros Hm Hf w. rewrite run_bind. destruct (Hm w) as (evs & Hevs).
  destruct (m w) as [[a|e|c] w1]; cbn in *; [|eauto..].
  destruct (Hf a w1) as (evs' & Hevs'). rewrite Hevs', Hevs, <- app_assoc. eauto.
Qed.

Lemma grows_session P : grows (try_except (run_aider_main P) session_handlers).
Proof.
  intros w. rewrite session_run.
  destruct (aider_main P (argv w)) as [r|e|c]; [cbn; eauto| |cbn; eauto].
  destruct (isinstance e KeyboardInterrupt); [cbn; eauto|].
  destruct (isinstance e Exception); cbn; eauto.
Qed.

Lemma grows_main_session P : grows (main_session P).
Proof.
  unfold main_session. fold session_handlers.
  apply grows_bind; [apply quiet_grows, quiet_inject_api_keys|intros status].
  apply grows_bind; [apply quiet_grows, quiet_check_api_keys|intros have].
  apply grows_bind; [apply quiet_grows; quiet_tac|intros _].
  apply grows_bind; [apply quiet_grows, quiet_get_argv|intros args].
  apply grows_bind;
    [apply quiet_grows; destruct (_ || _)%bool;
       [apply quiet_print_key_status|apply quiet_ret]|intros _].
  apply grows_bind; [apply quiet_grows, quiet_apply_all_patches|intros _].
  apply grows_bind; [apply quiet_grows, quiet_get_argv|intros args'].
  apply grows_bind;
    [apply quiet_grows; unfold get_default_model, get_anthropic_key, get_openai_key;
       quiet_tac|intros _].
  apply grows_bind; [apply quiet_grows, quiet_print|intros _].
  apply grows_bind; [apply quiet_grows, quiet_print|intros _].
  apply grows_bind; [apply quiet_grows, quiet_print|intros _].
  apply grows_session.
Qed.

(** X20.  [main] starts the host only behind the gate: in a run that
    calls the host's entry point, the authentication was skipped, or the
    run has welcomed a user by an email and either the development flag
    is [1] or the run has sent the request for that email and the server
    has granted it. *)
Theorem host_runs_only_behind_the_gate (P : platform) (w : state) (args : list string) :
  clean w ->
  HostMain args ∈ trace (main P w).2 ->
  skips_auth w = true
  \/ exists email,
       Print (NL +:+ "Welcome, " +:+ email +:+ "!" +:+ NL) ∈ trace (main P w).2 /\
       (environ w !! "RUNANYWHERE_DEV_MODE" = Some "1"
        \/ HttpGet (sent_request w email) ∈ trace (main P w).2 /\
           grants (http_get P (sent_request w email))).
Proof.
  intros Hc H. destruct (main_host P w args Hc H) as (w1 & _ & Hg & _).
  destruct (main_gate_Return P w w1 Hg) as [Hs|(email & Hw & Hv)]; [by left|].
  right. exists email.
  assert (forall ev, ev ∈ trace w1 -> ev ∈ trace (main P w).2) as Hin.
  { intros ev Hev. unfold main. rewrite run_bind, Hg. cbv beta iota.
    destruct (grows_main_session P w1) as (evs & ->). apply elem_of_app. by left. }
  split; [by apply Hin|]. destruct Hv as [Hd|[Hr Hgr]]; [by left|]. right. by split; [apply Hin|].
Qed.

(** X21.  The command line the host is started with is [sys.argv]
    without its first [--skip-auth], followed by [--model] and the default
    model exactly when no argument is [--model] and the text [-m] occurs
    nowhere in the arguments joined by spaces (so also not inside a file
    name). *)
Theorem default_model_is_appended_once (P : platform) (w : state) (args : list string) :
  clean w ->
  HostMain args ∈ trace (main P w).2 ->
  args =
    if lacks_model_flag (gate_argv w)
    then gate_argv w ++ ["--model"; default_model_in P (inject_api_keys P w).2]
    else gate_argv w.
Proof.
  intros Hc H. by destruct (main_host P w args Hc H) as (_ & _ & _ & _ & _ & _ & Ha).
Qed.

(** X22.  Once the host is started, the process ends as the host does:
    the status the host returns (0 for [None]), the status of its
    [sys.exit], 0 after [KeyboardInterrupt], 1 after any other
    [Exception]; an exception outside [Exception] escapes. *)
Theorem host_outcome_becomes_exit_status (P : platform) (w : state) (args : list string) :
  clean w ->
  HostMain args ∈ trace (entry_point P w).2 ->
  (entry_point P w).1 =
    match aider_main P args with
    | Return r => SysExit (default 0 r)
    | SysExit status => SysExit status
    | Raise e =>
        if isinstance e KeyboardInterrupt then SysExit 0
        else if isinstance e Exception then SysExit 1
        else Raise e
    end.
Proof.
  intros Hc H. unfold entry_point in *.
  assert (HostMain args ∈ trace (main P w).2) as Hm.
  { rewrite run_bind in H. destruct (main P w) as [[r|e|c] w1]; exact H. }
  destruct (main_host P w args Hc Hm) as (_ & w5 & _ & E & _ & -> & _).
  rewrite run_bind, E, session_run.
  destruct (aider_main P (argv w5)) as [[c|]|e|c]; try reflexivity.
  destruct (isinstance e KeyboardInterrupt); [reflexivity|].
  by destruct (isinstance e Exception).
Qed.

(** ** The access gate: what of an email counts *)

Lemma lower_empty_iff s : lower s = "" <-> s = "".
Proof. destruct s; cbn; split; done. Qed.

Lemma truthy_lower s : truthy (lower s) = truthy s.
Proof. by destruct s. Qed.

Lemma verify_email_guard email :
  (negb (truthy email) || negb (truthy (strip email)))%bool
    = negb (truthy (lower (strip email))).
Proof.
  rewrite truthy_lower. destruct (truthy email) eqn:E; [done|].
  apply truthy_false in E as ->. reflexivity.
Qed.

(** X23.  [verify_email] looks at an email only trimmed and in lower
    case: two emails that agree in that form get the same verdict, and
    the same run. *)
Theorem verify_email_ignores_case_and_padding
    (P : platform) (email1 email2 : string) (w : state) :
  lower (strip email1) = lower (strip email2) ->
  verify_email P email1 w = verify_email P email2 w.
Proof.
  intros H. unfold verify_email. rewrite !verify_email_guard. cbv zeta. by rewrite H.
Qed.

(** ** Instances of the further properties *)


Lemma authenticate_grants_only_verified_witness :
  whitespace_only "User@Example.COM" = false /\
  (environ Sample.first_run !! "RUNANYWHERE_DEV_MODE" = Some "1"
   \/ grants (http_get Sample.shipped (sent_request Sample.first_run "User@Example.COM"))).
Proof.
  apply (authenticate_grants_only_verified Sample.shipped Sample.first_run
           (authenticate Sample.shipped Sample.first_run).2 "User@Example.COM").
  vm_compute. reflexivity.
Defined.

Lemma authenticate_denied_exits_and_clears_witness :
  (authenticate Sample.unknown_user Sample.returning).1 = SysExit 1 /\
  Print "  Access Denied" ∈ trace (authenticate Sample.unknown_user Sample.returning).2 /\
  environ (authenticate Sample.unknown_user Sample.returning).2
    = environ Sample.returning /\
  (fs_fault Sample.unknown_user FsUnlink = None ->
   cache_file (authenticate Sample.unknown_user Sample.returning).2 = None).
Proof.
  apply (authenticate_denied_exits_and_clears Sample.unknown_user Sample.returning
           (prompt_for_email Sample.unknown_user Sample.returning).2
           (verify_email Sample.unknown_user "user@example.com"
              (add_events [Print (NL +:+ "Verifying email...")]
                 (prompt_for_email Sample.unknown_user Sample.returning).2)).2
           "user@example.com").
  - vm_compute. reflexivity.
  - vm_compute. reflexivity.
Defined.

Lemma prompt_takes_first_plausible_line_witness :
  (prompt_for_email Sample.shipped Sample.mistyping).1 = Return "a@b.c" /\
  stdin (prompt_for_email Sample.shipped Sample.mistyping).2 = ["later"].
Proof.
  apply (proj1 (prompt_takes_first_plausible_line Sample.shipped Sample.mistyping
                  eq_refl eq_refl) ["nobody"] " a@b.c " ["later"]).
  - reflexivity.
  - repeat constructor.
  - reflexivity.
Defined.

Lemma environment_email_is_taken_unchecked_witness :
  prompt_for_email Sample.shipped Sample.email_in_env =
    (Return "me@example.com",
     add_events [Print "Using email from environment:  me@example.com "]
       Sample.email_in_env).
Proof.
  apply (environment_email_is_taken_unchecked Sample.shipped Sample.email_in_env
           " me@example.com ").
  - reflexivity.
  - reflexivity.
  - discriminate.
Defined.


Lemma status_reports_the_environment_witness :
  exists status,
    (inject_api_keys Sample.keyed Sample.first_run).1 = Return status /\
    status !! "anthropic_available" = Some true /\
    status !! "anthropic_injected" = Some true.
Proof.
  destruct (status_reports_the_environment Sample.keyed Sample.first_run)
    as (status & Hs & H).
  exists status. split; [exact Hs|].
  apply (H "anthropic" "ANTHROPIC_API_KEY"). apply elem_of_cons. by left.
Defined.

Lemma default_model_follows_credentials_witness :
  get_default_model Sample.shipped Sample.model_in_env
    = (Return "opus", Sample.model_in_env) /\
  exists m,
    get_default_model Sample.shipped Sample.own_openai = (Return m, Sample.own_openai) /\
    (m = "gpt-4o" <->
     usable (get_anthropic_key Sample.shipped Sample.own_openai).1 = false /\
     usable (get_openai_key Sample.shipped Sample.own_openai).1 = true) /\
    (m <> "gpt-4o" -> m = "sonnet").
Proof.
  split.
  - apply (proj1 (default_model_follows_credentials Sample.shipped Sample.model_in_env)).
    + reflexivity.
    + discriminate.
  - apply (proj2 (default_model_follows_credentials Sample.shipped Sample.own_openai)).
    reflexivity.
Defined.

Lemma encoded_key_is_never_a_placeholder_witness :
  _decode_key Sample.shipped (encode_key_for_config "sk-test") = Some "sk-test".
Proof.
  apply (proj2 (proj2 (encoded_key_is_never_a_placeholder Sample.shipped "sk-test"))).
  - discriminate.
  - reflexivity.
Defined.

Lemma sdk_documentation_falls_back_witness :
  get_sdk_documentation Sample.unreadable_docs = SDK_DOCUMENTATION Sample.unreadable_docs /\
  get_sdk_documentation Sample.shipped = SDK_DOCUMENTATION Sample.shipped.
Proof.
  split.
  - eapply (proj1 (sdk_documentation_falls_back Sample.unreadable_docs)).
    + reflexivity.
    + exists "swift". eexists. split; [apply elem_of_cons; by left|].
      split; [reflexivity|]. by left.
  - apply (proj2 (sdk_documentation_falls_back Sample.shipped)). by left.
Defined.

Lemma patching_twice_prepends_twice_witness :
  let p := runanywhere_prefix Sample.shipped in
  let w1 := (apply_all_patches Sample.shipped Sample.inheriting).2 in
  let w2 := (apply_all_patches Sample.shipped w1).2 in
  slot_text FencedSlot (host w1) = Some (p +:+ p +:+ "EDITBLOCK") /\
  slot_text FencedSlot (host w2) = Some (p +:+ p +:+ p +:+ "EDITBLOCK").
Proof.
  cbv zeta.
  apply (patching_twice_prepends_twice Sample.shipped Sample.inheriting).
  - reflexivity.
  - eexists. reflexivity.
  - eexists. reflexivity.
  - discriminate.
Defined.


Lemma version_flag_ends_the_run_witness :
  main Sample.shipped Sample.asking_version =
    (SysExit 0, add_events [Print "runanywhere-agent 0.1.0"] Sample.asking_version).
Proof.
  apply (version_flag_ends_the_run Sample.shipped Sample.asking_version). reflexivity.
Defined.

Lemma logout_flag_ends_the_run_witness :
  main Sample.shipped Sample.logging_out =
    (SysExit 0,
     add_events
       [Print (banner Sample.shipped);
        Print "Logged out successfully. You will need to re-authenticate next time."]
       (with_cache_file None Sample.logging_out)).
Proof.
  apply (logout_flag_ends_the_run Sample.shipped Sample.logging_out).
  - reflexivity.
  - reflexivity.
Defined.

Lemma skip_auth_bypasses_the_gate_witness :
  main_gate Sample.shipped Sample.skipping_auth =
    (Return tt,
     add_events
       [Print (banner Sample.shipped);
        Print ("[DEV MODE] Skipping authentication" +:+ NL)]
       (with_argv ["runanywhere-agent"] Sample.skipping_auth)).
Proof.
  apply (skip_auth_bypasses_the_gate Sample.shipped Sample.skipping_auth).
  - reflexivity.
  - reflexivity.
  - reflexivity.
Defined.

Lemma host_runs_only_behind_the_gate_witness :
  skips_auth Sample.first_run = true
  \/ exists email,
       Print (NL +:+ "Welcome, " +:+ email +:+ "!" +:+ NL)
         ∈ trace (main Sample.keyed Sample.first_run).2 /\
       (environ Sample.first_run !! "RUNANYWHERE_DEV_MODE" = Some "1"
        \/ HttpGet (sent_request Sample.first_run email)
             ∈ trace (main Sample.keyed Sample.first_run).2 /\
           grants (http_get Sample.keyed (sent_request Sample.first_run email))).
Proof.
  apply (host_runs_only_behind_the_gate Sample.keyed Sample.first_run
           ["runanywhere-agent"; "--model"; "sonnet"]).
  - intros args H. by apply elem_of_nil in H.
  - apply list_elem_of_In. vm_compute. tauto.
Defined.

Lemma default_model_is_appended_once_witness :
  ["runanywhere-agent"; "--model"; "sonnet"] =
    if lacks_model_flag (gate_argv Sample.skipping_auth)
    then gate_argv Sample.skipping_auth
           ++ ["--model";
               default_model_in Sample.keyed
                 (inject_api_keys Sample.keyed Sample.skipping_auth).2]
    else gate_argv Sample.skipping_auth.
Proof.
  apply (default_model_is_appended_once Sample.keyed Sample.skipping_auth).
  - intros args H. by apply elem_of_nil in H.
  - apply list_elem_of_In. vm_compute. tauto.
Defined.

Lemma host_outcome_becomes_exit_status_witness :
  (entry_point Sample.crashing Sample.skipping_auth).1 = SysExit 1.
Proof.
  apply (host_outcome_becomes_exit_status Sample.crashing Sample.skipping_auth
           ["runanywhere-agent"; "--model"; "sonnet"]).
  - intros args H. by apply elem_of_nil in H.
  - apply list_elem_of_In. vm_compute. tauto.
Defined.

Lemma verify_email_ignores_case_and_padding_witness :
  verify_email Sample.shipped "  User@Example.COM " Sample.first_run
    = verify_email Sample.shipped "user@example.com" Sample.first_run.
Proof.
  apply (verify_email_ignores_case_and_padding Sample.shipped
           "  User@Example.COM " "user@example.com" Sample.first_run).
  reflexivity.
Defined.
